(** * Entitlement exporter (cli.py): paginated fetch, key sanitisation,
      accumulation of the Terraform mappings, file emitters, import runner.

    The Python program is embedded shallowly.  JSON values returned by the
    Graph API are a small inductive type; Python dictionaries are
    insertion-ordered association lists with unique keys (the order is what
    [json.dump] writes); exceptions are an error type; the [while] loop of
    [get_all] takes fuel; the Graph endpoint is a function from the requested
    URL to the decoded body (one export run reads a snapshot of the tenant);
    the output directory is a finite map from file names to file contents. *)

From Stdlib Require Import ZArith Ascii String List Lia.
From stdpp Require Import base option list strings gmap.

Set Warnings "-register-all".
Local Open Scope Z_scope.

(** ** Python values *)

Module Py.

(** Decoded JSON, as [requests.Response.json()] returns it (numbers are
    restricted to integers; text is held as its UTF-8 bytes, and slices and
    iteration go by character, see [string_take] and [characters]). *)
Inductive json : Type :=
| JNull
| JBool (b : bool)
| JNum (z : Z)
| JStr (s : string)
| JArr (l : list json)
| JObj (o : list (string * json)).

(** A [dict] with string keys: insertion-ordered, one binding per key. *)
Definition dict (V : Type) : Type := list (string * V).

Fixpoint dget {V : Type} (k : string) (d : dict V) : option V :=
  match d with
  | [] => None
  | (k', v) :: d' => if String.eqb k k' then Some v else dget k d'
  end.

(** [d[k] = v]: an existing key keeps its position and gets the new value,
    a new key goes to the end. *)
Fixpoint dset {V : Type} (k : string) (v : V) (d : dict V) : dict V :=
  match d with
  | [] => [(k, v)]
  | (k', v') :: d' =>
      if String.eqb k k' then (k, v) :: d' else (k', v') :: dset k v d'
  end.

Definition dkeys {V : Type} (d : dict V) : list string := map fst d.

(** Exceptions the modelled code can raise. *)
Inductive exn : Type :=
| KeyError (k : string)
| TypeError
| AttributeError
| RequestException
| OSError (path : string)
| CalledProcessError (rc : Z).

(** Outcome of a computation that may raise or (for the pagination loop)
    run out of fuel. *)
Inductive result (A : Type) : Type :=
| Ok (a : A)
| Raise (e : exn)
| OutOfFuel.
Arguments Ok {A} a.
Arguments Raise {A} e.
Arguments OutOfFuel {A}.

Definition bind {A B : Type} (m : result A) (f : A -> result B) : result B :=
  match m with
  | Ok a => f a
  | Raise e => Raise e
  | OutOfFuel => OutOfFuel
  end.

Fixpoint foldM {A S : Type} (f : S -> A -> result S) (l : list A) (s : S)
  : result S :=
  match l with
  | [] => Ok s
  | x :: l' => bind (f s x) (foldM f l')
  end.

Fixpoint mapM {A B : Type} (f : A -> result B) (l : list A) : result (list B) :=
  match l with
  | [] => Ok []
  | x :: l' => bind (f x) (fun y => bind (mapM f l') (fun ys => Ok (y :: ys)))
  end.

(** Truth value of a JSON value in a condition ([while url:]). *)
Definition truthy (j : json) : bool :=
  match j with
  | JNull => false
  | JBool b => b
  | JNum z => negb (z =? 0)
  | JStr s => negb (String.eqb s EmptyString)
  | JArr l => match l with [] => false | _ => true end
  | JObj o => match o with [] => false | _ => true end
  end.

(** [j.get(k, default)]: only dictionaries have [get]. *)
Definition get_default (k : string) (default : json) (j : json) : result json :=
  match j with
  | JObj o => Ok (match dget k o with Some v => v | None => default end)
  | _ => Raise AttributeError
  end.

(** [j[k]] with a string key. *)
Definition subscript (k : string) (j : json) : result json :=
  match j with
  | JObj o => match dget k o with Some v => Ok v | None => Raise (KeyError k) end
  | _ => Raise TypeError
  end.

(** In UTF-8 a byte [10xxxxxx] continues the character that the bytes
    before it began; every other byte begins a character. *)
Definition is_continuation (c : ascii) : bool :=
  let n := nat_of_ascii c in (128 <=? n)%nat && (n <? 192)%nat.

Definition starts_with_continuation (s : string) : bool :=
  match s with
  | String c _ => is_continuation c
  | EmptyString => false
  end.

(** The characters of a text, each as a text of its own. *)
Fixpoint characters (s : string) : list string :=
  match s with
  | EmptyString => []
  | String c s' =>
      match characters s' with
      | continued :: rest =>
          if starts_with_continuation s' then String c continued :: rest
          else String c EmptyString :: continued :: rest
      | [] => [String c EmptyString]
      end
  end.

(** The elements a [for] loop, a comprehension or [list +=] takes from a
    value: the items of a list, the characters of a string, the keys of a
    dictionary; other values are not iterable. *)
Definition py_iter (j : json) : result (list json) :=
  match j with
  | JArr l => Ok l
  | JStr s => Ok (map JStr (characters s))
  | JObj o => Ok (map (fun kv => JStr (fst kv)) o)
  | _ => Raise TypeError
  end.

(** The first [n] characters of a text: the bytes up to the one that
    begins character [n + 1]. *)
Fixpoint string_take (n : nat) (s : string) : string :=
  match s with
  | EmptyString => EmptyString
  | String c s' =>
      if is_continuation c then String c (string_take n s')
      else match n with
           | O => EmptyString
           | S n' => String c (string_take n' s')
           end
  end.

(** [j[:n]]: strings and lists can be sliced. *)
Definition slice_to (n : nat) (j : json) : result json :=
  match j with
  | JStr s => Ok (JStr (string_take n s))
  | JArr l => Ok (JArr (take n l))
  | _ => Raise TypeError
  end.

(** ** Strings *)

Fixpoint string_map (f : ascii -> ascii) (s : string) : string :=
  match s with
  | EmptyString => EmptyString
  | String c s' => String (f c) (string_map f s')
  end.

(** [s.replace(old, new)] for ASCII characters [old] and [new]: in UTF-8
    text their bytes occur as these characters only. *)
Definition replace (old new : ascii) (s : string) : string :=
  string_map (fun c => if Ascii.eqb c old then new else c) s.

Definition lower_char (c : ascii) : ascii :=
  let n := nat_of_ascii c in
  if (65 <=? n)%nat && (n <=? 90)%nat then ascii_of_nat (n + 32) else c.

Fixpoint string_forall (p : ascii -> bool) (s : string) : bool :=
  match s with
  | EmptyString => true
  | String c s' => p c && string_forall p s'
  end.

Definition is_ascii_char (c : ascii) : bool := (nat_of_ascii c <? 128)%nat.

(** [s.isascii()] *)
Definition is_ascii (s : string) : bool := string_forall is_ascii_char s.

(** [s.lower()].  On ASCII text it maps [A-Z] to [a-z], character by
    character.  On other text (held as its UTF-8 bytes) it is the Unicode
    lower-casing of the interpreter, which is not character-wise and can
    change the length: [unicode_lower] stands for it. *)
Definition lower (unicode_lower : string -> string) (s : string) : string :=
  if is_ascii s then string_map lower_char s else unicode_lower s.

(** [needle in hay]. *)
Fixpoint contains (needle hay : string) : bool :=
  String.prefix needle hay ||
  match hay with
  | EmptyString => false
  | String _ hay' => contains needle hay'
  end.

End Py.
Import Py.

(** * cli.py *)

(** [safe(name)]: spaces and hyphens become underscores, then lower case. *)
Definition safe (unicode_lower : string -> string) (name : string) : string :=
  lower unicode_lower (replace "-" "_" (replace " " "_" name)).

(** What [safe] does to one character of an ASCII name. *)
Definition safe_char (c : ascii) : ascii :=
  lower_char (if Ascii.eqb (if Ascii.eqb c " " then "_"%char else c) "-"
              then "_"%char
              else (if Ascii.eqb c " " then "_"%char else c)).

(** The two characters [safe] replaces. *)
Definition is_separator (c : ascii) : bool := Ascii.eqb c " " || Ascii.eqb c "-".

Definition separator_free (s : string) : bool :=
  string_forall (fun c => negb (is_separator c)) s.

(** [safe] applied to a decoded value: only [str] has [replace]. *)
Definition safe_value (unicode_lower : string -> string) (j : json)
  : result string :=
  match j with
  | JStr s => Ok (safe unicode_lower s)
  | _ => Raise AttributeError
  end.

Notation "x <- m ;; k" := (bind m (fun x => k))
  (at level 100, m at next level, right associativity, only parsing).

Definition GRAPH_API : string := "https://graph.microsoft.com/beta".

Definition nl : string := String (ascii_of_nat 10) EmptyString.
Definition dq : string := String (ascii_of_nat 34) EmptyString.

(** The lines of a text, each followed by a line feed. *)
Definition unlines (ls : list string) : string :=
  fold_right (fun l acc => l +:+ nl +:+ acc) EmptyString ls.

(** The accumulators of [main]. *)
Record state : Type := {
  access_packages : dict json;
  assignment_policies : dict json;
  assignments : dict json;
  grouped_assignments : dict (dict json);
  import_cmds : list string
}.

Definition empty_state : state :=
  {| access_packages := []; assignment_policies := []; assignments := [];
     grouped_assignments := []; import_cmds := [] |}.

(** The output directory (after [os.chdir(out_dir)]) and what the program
    has printed. *)
Record world : Type := {
  fs : gmap string string;
  stdout : list string
}.

(** How a run of the program ends. *)
Inductive run : Type :=
| Finished (w : world)
| Crashed (e : exn) (w : world)
| Diverged.

Definition and_then (r : run) (k : world -> run) : run :=
  match r with
  | Finished w => k w
  | other => other
  end.

Definition print (line : string) (w : world) : world :=
  {| fs := fs w; stdout := stdout w ++ [line] |}.

(** [Path(name).exists()] *)
Definition path_exists (name : string) (w : world) : bool :=
  match fs w !! name with Some _ => true | None => false end.

(** [Path(name).read_text()] of an existing file. *)
Definition read_text (name : string) (w : world) : string :=
  default EmptyString (fs w !! name).

(** The text of the two scaffold files (lines 115-150 and 155-178). *)
Definition main_tf_template : string :=
  unlines [
    "resource " +:+ dq +:+ "azuread_access_package" +:+ dq +:+ " " +:+ dq +:+ "packages" +:+ dq +:+ " {";
    "  for_each     = var.access_packages";
    "  display_name = each.key";
    "  catalog_id   = each.value.catalog_id";
    "  description  = each.value.description";
    "}";
    EmptyString;
    "resource " +:+ dq +:+ "azuread_access_package_assignment_policy" +:+ dq +:+ " " +:+ dq +:+ "policies" +:+ dq +:+ " {";
    "  for_each             = var.assignment_policies";
    "  display_name         = each.key";
    "  access_package_id    = azuread_access_package.packages[each.value.access_package_key].id";
    "  duration_in_days     = each.value.duration_in_days";
    "  request_approval     = each.value.request_approval";
    EmptyString;
    "  approval_settings {";
    "    approval_mode  = " +:+ dq +:+ "Serial" +:+ dq;
    "    stages = [";
    "      {";
    "        primary_approvers    = each.value.approvers_primary";
    "        escalation_approvers = each.value.approvers_secondary";
    "        duration_in_days     = 7";
    "      }";
    "    ]";
    "  }";
    EmptyString;
    "  requestor_settings {";
    "    scope_type = " +:+ dq +:+ "AllExistingConnectedOrganizationSubjects" +:+ dq;
    "  }";
    "}";
    EmptyString;
    "resource " +:+ dq +:+ "azuread_access_package_assignment" +:+ dq +:+ " " +:+ dq +:+ "assignments" +:+ dq +:+ " {";
    "  for_each          = var.assignments";
    "  access_package_id = azuread_access_package.packages[each.value.access_package_key].id";
    "  target_id         = each.value.target_id";
    "}"
  ].

Definition variables_tf_template : string :=
  unlines [
    "variable " +:+ dq +:+ "access_packages" +:+ dq +:+ " {";
    "  type = map(object({";
    "    catalog_id   = string";
    "    description  = string";
    "  }))";
    "}";
    EmptyString;
    "variable " +:+ dq +:+ "assignment_policies" +:+ dq +:+ " {";
    "  type = map(object({";
    "    access_package_key  = string";
    "    duration_in_days    = number";
    "    request_approval    = bool";
    "    approvers_primary   = list(string)";
    "    approvers_secondary = list(string)";
    "  }))";
    "}";
    EmptyString;
    "variable " +:+ dq +:+ "assignments" +:+ dq +:+ " {";
    "  type = map(object({";
    "    access_package_key = string";
    "    target_id          = string";
    "  }))";
    "}"
  ].

Section Model.

(** [str.lower] on text that is not ASCII (see [lower]). *)
Variable unicode_lower : string -> string.
(** [requests.get(url, headers=headers).json()] with the run's headers:
    the decoded body, or the exception of the transport or of the decoder. *)
Variable http_get : string -> result json.
(** What an f-string puts for a value that is not a [str]. *)
Variable py_repr : json -> string.
(** The text [json.dump(value, f, indent=2)] writes. *)
Variable json_dump : json -> string.
(** Whether [open(name, "w")] succeeds in the output directory. *)
Variable creatable : string -> bool.
(** [subprocess.run(argv)] of an installed program: exit status and the
    directory afterwards. *)
Variable subprocess_run : list string -> gmap string string -> Z * gmap string string.

(** [f"{j}"] *)
Definition fmt (j : json) : string :=
  match j with
  | JStr s => s
  | other => py_repr other
  end.

(** [requests.get] turns a URL that is not a string into its [str], which
    has no usable scheme: the request raises. *)
Definition request (url : json) : result json :=
  match url with
  | JStr s => http_get s
  | _ => Raise RequestException
  end.

(** The [while url:] loop of [get_all] (lines 19-22). *)
Fixpoint get_all_loop (fuel : nat) (url : json) (items : list json)
  : result (list json) :=
  if truthy url then
    match fuel with
    | O => OutOfFuel
    | S fuel' =>
        res <- request url ;;
        value <- get_default "value" (JArr []) res ;;
        more <- py_iter value ;;
        next <- get_default "@odata.nextLink" JNull res ;;
        get_all_loop fuel' next (items ++ more)
    end
  else Ok items.

Definition get_all (fuel : nat) (url : string) : result (list json) :=
  get_all_loop fuel (JStr url) [].

Definition get_display_name (object_id : json) : result json :=
  res <- http_get (GRAPH_API +:+ "/directoryObjects/" +:+ fmt object_id) ;;
  get_default "displayName" (JStr "UnknownGroup") res.

Definition packages_url (catalog_id : string) : string :=
  GRAPH_API +:+ "/identityGovernance/entitlementManagement/accessPackages?$filter=catalogId eq '"
    +:+ catalog_id +:+ "'".

Definition policies_url (pkg_id : json) : string :=
  GRAPH_API +:+ "/identityGovernance/entitlementManagement/accessPackages/"
    +:+ fmt pkg_id +:+ "/assignmentPolicies".

Definition assignments_url (pkg_id : json) : string :=
  GRAPH_API +:+ "/identityGovernance/entitlementManagement/accessPackageAssignments?$filter=accessPackageId eq '"
    +:+ fmt pkg_id +:+ "'".

(** The two comprehensions of lines 70-77: the [id] of every approver of
    every approval stage, for the given approver list. *)
Definition approver_ids (field : string) (pol : json) : result (list json) :=
  settings <- get_default "requestApprovalSettings" (JObj []) pol ;;
  stages <- get_default "approvalStages" (JArr []) settings ;;
  stage_list <- py_iter stages ;;
  per_stage <- mapM (fun stage =>
      approvers <- get_default field (JArr []) stage ;;
      approver_list <- py_iter approvers ;;
      mapM (get_default "id" JNull) approver_list) stage_list ;;
  Ok (concat per_stage).

Definition policy_entry (name : string) (duration approval : json)
    (primary secondary : list json) : json :=
  JObj [("access_package_key", JStr name);
        ("duration_in_days", duration);
        ("request_approval", approval);
        ("approvers_primary", JArr primary);
        ("approvers_secondary", JArr secondary)].

(** Body of [for pol in pols] (lines 65-79). *)
Definition add_policy (name : string) (st : state) (pol : json) : result state :=
  pol_name <- subscript "displayName" pol ;;
  pol_safe <- safe_value unicode_lower pol_name ;;
  let pol_key := name +:+ "_" +:+ pol_safe in
  duration <- get_default "durationInDays" (JNum 30) pol ;;
  settings <- get_default "requestApprovalSettings" (JObj []) pol ;;
  approval <- get_default "isApprovalRequired" (JBool false) settings ;;
  primary <- approver_ids "primaryApprovers" pol ;;
  secondary <- approver_ids "escalationApprovers" pol ;;
  pol_id <- subscript "id" pol ;;
  Ok {| access_packages := access_packages st;
        assignment_policies :=
          dset pol_key (policy_entry name duration approval primary secondary)
               (assignment_policies st);
        assignments := assignments st;
        grouped_assignments := grouped_assignments st;
        import_cmds := import_cmds st ++
          ["terraform import azuread_access_package_assignment_policy."
             +:+ pol_key +:+ " " +:+ fmt pol_id] |}.

Definition assignment_entry (name : string) (target_id : json) : json :=
  JObj [("access_package_key", JStr name); ("target_id", target_id)].

(** [f"{name}_user_{target_id[:6]}"] *)
Definition assign_key_of (name : string) (target_id : json) : result string :=
  prefix <- slice_to 6 target_id ;;
  Ok (name +:+ "_user_" +:+ fmt prefix).

(** [safe(get_display_name(headers, target_id))] *)
Definition resolve_group (target_id : json) : result string :=
  display <- get_display_name target_id ;;
  safe_value unicode_lower display.

(** [grouped_assignments.setdefault(group, {})[assign_key] = assignment] *)
Definition group_add (group assign_key : string) (assignment : json)
    (grouped : dict (dict json)) : dict (dict json) :=
  dset group (dset assign_key assignment (default [] (dget group grouped))) grouped.

(** Body of [for a in assigns] (lines 83-93). *)
Definition add_assignment (grouped_tfvars : bool) (name : string) (st : state)
    (a : json) : result state :=
  target_id <- subscript "targetId" a ;;
  group <- resolve_group target_id ;;
  assign_key <- assign_key_of name target_id ;;
  let assignment := assignment_entry name target_id in
  a_id <- subscript "id" a ;;
  Ok {| access_packages := access_packages st;
        assignment_policies := assignment_policies st;
        assignments := dset assign_key assignment (assignments st);
        grouped_assignments :=
          if grouped_tfvars
          then group_add group assign_key assignment (grouped_assignments st)
          else grouped_assignments st;
        import_cmds := import_cmds st ++
          ["terraform import azuread_access_package_assignment."
             +:+ assign_key +:+ " " +:+ fmt a_id] |}.

Definition package_entry (catalog_id description : json) : json :=
  JObj [("catalog_id", catalog_id); ("description", description)].

(** [safe(pkg["displayName"])] *)
Definition package_key (pkg : json) : result string :=
  display <- subscript "displayName" pkg ;;
  safe_value unicode_lower display.

(** Body of [for pkg in packages] (lines 56-93); [pkg["id"]] is read once
    here, the three reads of the source give the same value. *)
Definition add_package (fuel : nat) (grouped_tfvars : bool) (st : state)
    (pkg : json) : result state :=
  name <- package_key pkg ;;
  catalog <- subscript "catalogId" pkg ;;
  description <- get_default "description" (JStr EmptyString) pkg ;;
  pkg_id <- subscript "id" pkg ;;
  let st1 :=
    {| access_packages :=
         dset name (package_entry catalog description) (access_packages st);
       assignment_policies := assignment_policies st;
       assignments := assignments st;
       grouped_assignments := grouped_assignments st;
       import_cmds := import_cmds st ++
         ["terraform import azuread_access_package." +:+ name +:+ " "
            +:+ fmt pkg_id] |} in
  pols <- get_all fuel (policies_url pkg_id) ;;
  st2 <- foldM (add_policy name) pols st1 ;;
  assigns <- get_all fuel (assignments_url pkg_id) ;;
  foldM (add_assignment grouped_tfvars name) assigns st2.

(** Lines 50-93: fetch the packages of the catalog and accumulate. *)
Definition collect (fuel : nat) (catalog_id : string) (grouped_tfvars : bool)
  : result state :=
  packages <- get_all fuel (packages_url catalog_id) ;;
  foldM (add_package fuel grouped_tfvars) packages empty_state.

(** ** File emitters *)

(** [with open(name, "w") as f: f.write(text); print(message)].  The
    directory is indexed by the name as the program writes it.  Names
    without [/] are entries of the output directory itself, and two of them
    are one file exactly when they are equal (the file system comparing
    names byte by byte); a name with [/] can reach the same file as another
    name ([./ops.tfvars] and [ops.tfvars]), which the index does not see:
    statements that tell files apart by name are made for names without
    [/]. *)
Definition write_file (name text message : string) (w : world) : run :=
  if creatable name
  then Finished {| fs := <[name := text]> (fs w); stdout := stdout w ++ [message] |}
  else Crashed (OSError name) w.

Definition tfvars_text (st : state) : string :=
  "access_packages = " +:+ json_dump (JObj (access_packages st)) +:+ nl +:+ nl
  +:+ "assignment_policies = " +:+ json_dump (JObj (assignment_policies st))
  +:+ nl +:+ nl
  +:+ "assignments = " +:+ json_dump (JObj (assignments st)).

Definition group_file_name (group : string) : string := group +:+ ".tfvars".

Definition group_file_text (assigns : dict json) : string :=
  "assignments = " +:+ json_dump (JObj assigns).

(** Lines 102-105. *)
Fixpoint write_group_files (groups : dict (dict json)) (w : world) : run :=
  match groups with
  | [] => Finished w
  | (group, assigns) :: rest =>
      and_then
        (write_file (group_file_name group) (group_file_text assigns)
                    ("✅ " +:+ group +:+ ".tfvars written") w)
        (write_group_files rest)
  end.

Definition import_script_text (cmds : list string) : string :=
  "#!/bin/bash" +:+ nl +:+ nl +:+ unlines cmds.

(** Lines 113-114 and 153-154: a scaffold file is written when the flag is
    set and no file of that name exists. *)
Definition write_scaffold (generate_main : bool) (name text message : string)
    (w : world) : run :=
  if generate_main && negb (path_exists name w)
  then write_file name text message w
  else Finished w.

(** Lines 95-179. *)
Definition emit_files (grouped_tfvars generate_main : bool) (st : state)
    (w : world) : run :=
  and_then (write_file "terraform.tfvars" (tfvars_text st)
                       "✅ terraform.tfvars written" w) (fun w1 =>
  and_then (if grouped_tfvars
            then write_group_files (grouped_assignments st) w1
            else Finished w1) (fun w2 =>
  and_then (write_file "terraform_import.sh"
                       (import_script_text (import_cmds st))
                       "✅ terraform_import.sh written" w2) (fun w3 =>
  and_then (write_scaffold generate_main "main.tf" main_tf_template
                           "✅ main.tf scaffold created" w3) (fun w4 =>
  write_scaffold generate_main "variables.tf" variables_tf_template
                 "✅ variables.tf scaffold created" w4)))).

(** ** Import runner *)

(** Line 182. *)
Definition backend_detected (w : world) : bool :=
  path_exists "backend.tf" w
  || (path_exists "main.tf" w && contains "backend" (read_text "main.tf" w)).

(** [subprocess.run(["terraform", "init"], check=True)] *)
Definition terraform_init (w : world) : run :=
  let (rc, fs') := subprocess_run ["terraform"; "init"] (fs w) in
  let w' := {| fs := fs'; stdout := stdout w |} in
  if rc =? 0 then Finished w' else Crashed (CalledProcessError rc) w'.

(** [subprocess.run(["bash", "terraform_import.sh"])]: the returned
    [CompletedProcess] is dropped. *)
Definition run_import_script (w : world) : run :=
  let (_, fs') := subprocess_run ["bash"; "terraform_import.sh"] (fs w) in
  Finished {| fs := fs'; stdout := stdout w |}.

(** Lines 182-184. *)
Definition init_if_backend (w : world) : run :=
  if backend_detected w
  then terraform_init
         (print "Detected Terraform backend config. Running terraform init..." w)
  else Finished w.

(** Lines 182-186. *)
Definition import_runner (w : world) : run :=
  and_then (init_if_backend w) (fun w1 =>
  and_then (run_import_script w1) (fun w2 =>
  Finished (print "✅ terraform import executed" w2))).

(** [main] from line 49 on: the directory is the world's [fs], the bearer
    token is inside [http_get]. *)
Definition main (fuel : nat) (catalog_id : string)
    (grouped_tfvars generate_main run_imports : bool) (w : world) : run :=
  let w0 := print "Fetching access packages..." w in
  match collect fuel catalog_id grouped_tfvars with
  | Ok st =>
      and_then (emit_files grouped_tfvars generate_main st w0) (fun w1 =>
      if run_imports then import_runner w1 else Finished w1)
  | Raise e => Crashed e w0
  | OutOfFuel => Diverged
  end.

(** ** Notions used in the statements *)

(** The continuation link of a response, when it carries one. *)
Definition next_link (res : json) : option json :=
  match res with
  | JObj o => dget "@odata.nextLink" o
  | _ => None
  end.

(** The item list of a response, when it carries one. *)
Definition item_list (res : json) : option (list json) :=
  match res with
  | JObj o => match dget "value" o with Some (JArr l) => Some l | _ => None end
  | _ => None
  end.

(** A page of a paginated collection: an object with an item list. *)
Definition is_page (res : json) : Prop :=
  exists o l, res = JObj o /\ dget "value" o = Some (JArr l).

(** An error body: an object with neither item list nor continuation link. *)
Definition is_error_response (res : json) : Prop :=
  exists o, res = JObj o /\ dget "value" o = None
            /\ dget "@odata.nextLink" o = None.

(** [responses] is what the endpoint answers from [url] on, each response
    but the last linking to the URL of the next one and the last one
    carrying no link. *)
Inductive response_sequence : string -> list json -> Prop :=
| sequence_last url res :
    http_get url = Ok res ->
    next_link res = None ->
    response_sequence url [res]
| sequence_next url res next rest :
    http_get url = Ok res ->
    next_link res = Some (JStr next) ->
    next <> EmptyString ->
    response_sequence next rest ->
    response_sequence url (res :: rest).

Definition all_items (responses : list json) : list json :=
  concat (map (fun res => default [] (item_list res)) responses).

(** A stored value names, in its [access_package_key] field, a key of the
    package mapping. *)
Definition refers_to_package (packages : dict json) (entry : json) : Prop :=
  exists name, subscript "access_package_key" entry = Ok (JStr name)
               /\ name ∈ dkeys packages.

Definition referential_integrity (st : state) : Prop :=
  Forall (fun kv => refers_to_package (access_packages st) (snd kv))
         (assignment_policies st)
  /\ Forall (fun kv => refers_to_package (access_packages st) (snd kv))
            (assignments st).

(** What the loop of lines 82-93 does with one assignment: its key, the
    stored entry and the resolved group. *)
Definition processed_assignment (name : string) (a : json)
  : result (string * json * string) :=
  target_id <- subscript "targetId" a ;;
  group <- resolve_group target_id ;;
  assign_key <- assign_key_of name target_id ;;
  _ <- subscript "id" a ;;
  Ok (assign_key, assignment_entry name target_id, group).

Definition package_assignments (fuel : nat) (pkg : json)
  : result (list (string * json * string)) :=
  name <- package_key pkg ;;
  pkg_id <- subscript "id" pkg ;;
  assigns <- get_all fuel (assignments_url pkg_id) ;;
  mapM (processed_assignment name) assigns.

(** Every assignment of the catalog in processing order. *)
Definition catalog_assignments (fuel : nat) (catalog_id : string)
  : result (list (string * json * string)) :=
  packages <- get_all fuel (packages_url catalog_id) ;;
  per_package <- mapM (package_assignments fuel) packages ;;
  Ok (concat per_package).

End Model.

(** The world a run that ended (normally or by an exception) leaves. *)
Definition final_world (r : run) : option world :=
  match r with
  | Finished w => Some w
  | Crashed _ w => Some w
  | Diverged => None
  end.

(** The file [name] has content [v] (or is absent, for [None]) when the
    run has ended. *)
Definition file_is (name : string) (v : option string) (r : run) : Prop :=
  match final_world r with
  | Some w' => fs w' !! name = v
  | None => True
  end.

Definition is_scaffold (name : string) : Prop :=
  name = "main.tf" \/ name = "variables.tf".

(** A name without [/]: as a file name it is an entry of the output
    directory itself. *)
Definition no_path_separator (name : string) : bool :=
  negb (contains "/" name).

(** The files every finished emitter stage may write besides group files. *)
Definition fixed_outputs : list string :=
  ["terraform.tfvars"; "terraform_import.sh"; "main.tf"; "variables.tf"].

(** Line 93 on a processed assignment (key, entry, group). *)
Definition store_grouped (grouped : dict (dict json))
    (p : string * json * string) : dict (dict json) :=
  group_add (snd p) (fst (fst p)) (snd (fst p)) grouped.

(** Line 90 on a processed assignment. *)
Definition store_assignment (d : dict json) (p : string * json * string)
  : dict json :=
  dset (fst (fst p)) (snd (fst p)) d.

(** The dictionary a group file holds once the listed assignments are stored
    in order: those of [group], a later one replacing an earlier one with the
    same key. *)
Definition group_dict (group : string) (processed : list (string * json * string))
  : dict json :=
  fold_left store_assignment (filter (fun p => snd p = group) processed) [].

(** The reading of "each group file contains exactly the assignments whose
    resolved group is that file's group": an assignment's entry is in a
    group's dictionary exactly when the assignment resolved to that group. *)
Definition group_files_exact (processed : list (string * json * string))
    (grouped : dict (dict json)) : Prop :=
  forall key entry group, (key, entry, group) ∈ processed ->
  forall group' d, dget group' grouped = Some d ->
    (dget key d = Some entry <-> group = group').

(** * Sample tenants and directories *)

Module Fixtures.

(** The samples are ASCII text: lower-casing beyond ASCII is not exercised
    and stands as the identity. *)
Definition no_unicode (s : string) : string := s.

(** A stand-in for [str()] of values that are not strings. *)
Definition repr (j : json) : string :=
  match j with
  | JNull => "None"
  | JBool true => "True"
  | JBool false => "False"
  | _ => "<value>"
  end.

(** A stand-in for [json.dump]: the keys of an object, one per line. *)
Definition dump (j : json) : string :=
  match j with
  | JObj o => unlines (dkeys o)
  | other => repr other
  end.

Definition any_name (name : string) : bool := true.

(** A collection served in two pages. *)
Definition first_page : json :=
  JObj [("value", JArr [JStr "a"; JStr "b"]);
        ("@odata.nextLink", JStr "https://graph.example/items?page=2")].

Definition second_page : json := JObj [("value", JArr [JStr "c"])].

Definition two_pages (url : string) : result json :=
  if String.eqb url "https://graph.example/items" then Ok first_page
  else if String.eqb url "https://graph.example/items?page=2" then Ok second_page
  else Raise RequestException.

(** The same collection when the second request is answered by an error. *)
Definition error_body : json :=
  JObj [("error", JObj [("code", JStr "TooManyRequests")])].

Definition page_then_error (url : string) : result json :=
  if String.eqb url "https://graph.example/items" then Ok first_page
  else if String.eqb url "https://graph.example/items?page=2" then Ok error_body
  else Raise RequestException.

(** A tenant: catalog [single] has the package "Finance Access", catalog
    [twins] has it and a package "finance-access". *)
Definition finance : json :=
  JObj [("id", JStr "pkg-1"); ("displayName", JStr "Finance Access");
        ("catalogId", JStr "single"); ("description", JStr "Ledgers")].

Definition finance_twin : json :=
  JObj [("id", JStr "pkg-2"); ("displayName", JStr "finance-access");
        ("catalogId", JStr "twins")].

Definition default_policy : json :=
  JObj [("id", JStr "pol-1"); ("displayName", JStr "Default Policy");
        ("requestApprovalSettings", JObj [("isApprovalRequired", JBool true)])].

Definition first_grant : json :=
  JObj [("id", JStr "asg-1"); ("targetId", JStr "abcdef-0001")].

Definition second_grant : json :=
  JObj [("id", JStr "asg-2"); ("targetId", JStr "abcdef-0002")].

Definition page_of (items : list json) : result json :=
  Ok (JObj [("value", JArr items)]).

Definition tenant (url : string) : result json :=
  if String.eqb url (packages_url "single") then page_of [finance]
  else if String.eqb url (packages_url "twins") then page_of [finance; finance_twin]
  else if String.eqb url (policies_url repr (JStr "pkg-1")) then page_of [default_policy]
  else if String.eqb url (policies_url repr (JStr "pkg-2")) then page_of []
  else if String.eqb url (assignments_url repr (JStr "pkg-1"))
       then page_of [first_grant; second_grant]
  else if String.eqb url (assignments_url repr (JStr "pkg-2")) then page_of []
  else if String.eqb url (GRAPH_API +:+ "/directoryObjects/abcdef-0001")
       then Ok (JObj [("displayName", JStr "Team Alpha")])
  else if String.eqb url (GRAPH_API +:+ "/directoryObjects/abcdef-0002")
       then Ok (JObj [("displayName", JStr "Team Alpha")])
  else Raise RequestException.

Definition collected (catalog_id : string) (grouped_tfvars : bool) : state :=
  match collect no_unicode tenant repr 3 catalog_id grouped_tfvars with
  | Ok st => st
  | _ => empty_state
  end.

Definition single_grouped : state := Eval vm_compute in collected "single" true.
Definition twins_grouped : state := Eval vm_compute in collected "twins" true.

Definition grants_stored : state :=
  Eval vm_compute in
    match foldM (add_assignment no_unicode tenant repr true "finance_access")
                [first_grant; second_grant] empty_state with
    | Ok st => st
    | _ => empty_state
    end.

Definition policy_stored : state :=
  Eval vm_compute in
    match add_policy no_unicode repr "finance_access" empty_state default_policy with
    | Ok st => st
    | _ => empty_state
    end.

Definition single_trace : list (string * json * string) :=
  Eval vm_compute in
    match catalog_assignments no_unicode tenant repr 3 "single" with
    | Ok tr => tr
    | _ => []
    end.

(** Subprocesses that leave the directory alone: [terraform init] fails
    with status 1, the import script with status 3. *)
Definition failing_tools (argv : list string) (dir : gmap string string)
  : Z * gmap string string :=
  match argv with
  | "terraform" :: _ => (1, dir)
  | _ => (3, dir)
  end.

Definition empty_dir : world := {| fs := ∅; stdout := [] |}.

Definition edited_dir : world :=
  {| fs := {[ "main.tf" := "# edited by hand" ]}; stdout := [] |}.

(** The directory a first run with scaffold generation leaves. *)
Definition after_first_run : world :=
  Eval vm_compute in
    match main no_unicode tenant repr dump any_name failing_tools 3 "single" true true false
               empty_dir with
    | Finished w => w
    | _ => empty_dir
    end.

Definition backend_dir : world :=
  {| fs := {[ "backend.tf" := "terraform { backend {} }" ]}; stdout := [] |}.

End Fixtures.

(** * Further notions and samples *)

Section MoreNotions.
Variable http_get : string -> result json.

(** Pages answered from [url] on, each linking to the next one, the last of
    them linking to [last] (which is [url] itself when there is no page). *)
Inductive linked_pages : string -> list json -> string -> Prop :=
| linked_none url : linked_pages url [] url
| linked_page url res next rest last :
    http_get url = Ok res ->
    is_page res ->
    next_link res = Some (JStr next) ->
    next <> EmptyString ->
    linked_pages next rest last ->
    linked_pages url (res :: rest) last.

End MoreNotions.

Module MoreFixtures.

(** The second request fails in the transport. *)
Definition second_request_fails (url : string) : result json :=
  if String.eqb url "https://graph.example/items" then Ok Fixtures.first_page
  else Raise RequestException.

(** The second response carries [null] as continuation link. *)
Definition null_link_page : json :=
  JObj [("value", JArr [JStr "c"]); ("@odata.nextLink", JNull)].

Definition null_link (url : string) : result json :=
  if String.eqb url "https://graph.example/items" then Ok Fixtures.first_page
  else if String.eqb url "https://graph.example/items?page=2" then Ok null_link_page
  else Raise RequestException.

(** The second response is a JSON array, or an object whose [value] is
    [null]. *)
Definition array_body (url : string) : result json :=
  if String.eqb url "https://graph.example/items" then Ok Fixtures.first_page
  else Ok (JArr []).

Definition null_value (url : string) : result json :=
  if String.eqb url "https://graph.example/items" then Ok Fixtures.first_page
  else Ok (JObj [("value", JNull)]).

(** A page that links to itself. *)
Definition looping_page : json :=
  JObj [("value", JArr [JStr "a"]);
        ("@odata.nextLink", JStr "https://graph.example/loop")].

Definition self_link (url : string) : result json := Ok looping_page.

End MoreFixtures.

(** ** Characters of keys *)

Definition is_upper (c : ascii) : bool :=
  let n := nat_of_ascii c in (65 <=? n)%nat && (n <=? 90)%nat.

(** A character [safe] leaves in place: no space, no hyphen, no upper-case
    ASCII letter. *)
Definition key_char (c : ascii) : bool :=
  negb (Ascii.eqb c " ") && negb (Ascii.eqb c "-") && negb (is_upper c).


(** ** The start of [main] and the token *)

Section Entry.

Variable unicode_lower : string -> string.
(** [ConfidentialClientApplication(client_id=..., client_credential=...,
    authority=...).acquire_token_for_client(scopes=...)]: the dictionary
    MSAL returns, or the exception it raises. *)
Variable acquire_token_for_client :
  string -> string -> string -> list string -> result json.
(** [requests.get(url, headers=headers).json()] *)
Variable http_get_with : json -> string -> result json.
Variable py_repr : json -> string.
Variable json_dump : json -> string.
Variable creatable : string -> bool.
Variable subprocess_run : list string -> gmap string string -> Z * gmap string string.

(** Lines 8-15. *)
Definition get_token (client_id client_secret tenant_id : string) : result json :=
  token <- acquire_token_for_client client_id client_secret
             ("https://login.microsoftonline.com/" +:+ tenant_id)
             ["https://graph.microsoft.com/.default"] ;;
  subscript "access_token" token.

(** Line 47. *)
Definition auth_headers (access_token : json) : json :=
  JObj [("Authorization", JStr ("Bearer " +:+ fmt py_repr access_token));
        ("Content-Type", JStr "application/json")].

(** [main] from line 46 on (the output directory exists and is the current
    directory): the token, then the rest of the run with its headers. *)
Definition cli_main (client_id client_secret tenant_id : string) (fuel : nat)
    (catalog_id : string) (grouped_tfvars generate_main run_imports : bool)
    (w : world) : run :=
  match get_token client_id client_secret tenant_id with
  | Ok access_token =>
      main unicode_lower (http_get_with (auth_headers access_token)) py_repr json_dump
           creatable subprocess_run fuel catalog_id
           grouped_tfvars generate_main run_imports w
  | Raise e => Crashed e w
  | OutOfFuel => Diverged
  end.

End Entry.

(** ** Approvers *)

(** [a.get("id")] of an approver object. *)
Definition approver_id (a : json) : json :=
  match a with
  | JObj o => default JNull (dget "id" o)
  | _ => JNull
  end.

(** The approver list of a stage under [field], empty when absent. *)
Definition stage_approvers (field : string) (stage : json) : list json :=
  match stage with
  | JObj o => match dget field o with Some (JArr l) => l | _ => [] end
  | _ => []
  end.

(** A stage object whose [field], when present, is a list of objects. *)
Definition stage_ok (field : string) (stage : json) : Prop :=
  exists o, stage = JObj o /\
    match dget field o with
    | None => True
    | Some (JArr l) => Forall (fun a => exists ao, a = JObj ao) l
    | Some _ => False
    end.

Module EntryFixtures.

(** The authority rejects the credentials: MSAL returns an error
    dictionary. *)
Definition rejected (client_id client_secret authority : string)
    (scopes : list string) : result json :=
  Ok (JObj [("error", JStr "invalid_client");
            ("error_description", JStr "AADSTS7000215")]).

Definition graph_with (headers : json) (url : string) : result json :=
  Fixtures.tenant url.

(** A directory in which lookups answer with an error body, or with a
    [null] display name. *)
Definition not_found (url : string) : result json :=
  Ok (JObj [("error", JObj [("code", JStr "Request_ResourceNotFound")])]).

Definition unnamed (url : string) : result json :=
  Ok (JObj [("displayName", JNull)]).

Definition bare_policy : dict json :=
  [("id", JStr "pol-9"); ("displayName", JStr "Self Service")].

Definition null_settings_policy : dict json :=
  [("id", JStr "pol-8"); ("displayName", JStr "Imported");
   ("requestApprovalSettings", JNull)].

Definition two_stages : list json :=
  [JObj [("primaryApprovers", JArr [JObj [("id", JStr "u1")]; JObj []])];
   JObj [("escalationApprovers", JArr [JObj [("id", JStr "u9")]])];
   JObj [("primaryApprovers", JArr [JObj [("id", JStr "u2")]])]].

Definition staged_policy : json :=
  JObj [("id", JStr "pol-7"); ("displayName", JStr "Staged");
        ("requestApprovalSettings",
         JObj [("isApprovalRequired", JBool true);
               ("approvalStages", JArr two_stages)])].

End EntryFixtures.

(** ** Accumulators without the group index *)

Definition without_groups (st : state) : state :=
  {| access_packages := access_packages st;
     assignment_policies := assignment_policies st;
     assignments := assignments st;
     grouped_assignments := [];
     import_cmds := import_cmds st |}.

(** The number of entries of the three mappings. *)
Definition entries (st : state) : nat :=
  (length (access_packages st) + length (assignment_policies st)
   + length (assignments st))%nat.

(** Every entry of [assignments] is in the dictionary of some group. *)
Definition groups_cover (st : state) : Prop :=
  forall key entry, dget key (assignments st) = Some entry ->
    exists group d, dget group (grouped_assignments st) = Some d
                    /\ dget key d = Some entry.

(** Every key of a group dictionary is a key of [assignments]. *)
Definition groups_within (st : state) : Prop :=
  forall group d key, dget group (grouped_assignments st) = Some d ->
    key ∈ dkeys d -> key ∈ dkeys (assignments st).

(** The import command of a package (line 61). *)
Definition package_import_cmd (py_repr : json -> string) (name : string)
    (pkg_id : json) : string :=
  "terraform import azuread_access_package." +:+ name +:+ " " +:+ fmt py_repr pkg_id.

(** ** The files after the emitters *)

(** The dictionary written last to the file [name] by the group stage, if
    a group has that file name. *)
Fixpoint group_of_file (name : string) (groups : dict (dict json))
  : option (dict json) :=
  match groups with
  | [] => None
  | (g, d) :: rest =>
      match group_of_file name rest with
      | Some d' => Some d'
      | None => if String.eqb (group_file_name g) name then Some d else None
      end
  end.

(** A scaffold file after its step: created from the template when the
    flag is set and the file was absent, else as before. *)
Definition scaffolded (generate_main : bool) (template : string)
    (old : option string) : option string :=
  if generate_main then Some (default template old) else old.

(** What the directory holds under [name] after the emitters have run on
    a directory [old]. *)
Definition emitted_file (json_dump : json -> string)
    (grouped_tfvars generate_main : bool) (st : state)
    (old : gmap string string) (name : string) : option string :=
  if String.eqb name "variables.tf"
  then scaffolded generate_main variables_tf_template (old !! name)
  else if String.eqb name "main.tf"
  then scaffolded generate_main main_tf_template (old !! name)
  else if String.eqb name "terraform_import.sh"
  then Some (import_script_text (import_cmds st))
  else match (if grouped_tfvars
              then group_of_file name (grouped_assignments st)
              else None) with
       | Some d => Some (group_file_text json_dump d)
       | None =>
           if String.eqb name "terraform.tfvars"
           then Some (tfvars_text json_dump st)
           else old !! name
       end.

(** ** File names and more samples *)

(** [s.endswith(suffix)] *)
Fixpoint has_suffix (suffix s : string) : bool :=
  String.eqb s suffix ||
  match s with
  | EmptyString => false
  | String _ s' => has_suffix suffix s'
  end.

Module OutputFixtures.

(** The tenant of [Fixtures] with every directory object named [display]. *)
Definition tenant_named (display : string) (url : string) : result json :=
  if String.eqb url (GRAPH_API +:+ "/directoryObjects/abcdef-0001")
  then Ok (JObj [("displayName", JStr display)])
  else if String.eqb url (GRAPH_API +:+ "/directoryObjects/abcdef-0002")
  then Ok (JObj [("displayName", JStr display)])
  else Fixtures.tenant url.

Definition collected_named (display : string) : state :=
  match collect Fixtures.no_unicode (tenant_named display) Fixtures.repr 3 "single" true with
  | Ok st => st
  | _ => empty_state
  end.

Definition terraform_group : state := Eval vm_compute in collected_named "Terraform".
Definition slash_group : state := Eval vm_compute in collected_named "Sales/Marketing".

Definition emitted (st : state) (w : world) : world :=
  match emit_files Fixtures.dump Fixtures.any_name true true st w with
  | Finished w' => w'
  | _ => w
  end.

Definition terraform_emitted : world :=
  Eval vm_compute in emitted terraform_group Fixtures.empty_dir.

Definition single_emitted : world :=
  Eval vm_compute in emitted Fixtures.single_grouped Fixtures.empty_dir.

(** A directory that accepts plain names only. *)
Definition plain_name (name : string) : bool := negb (contains "/" name).

(** A directory with a file of the user's. *)
Definition with_notes : world :=
  {| fs := {[ "notes.md" := "keep me" ]}; stdout := [] |}.

End OutputFixtures.

(** ** Keys of policies and assignments *)

(** [f"{name}_{safe(pol['displayName'])}"] for a policy name. *)
Definition policy_key (unicode_lower : string -> string)
    (name pol_name : string) : string :=
  name +:+ "_" +:+ safe unicode_lower pol_name.

(** [f"{name}_user_{target_id[:6]}"] for a string target id. *)
Definition assignment_key (name target_id : string) : string :=
  name +:+ "_user_" +:+ string_take 6 target_id.

Module KeyFixtures.

Definition short_policy : json :=
  JObj [("id", JStr "pol-2"); ("displayName", JStr "default-policy");
        ("durationInDays", JNum 7)].

Definition other_grant : json :=
  JObj [("id", JStr "asg-3"); ("targetId", JStr "fedcba-0003")].

Definition policies_stored : state :=
  Eval vm_compute in
    match foldM (add_policy Fixtures.no_unicode Fixtures.repr "finance_access")
                [Fixtures.default_policy; short_policy] empty_state with
    | Ok st => st
    | _ => empty_state
    end.

(** The tenant of [Fixtures] whose lookup of the second target fails. *)
Definition lookup_fails (url : string) : result json :=
  if String.eqb url (GRAPH_API +:+ "/directoryObjects/abcdef-0002")
  then Raise RequestException
  else Fixtures.tenant url.

Definition first_stored : state :=
  Eval vm_compute in
    match foldM (add_assignment Fixtures.no_unicode lookup_fails Fixtures.repr false "finance_access")
                [Fixtures.first_grant] empty_state with
    | Ok st => st
    | _ => empty_state
    end.

Definition three_stored : state :=
  Eval vm_compute in
    match foldM (add_assignment Fixtures.no_unicode (OutputFixtures.tenant_named "Team Alpha")
                   Fixtures.repr false "finance_access")
                [Fixtures.first_grant; Fixtures.second_grant] empty_state with
    | Ok st => st
    | _ => empty_state
    end.

(** Every request is answered by an error body. *)
Definition throttled (url : string) : result json := Ok Fixtures.error_body.

End KeyFixtures.

(** * Properties *)

Example safe_finance (unicode_lower : string -> string) :
  safe unicode_lower "Finance Access" = "finance_access".
Proof. reflexivity. Qed.

Example safe_mixed (unicode_lower : string -> string) :
  safe unicode_lower "HR - Payroll Team" = "hr___payroll_team".
Proof. reflexivity. Qed.

(** ** Sanitisation *)

Lemma string_map_forall (p : ascii -> bool) (f : ascii -> ascii) (s : string) :
  (forall c, p c = true -> p (f c) = true) ->
  string_forall p s = true -> string_forall p (string_map f s) = true.
Proof.
  intros Hf. induction s as [|c s IH]; simpl; [done|].
  intros H. apply andb_prop in H as [Hc Hs]. by rewrite (Hf c Hc), IH.
Qed.

Lemma replace_ascii (old new : ascii) (s : string) :
  is_ascii_char new = true -> is_ascii s = true ->
  is_ascii (replace old new s) = true.
Proof.
  intros Hnew. apply string_map_forall. intros c Hc.
  by destruct (Ascii.eqb c old).
Qed.

(** On an ASCII name [safe] works character by character. *)
Lemma safe_string_map (unicode_lower : string -> string) (s : string) :
  is_ascii s = true -> safe unicode_lower s = string_map safe_char s.
Proof.
  intros Hs. unfold safe, lower.
  rewrite (replace_ascii "-" "_" _ eq_refl (replace_ascii " " "_" _ eq_refl Hs)).
  clear Hs. unfold replace.
  induction s as [|c s IH]; simpl; [reflexivity|].
  f_equal. exact IH.
Qed.

Lemma safe_char_idem (c : ascii) : safe_char (safe_char c) = safe_char c.
Proof.
  destruct c as [[] [] [] [] [] [] [] []]; vm_compute; reflexivity.
Qed.

(** After the two replacements no separator is left, and text without
    separators is not changed by them. *)
Lemma replaced_separator_free (s : string) :
  separator_free (replace "-" "_" (replace " " "_" s)) = true.
Proof.
  unfold separator_free, replace. induction s as [|c s IH]; simpl; [done|].
  rewrite IH, andb_true_r.
  destruct c as [[] [] [] [] [] [] [] []]; vm_compute; reflexivity.
Qed.

Lemma replace_separator_free (s : string) :
  separator_free s = true -> replace "-" "_" (replace " " "_" s) = s.
Proof.
  unfold separator_free, replace. induction s as [|c s IH]; simpl; [done|].
  intros H. apply andb_prop in H as [Hc Hs]. rewrite (IH Hs). f_equal.
  revert Hc. destruct c as [[] [] [] [] [] [] [] []]; vm_compute;
    first [reflexivity | discriminate].
Qed.

Section Sanitisation.
Variable unicode_lower : string -> string.

(** What is used of [str.lower] on arbitrary text: lower-casing lower-cased
    text changes nothing (a Unicode lower-case mapping ends in characters
    that are their own lower case), and lower-casing does not make a space
    or a hyphen appear (neither is the lower case of another character). *)
Hypothesis lower_idempotent :
  forall s, lower unicode_lower (lower unicode_lower s) = lower unicode_lower s.
Hypothesis lower_keeps_separator_free :
  forall s, separator_free s = true ->
            separator_free (lower unicode_lower s) = true.


End Sanitisation.

Lemma lower_char_idem (c : ascii) : lower_char (lower_char c) = lower_char c.
Proof.
  destruct c as [[] [] [] [] [] [] [] []]; vm_compute; reflexivity.
Qed.

Lemma lower_ascii_is_ascii (s : string) :
  is_ascii s = true -> is_ascii (string_map lower_char s) = true.
Proof.
  apply string_map_forall.
  intros c; destruct c as [[] [] [] [] [] [] [] []]; vm_compute;
    first [reflexivity | discriminate].
Qed.

Lemma lower_ascii_idem (s : string) :
  string_map lower_char (string_map lower_char s) = string_map lower_char s.
Proof. induction s as [|c s IH]; simpl; [done|]. by rewrite lower_char_idem, IH. Qed.

(** The two facts for the lower-casing of the samples. *)
Lemma no_unicode_idempotent (s : string) :
  lower Fixtures.no_unicode (lower Fixtures.no_unicode s)
  = lower Fixtures.no_unicode s.
Proof.
  unfold lower, Fixtures.no_unicode. destruct (is_ascii s) eqn:Hs.
  - by rewrite (lower_ascii_is_ascii s Hs), lower_ascii_idem.
  - by rewrite Hs.
Qed.

Lemma no_unicode_keeps_separator_free (s : string) :
  separator_free s = true ->
  separator_free (lower Fixtures.no_unicode s) = true.
Proof.
  intros Hs. unfold lower. destruct (is_ascii s); [|exact Hs].
  apply string_map_forall; [|exact Hs].
  intros c; destruct c as [[] [] [] [] [] [] [] []]; vm_compute;
    first [reflexivity | discriminate].
Qed.


(** ** Dictionaries *)

Section DictFacts.
Context {V : Type}.
Implicit Types (d : dict V) (k : string) (v : V).

Lemma dget_dset_eq k v d : dget k (dset k v d) = Some v.
Proof.
  induction d as [|[k' v'] d IH]; simpl.
  - by rewrite String.eqb_refl.
  - destruct (String.eqb k k') eqn:E; simpl.
    + by rewrite String.eqb_refl.
    + by rewrite E.
Qed.

Lemma dget_dset_ne k k' v d : k <> k' -> dget k' (dset k v d) = dget k' d.
Proof.
  intros Hne. induction d as [|[k0 v0] d IH]; simpl.
  - destruct (String.eqb k' k) eqn:E; [|done].
    apply String.eqb_eq in E. congruence.
  - destruct (String.eqb k k0) eqn:E; simpl.
    + apply String.eqb_eq in E. subst k0.
      destruct (String.eqb k' k) eqn:E'; [|done].
      apply String.eqb_eq in E'. congruence.
    + by rewrite IH.
Qed.

Lemma elem_of_dkeys_dset x k v d :
  x ∈ dkeys (dset k v d) <-> x = k \/ x ∈ dkeys d.
Proof.
  unfold dkeys. induction d as [|[k0 v0] d IH]; simpl.
  - rewrite list_elem_of_singleton. split; [auto|].
    intros [?|H]; [done|]. by apply elem_of_nil in H.
  - destruct (String.eqb k k0) eqn:E; simpl.
    + apply String.eqb_eq in E. subst k0. rewrite !elem_of_cons. tauto.
    + rewrite !elem_of_cons, IH. tauto.
Qed.

Lemma NoDup_dkeys_dset k v d : NoDup (dkeys d) -> NoDup (dkeys (dset k v d)).
Proof.
  induction d as [|[k0 v0] d IH]; simpl; intros Hnd.
  - apply NoDup_singleton.
  - apply NoDup_cons in Hnd as [Hnin Hnd].
    destruct (String.eqb k k0) eqn:E; simpl.
    + apply String.eqb_eq in E. subst k0. by apply NoDup_cons.
    + apply NoDup_cons. split; [|by apply IH].
      fold (dkeys (dset k v d)). rewrite elem_of_dkeys_dset.
      intros [->|Hin]; [|done].
      by rewrite String.eqb_refl in E.
Qed.

Lemma elem_of_dkeys_dget k d : k ∈ dkeys d <-> is_Some (dget k d).
Proof.
  unfold dkeys. induction d as [|[k0 v0] d IH]; simpl.
  - split; [intros H; by apply elem_of_nil in H | intros [? ?]; done].
  - rewrite elem_of_cons. destruct (String.eqb k k0) eqn:E.
    + apply String.eqb_eq in E. split; [eauto | auto].
    + apply String.eqb_neq in E. rewrite IH. split; [intros [?|?]; done | auto].
Qed.

Lemma dget_elem_of k v d : dget k d = Some v -> (k, v) ∈ d.
Proof.
  induction d as [|[k0 v0] d IH]; simpl; [done|].
  destruct (String.eqb k k0) eqn:E.
  - apply String.eqb_eq in E. intros [= ->]. subst. apply list_elem_of_here.
  - intros H. apply list_elem_of_further. auto.
Qed.

Lemma elem_of_dget k v d : NoDup (dkeys d) -> (k, v) ∈ d -> dget k d = Some v.
Proof.
  induction d as [|[k0 v0] d IH]; simpl; intros Hnd Hin.
  - by apply elem_of_nil in Hin.
  - apply NoDup_cons in Hnd as [Hnin Hnd].
    apply elem_of_cons in Hin as [[= -> ->]|Hin].
    + by rewrite String.eqb_refl.
    + destruct (String.eqb k k0) eqn:E; [|auto].
      apply String.eqb_eq in E. subst k0. exfalso. apply Hnin.
      apply (list_elem_of_fmap_2 fst) in Hin. exact Hin.
Qed.

Lemma Forall_dset (P : V -> Prop) k v d :
  Forall (fun kv => P (snd kv)) d -> P v ->
  Forall (fun kv => P (snd kv)) (dset k v d).
Proof.
  intros Hd Hv. induction d as [|[k0 v0] d IH]; simpl.
  - by constructor.
  - apply Forall_cons in Hd as [H0 Hd].
    destruct (String.eqb k k0); constructor; auto.
Qed.

End DictFacts.

(** ** The result monad *)

Lemma bind_Ok {A B : Type} (m : result A) (f : A -> result B) (b : B) :
  bind m f = Ok b -> exists a, m = Ok a /\ f a = Ok b.
Proof. destruct m; simpl; intros H; [eauto | done | done]. Qed.

Lemma foldM_app {A S : Type} (f : S -> A -> result S) (l1 l2 : list A) (s : S) :
  foldM f (l1 ++ l2) s = bind (foldM f l1 s) (foldM f l2).
Proof.
  revert s. induction l1 as [|x l1 IH]; intros s; simpl; [done|].
  destruct (f s x); simpl; auto.
Qed.

Lemma foldM_invariant {A S : Type} (P : S -> Prop) (f : S -> A -> result S)
    (l : list A) :
  (forall s x s', x ∈ l -> P s -> f s x = Ok s' -> P s') ->
  forall s s', P s -> foldM f l s = Ok s' -> P s'.
Proof.
  induction l as [|x l IH]; simpl; intros Hstep s s' Hs Hrun.
  - by injection Hrun as <-.
  - apply bind_Ok in Hrun as (s1 & H1 & Hrun).
    apply (IH (fun s0 y s0' Hy => Hstep s0 y s0' (list_elem_of_further _ _ _ Hy)) s1);
      [|done].
    apply (Hstep s x); [apply list_elem_of_here | done | done].
Qed.

(** ** The paginated fetcher *)

Section Fetcher.
Variable http_get : string -> result json.

Lemma truthy_url (url : string) : url <> EmptyString -> truthy (JStr url) = true.
Proof.
  intros Hne. simpl. destruct (String.eqb url EmptyString) eqn:E; [|done].
  apply String.eqb_eq in E. done.
Qed.

(** One turn of the loop on an object response. *)
Lemma get_all_loop_step (fuel : nat) (url : string) (o : dict json)
    (items : list json) :
  url <> EmptyString ->
  http_get url = Ok (JObj o) ->
  get_all_loop http_get (S fuel) (JStr url) items =
    (more <- py_iter (default (JArr []) (dget "value" o)) ;;
     get_all_loop http_get fuel (default JNull (dget "@odata.nextLink" o))
                  (items ++ more)).
Proof.
  intros Hne Hget. cbn [get_all_loop]. rewrite (truthy_url _ Hne).
  cbn [request]. rewrite Hget. cbn [bind get_default].
  destruct (dget "value" o), (dget "@odata.nextLink" o); reflexivity.
Qed.

Lemma get_all_loop_done (fuel : nat) (items : list json) :
  get_all_loop http_get fuel JNull items = Ok items.
Proof. destruct fuel; reflexivity. Qed.

(** The loop over a response sequence whose members are pages or error
    bodies collects the item lists in order. *)
Lemma get_all_loop_sequence (url : string) (responses : list json) :
  response_sequence http_get url responses ->
  Forall (fun res => is_page res \/ is_error_response res) responses ->
  url <> EmptyString ->
  forall fuel items, (length responses <= fuel)%nat ->
    get_all_loop http_get fuel (JStr url) items = Ok (items ++ all_items responses).
Proof.
  induction 1 as [url res Hget Hlink | url res next rest Hget Hlink Hnext Hrest IH];
    intros Hshape Hne fuel items Hfuel.
  - apply Forall_cons in Hshape as [Hres _].
    destruct fuel as [|fuel]; [simpl in Hfuel; lia|].
    destruct Hres as [(o & l & -> & Hv) | (o & -> & Hv & _)];
      rewrite (get_all_loop_step _ _ _ _ Hne Hget); simpl in Hlink;
      rewrite Hv, Hlink; cbn [default from_option id py_iter bind];
      rewrite get_all_loop_done; unfold all_items; simpl; rewrite Hv; simpl;
      by rewrite ?app_nil_r.
  - apply Forall_cons in Hshape as [Hres Hshape].
    destruct fuel as [|fuel]; [simpl in Hfuel; lia|].
    simpl in Hfuel.
    destruct Hres as [(o & l & -> & Hv) | (o & -> & Hv & Hno)].
    + rewrite (get_all_loop_step _ _ _ _ Hne Hget). simpl in Hlink.
      rewrite Hv, Hlink. cbn [default from_option id py_iter bind].
      rewrite IH by (done || lia).
      unfold all_items. simpl. rewrite Hv. simpl. by rewrite app_assoc.
    + simpl in Hlink. congruence.
Qed.

(** C1: when the endpoint answers with a finite sequence of pages, each but
    the last linking to the next and the last carrying no continuation link,
    [get_all] (given fuel for that many requests) returns the concatenation of
    the pages' item lists, in the order the pages were requested. *)
Theorem get_all_concatenates_pages (url : string) (pages : list json) (fuel : nat) :
  url <> EmptyString ->
  response_sequence http_get url pages ->
  Forall is_page pages ->
  (length pages <= fuel)%nat ->
  get_all http_get fuel url = Ok (all_items pages).
Proof.
  intros Hne Hseq Hpages Hfuel. unfold get_all.
  rewrite (get_all_loop_sequence url pages); [done|done| |done|done].
  eapply Forall_impl; [exact Hpages|]. intros res Hres. by left.
Qed.

(** C3: when, after any number of pages, the response is an error body (no
    item list, no continuation link), [get_all] returns the items of the
    pages before it as an ordinary result; an error body as the first
    response gives the empty list. *)
Theorem get_all_swallows_error_response (url : string) (pages : list json)
    (err : json) (fuel : nat) :
  url <> EmptyString ->
  response_sequence http_get url (pages ++ [err]) ->
  Forall is_page pages ->
  is_error_response err ->
  (length pages < fuel)%nat ->
  get_all http_get fuel url = Ok (all_items pages)
  /\ (pages = [] -> get_all http_get fuel url = Ok []).
Proof.
  intros Hne Hseq Hpages Herr Hfuel.
  assert (Hrun : get_all http_get fuel url = Ok (all_items pages)).
  { unfold get_all.
    rewrite (get_all_loop_sequence url (pages ++ [err])); [|done| |done|].
    - simpl. unfold all_items. rewrite map_app, concat_app. simpl.
      destruct Herr as (o & -> & Hv & _). simpl. rewrite Hv. simpl.
      by rewrite app_nil_r.
    - apply Forall_app. split.
      + eapply Forall_impl; [exact Hpages|]. intros res Hres. by left.
      + apply Forall_singleton. by right.
    - rewrite length_app. simpl. lia. }
  split; [exact Hrun|]. intros ->. exact Hrun.
Qed.

End Fetcher.

(** ** The accumulation loop *)

Ltac bind_inv H :=
  repeat match type of H with
         | bind ?m _ = Ok _ =>
             let a := fresh "a" in
             let E := fresh "E" in
             apply bind_Ok in H as (a & E & H)
         | (let x := _ in _) = Ok _ => cbv zeta in H
         end.

Ltac replay_binds :=
  repeat match goal with
         | E : ?m = Ok _ |- context [bind ?m _] => rewrite E; cbn [bind]
         end.

Lemma safe_value_Ok (unicode_lower : string -> string) (j : json) (s : string) :
  safe_value unicode_lower j = Ok s ->
  exists name, j = JStr name /\ s = safe unicode_lower name.
Proof. destruct j; simpl; try done. intros [= <-]. eauto. Qed.

Lemma foldM_total {A S : Type} (f : S -> A -> result S) (l : list A) :
  (forall x, x ∈ l -> forall s, exists s', f s x = Ok s') ->
  forall s, exists s', foldM f l s = Ok s'.
Proof.
  induction l as [|x l IH]; simpl; intros Hall s; [eauto|].
  destruct (Hall x (list_elem_of_here _ _) s) as [s1 H1]. rewrite H1. simpl.
  apply IH. intros y Hy. apply Hall. by apply list_elem_of_further.
Qed.

Lemma foldM_Ok_each {A S : Type} (f : S -> A -> result S) (l : list A) (s s' : S) :
  foldM f l s = Ok s' -> forall x, x ∈ l -> exists s1 s2, f s1 x = Ok s2.
Proof.
  revert s. induction l as [|x l IH]; simpl; intros s Hrun y Hy.
  - by apply elem_of_nil in Hy.
  - apply bind_Ok in Hrun as (s1 & H1 & Hrun).
    apply elem_of_cons in Hy as [->|Hy]; [eauto|]. by eapply IH.
Qed.

Section Accumulation.
Variable unicode_lower : string -> string.
Variable http_get : string -> result json.
Variable py_repr : json -> string.


Lemma add_policy_Ok (name : string) (st st' : state) (pol : json) :
  add_policy unicode_lower py_repr name st pol = Ok st' ->
  exists pol_name duration approval primary secondary pol_id,
    subscript "displayName" pol = Ok (JStr pol_name)
    /\ subscript "id" pol = Ok pol_id
    /\ access_packages st' = access_packages st
    /\ assignment_policies st' =
         dset (name +:+ "_" +:+ safe unicode_lower pol_name)
              (policy_entry name duration approval primary secondary)
              (assignment_policies st)
    /\ assignments st' = assignments st
    /\ grouped_assignments st' = grouped_assignments st
    /\ import_cmds st' = import_cmds st ++
         ["terraform import azuread_access_package_assignment_policy."
            +:+ (name +:+ "_" +:+ safe unicode_lower pol_name) +:+ " " +:+ fmt py_repr pol_id].
Proof.
  unfold add_policy. intros H. bind_inv H.
  apply safe_value_Ok in E0 as (pol_name & -> & ->).
  injection H as <-. simpl. eauto 15.
Qed.

Lemma add_assignment_Ok (grouped_tfvars : bool) (name : string) (st st' : state)
    (a : json) :
  add_assignment unicode_lower http_get py_repr grouped_tfvars name st a = Ok st' ->
  exists target_id group assign_key a_id,
    subscript "targetId" a = Ok target_id
    /\ resolve_group unicode_lower http_get py_repr target_id = Ok group
    /\ assign_key_of py_repr name target_id = Ok assign_key
    /\ subscript "id" a = Ok a_id
    /\ access_packages st' = access_packages st
    /\ assignment_policies st' = assignment_policies st
    /\ assignments st' =
         dset assign_key (assignment_entry name target_id) (assignments st)
    /\ grouped_assignments st' =
         (if grouped_tfvars
          then group_add group assign_key (assignment_entry name target_id)
                         (grouped_assignments st)
          else grouped_assignments st)
    /\ import_cmds st' = import_cmds st ++
         ["terraform import azuread_access_package_assignment."
            +:+ assign_key +:+ " " +:+ fmt py_repr a_id].
Proof.
  unfold add_assignment. intros H. bind_inv H.
  injection H as <-. simpl. eauto 15.
Qed.

Lemma add_policy_any_state (name : string) (st st' s : state) (pol : json) :
  add_policy unicode_lower py_repr name st pol = Ok st' -> exists s', add_policy unicode_lower py_repr name s pol = Ok s'.
Proof.
  unfold add_policy. intros H. bind_inv H.
  replay_binds. eauto.
Qed.

Lemma add_assignment_any_state (g : bool) (name : string) (st st' s : state)
    (a : json) :
  add_assignment unicode_lower http_get py_repr g name st a = Ok st' ->
  exists s', add_assignment unicode_lower http_get py_repr g name s a = Ok s'.
Proof.
  unfold add_assignment. intros H. bind_inv H.
  replay_binds. eauto.
Qed.

(** What one turn of the package loop does, as a whole. *)
Lemma add_package_Ok (fuel : nat) (g : bool) (st st' : state) (pkg : json) :
  add_package unicode_lower http_get py_repr fuel g st pkg = Ok st' ->
  exists name catalog description pkg_id pols assigns st1 st2,
    package_key unicode_lower pkg = Ok name
    /\ subscript "catalogId" pkg = Ok catalog
    /\ get_default "description" (JStr EmptyString) pkg = Ok description
    /\ subscript "id" pkg = Ok pkg_id
    /\ get_all http_get fuel (policies_url py_repr pkg_id) = Ok pols
    /\ get_all http_get fuel (assignments_url py_repr pkg_id) = Ok assigns
    /\ st1 = {| access_packages :=
                  dset name (package_entry catalog description) (access_packages st);
                assignment_policies := assignment_policies st;
                assignments := assignments st;
                grouped_assignments := grouped_assignments st;
                import_cmds := import_cmds st ++
                  ["terraform import azuread_access_package." +:+ name +:+ " "
                     +:+ fmt py_repr pkg_id] |}
    /\ foldM (add_policy unicode_lower py_repr name) pols st1 = Ok st2
    /\ foldM (add_assignment unicode_lower http_get py_repr g name) assigns st2 = Ok st'.
Proof.
  unfold add_package. intros H. bind_inv H.
  eexists _, _, _, _, _, _, _, _. repeat split; eauto.
Qed.

Lemma policies_keep_packages (name : string) (pols : list json) (st st' : state) :
  foldM (add_policy unicode_lower py_repr name) pols st = Ok st' ->
  access_packages st' = access_packages st
  /\ assignments st' = assignments st
  /\ grouped_assignments st' = grouped_assignments st.
Proof.
  apply (foldM_invariant
           (fun s => access_packages s = access_packages st
                     /\ assignments s = assignments st
                     /\ grouped_assignments s = grouped_assignments st));
    [|done].
  intros s x s' _ (H1 & H2 & H3) Hstep.
  apply add_policy_Ok in Hstep as (? & ? & ? & ? & ? & ? & _ & _ & Ha & _ & Hb & Hc & _).
  by rewrite Ha, Hb, Hc.
Qed.

Lemma assignments_keep_packages (g : bool) (name : string) (assigns : list json)
    (st st' : state) :
  foldM (add_assignment unicode_lower http_get py_repr g name) assigns st = Ok st' ->
  access_packages st' = access_packages st
  /\ assignment_policies st' = assignment_policies st.
Proof.
  apply (foldM_invariant
           (fun s => access_packages s = access_packages st
                     /\ assignment_policies s = assignment_policies st));
    [|done].
  intros s x s' _ (H1 & H2) Hstep.
  apply add_assignment_Ok in Hstep as (? & ? & ? & ? & _ & _ & _ & _ & Ha & Hb & _).
  by rewrite Ha, Hb.
Qed.

Lemma add_package_packages (fuel : nat) (g : bool) (st st' : state) (pkg : json) :
  add_package unicode_lower http_get py_repr fuel g st pkg = Ok st' ->
  exists name catalog description,
    package_key unicode_lower pkg = Ok name
    /\ subscript "catalogId" pkg = Ok catalog
    /\ get_default "description" (JStr EmptyString) pkg = Ok description
    /\ access_packages st' =
         dset name (package_entry catalog description) (access_packages st).
Proof.
  intros H.
  apply add_package_Ok in H
    as (name & c & d & pid & pols & assigns & st1 & st2 & Hk & Hc & Hd & _ & _ & _
        & -> & Hp & Ha).
  apply policies_keep_packages in Hp as (Hp & _).
  apply assignments_keep_packages in Ha as (Ha & _).
  exists name, c, d. repeat split; try done. by rewrite Ha, Hp.
Qed.

Lemma add_package_any_state (fuel : nat) (g : bool) (st st' s : state) (pkg : json) :
  add_package unicode_lower http_get py_repr fuel g st pkg = Ok st' ->
  exists s', add_package unicode_lower http_get py_repr fuel g s pkg = Ok s'.
Proof.
  intros H.
  apply add_package_Ok in H
    as (name & c & d & pid & pols & assigns & st1 & st2 & Hk & Hc & Hd & Hid & Hpols
        & Hassigns & -> & Hp & Ha).
  unfold add_package. rewrite Hk, Hc, Hd, Hid. cbn [bind].
  rewrite Hpols. cbn [bind].
  edestruct (foldM_total (add_policy unicode_lower py_repr name) pols) as [s2 Hs2].
  { intros x Hx s0. destruct (foldM_Ok_each _ _ _ _ Hp x Hx) as (sa & sb & Hab).
    eapply add_policy_any_state, Hab. }
  rewrite Hs2. cbn [bind]. rewrite Hassigns. cbn [bind].
  apply foldM_total. intros x Hx s0.
  destruct (foldM_Ok_each _ _ _ _ Ha x Hx) as (sa & sb & Hab).
  eapply add_assignment_any_state, Hab.
Qed.

End Accumulation.

(** ** The three mappings *)

Section Mappings.
Variable unicode_lower : string -> string.
Variable http_get : string -> result json.
Variable py_repr : json -> string.

Lemma refers_to_package_mono (packages packages' : dict json) (entry : json) :
  (forall k, k ∈ dkeys packages -> k ∈ dkeys packages') ->
  refers_to_package packages entry -> refers_to_package packages' entry.
Proof. intros Hsub (name & Hname & Hin). exists name. auto. Qed.

Lemma add_package_integrity (fuel : nat) (g : bool) (st st' : state) (pkg : json) :
  referential_integrity st ->
  add_package unicode_lower http_get py_repr fuel g st pkg = Ok st' ->
  referential_integrity st'.
Proof.
  intros [Hpol Hasg] H.
  apply add_package_Ok in H
    as (name & c & d & pid & pols & assigns & st1 & st2 & _ & _ & _ & _ & _ & _
        & -> & Hp & Ha).
  set (packages1 := dset name (package_entry c d) (access_packages st)) in *.
  assert (Hname : name ∈ dkeys packages1).
  { apply elem_of_dkeys_dset. by left. }
  assert (Hgrow : forall k, k ∈ dkeys (access_packages st) -> k ∈ dkeys packages1).
  { intros k Hk. apply elem_of_dkeys_dset. by right. }
  set (inv := fun s : state =>
         access_packages s = packages1 /\ referential_integrity s).
  assert (H2 : inv st2).
  { revert Hp. apply (foldM_invariant inv).
    - intros s x s' _ [Hs [Hsp Hsa]] Hstep.
      apply add_policy_Ok in Hstep
        as (pn & du & ap & pr & se & pi & _ & _ & Hx & Hy & Hz & _).
      split; [congruence|]. split; rewrite Hx.
      + rewrite Hy. apply Forall_dset; [done|].
        exists name. split; [reflexivity | by rewrite Hs].
      + by rewrite Hz.
    - split; [reflexivity|]. split; simpl.
      + eapply Forall_impl; [exact Hpol|]. intros kv.
        by apply refers_to_package_mono.
      + eapply Forall_impl; [exact Hasg|]. intros kv.
        by apply refers_to_package_mono. }
  assert (H3 : inv st'); [|by destruct H3].
  revert Ha. apply (foldM_invariant inv); [|done].
  intros s x s' _ [Hs [Hsp Hsa]] Hstep.
  apply add_assignment_Ok in Hstep
    as (ti & gr & ak & ai & _ & _ & _ & _ & Hx & Hy & Hz & _).
  split; [congruence|]. split; rewrite Hx.
  - by rewrite Hy.
  - rewrite Hz. apply Forall_dset; [done|].
    exists name. split; [reflexivity | by rewrite Hs].
Qed.

(** C9: once the accumulation loop has run, every value of
    [assignment_policies] and of [assignments] carries in
    [access_package_key] a key of [access_packages]; the mappings are not
    changed afterwards. *)
Theorem collect_referential_integrity (fuel : nat) (catalog_id : string)
    (grouped_tfvars : bool) (st : state) :
  collect unicode_lower http_get py_repr fuel catalog_id grouped_tfvars = Ok st ->
  referential_integrity st.
Proof.
  unfold collect. intros H. bind_inv H. revert H.
  apply (foldM_invariant referential_integrity).
  - intros s x s' _. apply add_package_integrity.
  - split; apply Forall_nil_2.
Qed.

Lemma packages_NoDup (fuel : nat) (g : bool) (pkgs : list json) (st st' : state) :
  NoDup (dkeys (access_packages st)) ->
  foldM (add_package unicode_lower http_get py_repr fuel g) pkgs st = Ok st' ->
  NoDup (dkeys (access_packages st')).
Proof.
  apply (foldM_invariant (fun s => NoDup (dkeys (access_packages s)))).
  intros s x s' _ Hs Hstep.
  apply add_package_packages in Hstep as (n & c & d & _ & _ & _ & ->).
  by apply NoDup_dkeys_dset.
Qed.

(** The binding of a key after the loop is the one written by the last
    package with that key. *)
Lemma packages_last_writer (fuel : nat) (g : bool) (pre post : list json)
    (pkg : json) (key : string) (catalog description : json) (st st' : state) :
  package_key unicode_lower pkg = Ok key ->
  subscript "catalogId" pkg = Ok catalog ->
  get_default "description" (JStr EmptyString) pkg = Ok description ->
  (forall p, p ∈ post -> package_key unicode_lower p <> Ok key) ->
  foldM (add_package unicode_lower http_get py_repr fuel g) (pre ++ pkg :: post) st = Ok st' ->
  dget key (access_packages st') = Some (package_entry catalog description).
Proof.
  intros Hk Hc Hd Hpost Hrun.
  rewrite foldM_app in Hrun. apply bind_Ok in Hrun as (s1 & _ & Hrun).
  simpl in Hrun. apply bind_Ok in Hrun as (s2 & Hpkg & Hrun).
  apply add_package_packages in Hpkg as (n & c & d & Hk' & Hc' & Hd' & Hpk).
  assert (n = key) as -> by congruence.
  assert (c = catalog) as -> by congruence.
  assert (d = description) as -> by congruence.
  revert Hrun.
  apply (foldM_invariant
           (fun s => dget key (access_packages s)
                     = Some (package_entry catalog description))).
  - intros s x s' Hx Hs Hstep.
    apply add_package_packages in Hstep as (n & c & d & Hn & _ & _ & ->).
    rewrite dget_dset_ne; [done|]. intros ->. by apply (Hpost x).
  - rewrite Hpk. apply dget_dset_eq.
Qed.

(** C4: of two packages whose display names sanitise to the same key, the
    one processed later is the one [access_packages] holds under that key;
    the run raises nothing on account of the clash (it succeeds whenever each
    package can be processed by itself) and the key is bound once. *)
Theorem same_key_package_overwrites (fuel : nat) (catalog_id : string)
    (grouped_tfvars : bool) (pre mid post : list json) (p1 p2 : json)
    (key : string) (catalog description : json) :
  get_all http_get fuel (packages_url catalog_id)
    = Ok (pre ++ p1 :: mid ++ p2 :: post) ->
  package_key unicode_lower p1 = Ok key ->
  package_key unicode_lower p2 = Ok key ->
  subscript "catalogId" p2 = Ok catalog ->
  get_default "description" (JStr EmptyString) p2 = Ok description ->
  (forall p, p ∈ post -> package_key unicode_lower p <> Ok key) ->
  (forall p, p ∈ pre ++ p1 :: mid ++ p2 :: post ->
     exists s, add_package unicode_lower http_get py_repr fuel grouped_tfvars empty_state p = Ok s) ->
  exists st,
    collect unicode_lower http_get py_repr fuel catalog_id grouped_tfvars = Ok st
    /\ dget key (access_packages st) = Some (package_entry catalog description)
    /\ (forall v, (key, v) ∈ access_packages st ->
          v = package_entry catalog description).
Proof.
  intros Hget Hk1 Hk2 Hc Hd Hpost Heach.
  destruct (foldM_total (add_package unicode_lower http_get py_repr fuel grouped_tfvars)
              (pre ++ p1 :: mid ++ p2 :: post)) with (s := empty_state)
    as [st Hst].
  { intros p Hp s. destruct (Heach p Hp) as [s0 Hs0].
    eapply add_package_any_state, Hs0. }
  exists st. unfold collect. rewrite Hget. cbn [bind].
  split; [exact Hst|].
  assert (Hlast : dget key (access_packages st)
                  = Some (package_entry catalog description)).
  { apply (packages_last_writer fuel grouped_tfvars (pre ++ p1 :: mid) post p2
             key catalog description empty_state st); try done.
    by rewrite <- app_assoc. }
  split; [exact Hlast|].
  intros v Hv.
  assert (Hnd : NoDup (dkeys (access_packages st))).
  { eapply packages_NoDup; [|exact Hst]. apply NoDup_nil_2. }
  apply (elem_of_dget _ _ _ Hnd) in Hv. congruence.
Qed.

Lemma assign_key_of_str (name t : string) :
  assign_key_of py_repr name (JStr t)
  = Ok (name +:+ "_user_" +:+ string_take 6 t).
Proof. reflexivity. Qed.

Lemma assignments_NoDup (g : bool) (name : string) (assigns : list json)
    (st st' : state) :
  NoDup (dkeys (assignments st)) ->
  foldM (add_assignment unicode_lower http_get py_repr g name) assigns st = Ok st' ->
  NoDup (dkeys (assignments st')).
Proof.
  apply (foldM_invariant (fun s => NoDup (dkeys (assignments s)))).
  intros s x s' _ Hs Hstep.
  apply add_assignment_Ok in Hstep
    as (ti & gr & ak & ai & _ & _ & _ & _ & _ & _ & -> & _).
  by apply NoDup_dkeys_dset.
Qed.

(** C10: the assignment key is the package key, [_user_] and the first six
    characters of the target id, so two assignments of one package whose
    target ids agree on those characters have the same key, and after the
    loop the mapping holds under it the entry of the later one (the last
    with that key) and no other. *)
Theorem same_prefix_assignment_overwrites (grouped_tfvars : bool) (name : string)
    (pre mid post : list json) (a1 a2 : json) (t1 t2 : string) (st st' : state) :
  subscript "targetId" a1 = Ok (JStr t1) ->
  subscript "targetId" a2 = Ok (JStr t2) ->
  string_take 6 t1 = string_take 6 t2 ->
  (forall a t, a ∈ post -> subscript "targetId" a = Ok t ->
     assign_key_of py_repr name t <> Ok (name +:+ "_user_" +:+ string_take 6 t2)) ->
  NoDup (dkeys (assignments st)) ->
  foldM (add_assignment unicode_lower http_get py_repr grouped_tfvars name)
        (pre ++ a1 :: mid ++ a2 :: post) st = Ok st' ->
  assign_key_of py_repr name (JStr t1) = Ok (name +:+ "_user_" +:+ string_take 6 t1)
  /\ assign_key_of py_repr name (JStr t2) = Ok (name +:+ "_user_" +:+ string_take 6 t1)
  /\ dget (name +:+ "_user_" +:+ string_take 6 t1) (assignments st')
     = Some (assignment_entry name (JStr t2))
  /\ (forall v, (name +:+ "_user_" +:+ string_take 6 t1, v) ∈ assignments st' ->
        v = assignment_entry name (JStr t2)).
Proof.
  intros Ht1 Ht2 Hpre Hpost Hnd Hrun.
  split; [apply assign_key_of_str|].
  split; [rewrite Hpre; apply assign_key_of_str|].
  assert (Hlast : dget (name +:+ "_user_" +:+ string_take 6 t1) (assignments st')
                  = Some (assignment_entry name (JStr t2))).
  { rewrite Hpre.
    replace (pre ++ a1 :: mid ++ a2 :: post)
      with ((pre ++ a1 :: mid) ++ a2 :: post) in Hrun
      by (by rewrite <- app_assoc).
    rewrite foldM_app in Hrun. apply bind_Ok in Hrun as (s1 & _ & Hrun).
    simpl in Hrun. apply bind_Ok in Hrun as (s2 & Hstep & Hrun).
    apply add_assignment_Ok in Hstep
      as (ti & gr & ak & ai & Hti & _ & Hak & _ & _ & _ & Hs2 & _).
    assert (ti = JStr t2) as -> by congruence.
    rewrite assign_key_of_str in Hak. injection Hak as <-.
    revert Hrun.
    apply (foldM_invariant
             (fun s => dget (name +:+ "_user_" +:+ string_take 6 t2) (assignments s)
                       = Some (assignment_entry name (JStr t2)))).
    - intros s x s' Hx Hs Hstep.
      apply add_assignment_Ok in Hstep
        as (ti' & gr' & ak' & ai' & Hti' & _ & Hak' & _ & _ & _ & -> & _).
      rewrite dget_dset_ne; [done|]. intros ->. by apply (Hpost x ti').
    - rewrite Hs2. apply dget_dset_eq. }
  split; [exact Hlast|].
  intros v Hv.
  assert (Hnd' : NoDup (dkeys (assignments st'))).
  { eapply assignments_NoDup; [exact Hnd | exact Hrun]. }
  apply (elem_of_dget _ _ _ Hnd') in Hv. congruence.
Qed.

End Mappings.

(** ** The worked example *)

Section Example.
Variable unicode_lower : string -> string.
Variable http_get : string -> result json.
Variable py_repr : json -> string.

Lemma assignments_extend_cmds (g : bool) (name : string) (assigns : list json)
    (st st' : state) :
  foldM (add_assignment unicode_lower http_get py_repr g name) assigns st = Ok st' ->
  exists more, import_cmds st' = import_cmds st ++ more.
Proof.
  apply (foldM_invariant (fun s => exists more, import_cmds s = import_cmds st ++ more)).
  - intros s x s' _ [more Hs] Hstep.
    apply add_assignment_Ok in Hstep
      as (ti & gr & ak & ai & _ & _ & _ & _ & _ & _ & _ & _ & ->).
    rewrite Hs, <- app_assoc. eauto.
  - exists []. by rewrite app_nil_r.
Qed.

Lemma add_package_run (fuel : nat) (g : bool) (st : state) (pkg : json)
    (name : string) (catalog description pkg_id : json) (pols assigns : list json)
    (st2 st' : state) :
  package_key unicode_lower pkg = Ok name ->
  subscript "catalogId" pkg = Ok catalog ->
  get_default "description" (JStr EmptyString) pkg = Ok description ->
  subscript "id" pkg = Ok pkg_id ->
  get_all http_get fuel (policies_url py_repr pkg_id) = Ok pols ->
  get_all http_get fuel (assignments_url py_repr pkg_id) = Ok assigns ->
  foldM (add_policy unicode_lower py_repr name) pols
    {| access_packages :=
         dset name (package_entry catalog description) (access_packages st);
       assignment_policies := assignment_policies st;
       assignments := assignments st;
       grouped_assignments := grouped_assignments st;
       import_cmds := import_cmds st ++
         ["terraform import azuread_access_package." +:+ name +:+ " "
            +:+ fmt py_repr pkg_id] |} = Ok st2 ->
  foldM (add_assignment unicode_lower http_get py_repr g name) assigns st2 = Ok st' ->
  add_package unicode_lower http_get py_repr fuel g st pkg = Ok st'.
Proof.
  intros Hk Hc Hd Hid Hpols Hassigns Hp Ha. unfold add_package.
  rewrite Hk. cbn [bind]. rewrite Hc. cbn [bind]. rewrite Hd. cbn [bind].
  rewrite Hid. cbn [bind]. rewrite Hpols. cbn [bind]. rewrite Hp. cbn [bind].
  rewrite Hassigns. cbn [bind]. exact Ha.
Qed.

(** C7: for a catalog whose only package is named "Finance Access" and has
    one assignment policy (any policy the loop can store), the run yields
    the package key [finance_access], the policy key [finance_access_]
    followed by the sanitised policy name, and as first import command
    [terraform import azuread_access_package.finance_access <package id>]. *)
Theorem finance_access_example (fuel : nat) (catalog_id : string)
    (grouped_tfvars : bool) (pkg pol catalog pkg_id : json)
    (assigns : list json) (sp sa : state) :
  get_all http_get fuel (packages_url catalog_id) = Ok [pkg] ->
  subscript "displayName" pkg = Ok (JStr "Finance Access") ->
  subscript "catalogId" pkg = Ok catalog ->
  subscript "id" pkg = Ok pkg_id ->
  get_all http_get fuel (policies_url py_repr pkg_id) = Ok [pol] ->
  add_policy unicode_lower py_repr "finance_access" empty_state pol = Ok sp ->
  get_all http_get fuel (assignments_url py_repr pkg_id) = Ok assigns ->
  foldM (add_assignment unicode_lower http_get py_repr grouped_tfvars
           "finance_access") assigns empty_state = Ok sa ->
  exists st pol_name pol_id duration approval primary secondary more,
    collect unicode_lower http_get py_repr fuel catalog_id grouped_tfvars = Ok st
    /\ subscript "displayName" pol = Ok (JStr pol_name)
    /\ subscript "id" pol = Ok pol_id
    /\ dkeys (access_packages st) = ["finance_access"]
    /\ assignment_policies st =
         [("finance_access_" +:+ safe unicode_lower pol_name,
           policy_entry "finance_access" duration approval primary secondary)]
    /\ import_cmds st =
         ("terraform import azuread_access_package.finance_access "
            +:+ fmt py_repr pkg_id)
         :: ("terraform import azuread_access_package_assignment_policy."
               +:+ ("finance_access_" +:+ safe unicode_lower pol_name) +:+ " "
               +:+ fmt py_repr pol_id)
         :: more.
Proof.
  intros Hpkgs Hname Hcat Hid Hpols Hpol Hassigns Hsa.
  assert (Hdesc : exists description,
             get_default "description" (JStr EmptyString) pkg = Ok description).
  { destruct pkg; simpl in Hname; try done. simpl. eauto. }
  destruct Hdesc as [description Hdesc].
  set (st1 :=
    {| access_packages :=
         dset "finance_access" (package_entry catalog description)
              (access_packages empty_state);
       assignment_policies := assignment_policies empty_state;
       assignments := assignments empty_state;
       grouped_assignments := grouped_assignments empty_state;
       import_cmds := import_cmds empty_state ++
         ["terraform import azuread_access_package." +:+ "finance_access" +:+ " "
            +:+ fmt py_repr pkg_id] |}).
  destruct (add_policy_any_state unicode_lower py_repr "finance_access"
              empty_state sp st1 pol Hpol) as [st2 Hst2].
  destruct (add_policy_Ok unicode_lower py_repr "finance_access" st1 st2 pol Hst2)
    as (pol_name & duration & approval & primary & secondary & pol_id
        & Hpname & Hpid & Hpk2 & Hpol2 & _ & _ & Hcmd2).
  destruct (foldM_total
              (add_assignment unicode_lower http_get py_repr grouped_tfvars
                 "finance_access") assigns) with (s := st2) as [st Hst].
  { intros a Ha s. destruct (foldM_Ok_each _ _ _ _ Hsa a Ha) as (x & y & Hxy).
    eapply add_assignment_any_state, Hxy. }
  destruct (assignments_extend_cmds grouped_tfvars
              "finance_access" assigns st2 st Hst) as [more Hmore].
  destruct (assignments_keep_packages unicode_lower http_get py_repr
              grouped_tfvars "finance_access" assigns st2 st Hst) as [Hpk Hps].
  exists st, pol_name, pol_id, duration, approval, primary, secondary, more.
  split.
  { unfold collect. rewrite Hpkgs. cbn [bind foldM].
    rewrite (add_package_run fuel grouped_tfvars empty_state pkg "finance_access"
               catalog description pkg_id [pol] assigns st2 st); try done.
    - unfold package_key. rewrite Hname. reflexivity.
    - change (bind (add_policy unicode_lower py_repr "finance_access" st1 pol) Ok
              = Ok st2).
      by rewrite Hst2. }
  split; [exact Hpname|]. split; [exact Hpid|].
  split; [by rewrite Hpk, Hpk2|].
  split; [by rewrite Hps, Hpol2|].
  rewrite Hmore, Hcmd2. reflexivity.
Qed.

End Example.

(** ** File names *)

Lemma string_app_cons (c : ascii) (a b : string) :
  String c a +:+ b = String c (a +:+ b).
Proof. reflexivity. Qed.

Lemma string_length_app (a b : string) :
  String.length (a +:+ b) = (String.length a + String.length b)%nat.
Proof.
  induction a as [|c a IH]; [reflexivity|].
  rewrite string_app_cons. simpl. by rewrite IH.
Qed.

Lemma string_app_inj_r (a b s : string) : a +:+ s = b +:+ s -> a = b.
Proof.
  revert b. induction a as [|c a IH]; intros [|c' b] H.
  - done.
  - apply (f_equal String.length) in H.
    rewrite !string_length_app in H. simpl in H. lia.
  - apply (f_equal String.length) in H.
    rewrite !string_length_app in H. simpl in H. lia.
  - rewrite !string_app_cons in H. injection H as -> H. f_equal. by apply IH.
Qed.

Lemma group_file_name_inj (g g' : string) :
  group_file_name g = group_file_name g' -> g = g'.
Proof. apply string_app_inj_r. Qed.

Lemma group_file_name_not_main (g : string) : group_file_name g <> "main.tf".
Proof.
  unfold group_file_name. intros H.
  assert (Hlen := f_equal String.length H).
  rewrite string_length_app in Hlen. simpl in Hlen.
  destruct g; [discriminate H | simpl in Hlen; lia].
Qed.

Lemma group_file_name_not_variables (g : string) :
  group_file_name g <> "variables.tf".
Proof.
  unfold group_file_name. intros H.
  assert (Hlen := f_equal String.length H).
  rewrite string_length_app in Hlen. simpl in Hlen.
  do 6 (destruct g as [|? g]; [try discriminate H; simpl in Hlen; lia|]).
  simpl in Hlen. lia.
Qed.

Lemma group_file_name_not_script (g : string) :
  group_file_name g <> "terraform_import.sh".
Proof.
  unfold group_file_name. intros H.
  assert (Hlen := f_equal String.length H).
  rewrite string_length_app in Hlen. simpl in Hlen.
  do 13 (destruct g as [|? g]; [try discriminate H; simpl in Hlen; lia|]).
  simpl in Hlen. lia.
Qed.

(** ** Emitters and scaffold files *)

Lemma file_is_and_then (name : string) (v : option string) (r : run)
    (k : world -> run) :
  file_is name v r ->
  (forall w, fs w !! name = v -> file_is name v (k w)) ->
  file_is name v (and_then r k).
Proof. destruct r; simpl; auto. Qed.

Section Emitters.
Variable json_dump : json -> string.
Variable creatable : string -> bool.
Variable subprocess_run : list string -> gmap string string -> Z * gmap string string.

Lemma write_file_other (name n text message : string) (v : option string)
    (w : world) :
  n <> name -> fs w !! name = v ->
  file_is name v (write_file creatable n text message w).
Proof.
  intros Hne Hw. unfold write_file, file_is.
  destruct (creatable n); simpl; [|done]. by rewrite lookup_insert_ne.
Qed.

Lemma write_group_files_other (name : string) (v : option string)
    (groups : dict (dict json)) :
  (forall g, group_file_name g <> name) ->
  forall w, fs w !! name = v ->
    file_is name v (write_group_files json_dump creatable groups w).
Proof.
  intros Hne. induction groups as [|[g d] groups IH]; intros w Hw; simpl.
  - exact Hw.
  - apply file_is_and_then; [|exact IH]. by apply write_file_other.
Qed.

Lemma write_scaffold_existing (generate_main : bool) (n text message content : string)
    (w : world) :
  fs w !! n = Some content ->
  write_scaffold creatable generate_main n text message w = Finished w.
Proof.
  intros Hw. unfold write_scaffold, path_exists. rewrite Hw.
  by rewrite andb_false_r.
Qed.

Lemma write_scaffold_other (generate_main : bool) (name n text message : string)
    (v : option string) (w : world) :
  n <> name -> fs w !! name = v ->
  file_is name v (write_scaffold creatable generate_main n text message w).
Proof.
  intros Hne Hw. unfold write_scaffold.
  destruct (generate_main && negb (path_exists n w)); [|exact Hw].
  by apply write_file_other.
Qed.

(** A finished scaffold step with the flag set leaves the file in place. *)
Lemma write_scaffold_present (n text message : string) (w w' : world) :
  write_scaffold creatable true n text message w = Finished w' ->
  is_Some (fs w' !! n).
Proof.
  unfold write_scaffold, path_exists, write_file. simpl.
  destruct (fs w !! n) eqn:Hw; simpl.
  - intros [= <-]. rewrite Hw. eauto.
  - destruct (creatable n); [|done]. intros [= <-]. simpl.
    rewrite lookup_insert_eq. eauto.
Qed.

Lemma emit_files_keeps_scaffold (name content : string) (g gm : bool)
    (st : state) (w : world) :
  is_scaffold name ->
  fs w !! name = Some content ->
  file_is name (Some content) (emit_files json_dump creatable g gm st w).
Proof.
  intros Hname Hw. unfold emit_files.
  assert (Hgroup : forall grp, group_file_name grp <> name).
  { intros grp. destruct Hname as [-> | ->];
      [apply group_file_name_not_main | apply group_file_name_not_variables]. }
  apply file_is_and_then.
  { apply write_file_other; [|done]. by destruct Hname as [-> | ->]. }
  intros w1 Hw1. apply file_is_and_then.
  { destruct g; [|exact Hw1]. by apply write_group_files_other. }
  intros w2 Hw2. apply file_is_and_then.
  { apply write_file_other; [|done]. by destruct Hname as [-> | ->]. }
  intros w3 Hw3. destruct Hname as [-> | ->].
  - rewrite (write_scaffold_existing _ _ _ _ content) by done. simpl.
    by apply write_scaffold_other.
  - apply file_is_and_then.
    + by apply write_scaffold_other.
    + intros w4 Hw4. by rewrite (write_scaffold_existing _ _ _ _ content).
Qed.

Lemma emit_files_scaffold_present (name : string) (g : bool) (st : state)
    (w w' : world) :
  is_scaffold name ->
  emit_files json_dump creatable g true st w = Finished w' ->
  is_Some (fs w' !! name).
Proof.
  intros Hname. unfold emit_files.
  destruct (write_file creatable "terraform.tfvars" _ _ w) as [w1| |]; simpl; try done.
  destruct (if g then _ else _) as [w2| |]; simpl; try done.
  destruct (write_file creatable "terraform_import.sh" _ _ w2) as [w3| |];
    simpl; try done.
  destruct (write_scaffold creatable true "main.tf" _ _ w3) as [w4| |] eqn:Hmain;
    simpl; try done.
  intros Hvars. destruct Hname as [-> | ->].
  - destruct (write_scaffold_present _ _ _ _ _ Hmain) as [c Hc].
    pose proof (write_scaffold_other true "main.tf" "variables.tf"
                  variables_tf_template "✅ variables.tf scaffold created"
                  (Some c) w4 ltac:(done) Hc) as Hkeep.
    unfold file_is in Hkeep. rewrite Hvars in Hkeep. simpl in Hkeep.
    rewrite Hkeep. eauto.
  - by apply write_scaffold_present in Hvars.
Qed.

Section Runner.
Variable name : string.
Hypothesis subprocess_keeps :
  forall argv dir, (subprocess_run argv dir).2 !! name = dir !! name.

Lemma import_runner_keeps (v : option string) (w : world) :
  fs w !! name = v -> file_is name v (import_runner subprocess_run w).
Proof.
  intros Hw. unfold import_runner. apply file_is_and_then.
  - unfold init_if_backend. destruct (backend_detected w); [|exact Hw].
    unfold terraform_init, file_is. simpl.
    specialize (subprocess_keeps ["terraform"; "init"] (fs w)).
    destruct (subprocess_run ["terraform"; "init"] (fs w)) as [rc dir].
    simpl in subprocess_keeps.
    destruct (rc =? 0); simpl; congruence.
  - intros w1 Hw1. unfold run_import_script.
    specialize (subprocess_keeps ["bash"; "terraform_import.sh"] (fs w1)).
    destruct (subprocess_run ["bash"; "terraform_import.sh"] (fs w1)) as [rc dir].
    simpl in *. unfold file_is. simpl. congruence.
Qed.

Lemma main_keeps_scaffold (unicode_lower : string -> string)
    (http_get : string -> result json)
    (py_repr : json -> string) (fuel : nat) (catalog_id : string)
    (g gm ri : bool) (content : string) (w : world) :
  is_scaffold name ->
  fs w !! name = Some content ->
  file_is name (Some content)
    (main unicode_lower http_get py_repr json_dump creatable subprocess_run
          fuel catalog_id g gm ri w).
Proof.
  intros Hname Hw. unfold main.
  destruct (collect unicode_lower http_get py_repr fuel catalog_id g) as [st|e|];
    [|exact Hw|exact I].
  apply file_is_and_then.
  - by apply emit_files_keeps_scaffold.
  - intros w1 Hw1. destruct ri; [|exact Hw1]. by apply import_runner_keeps.
Qed.

Lemma main_scaffold_present (unicode_lower : string -> string)
    (http_get : string -> result json)
    (py_repr : json -> string) (fuel : nat) (catalog_id : string)
    (g ri : bool) (w w' : world) :
  is_scaffold name ->
  main unicode_lower http_get py_repr json_dump creatable subprocess_run
       fuel catalog_id g true ri w = Finished w' ->
  is_Some (fs w' !! name).
Proof.
  intros Hname. unfold main.
  destruct (collect unicode_lower http_get py_repr fuel catalog_id g) as [st|e|]; try done.
  destruct (emit_files json_dump creatable g true st _) as [w1| |] eqn:Hemit;
    simpl; try done.
  apply (emit_files_scaffold_present name) in Hemit as [c Hc]; [|done].
  destruct ri.
  - intros Hrun. pose proof (import_runner_keeps (Some c) w1 Hc) as Hkeep.
    unfold file_is in Hkeep. rewrite Hrun in Hkeep. simpl in Hkeep.
    rewrite Hkeep. eauto.
  - intros [= <-]. eauto.
Qed.

End Runner.

(** C6: a scaffold file ([main.tf], [variables.tf]) that exists when the
    run starts has the same content when the run ends, the file being
    written only when absent; so after a first run with scaffold generation
    the file exists and a second run in the same directory, whatever it
    fetches and whatever its flags, leaves it as the first run left it.
    The subprocesses of the import runner are taken not to touch the file. *)
Theorem scaffold_files_not_overwritten (name : string) :
  is_scaffold name ->
  (forall argv dir, (subprocess_run argv dir).2 !! name = dir !! name) ->
  (forall unicode_lower http_get py_repr fuel catalog_id g gm ri content w,
     fs w !! name = Some content ->
     file_is name (Some content)
       (main unicode_lower http_get py_repr json_dump creatable subprocess_run
             fuel catalog_id g gm ri w))
  /\ (forall unicode_lower http_get py_repr fuel catalog_id g ri w w1,
        main unicode_lower http_get py_repr json_dump creatable subprocess_run
             fuel catalog_id g true ri w = Finished w1 ->
        is_Some (fs w1 !! name)
        /\ forall unicode_lower' http_get' py_repr' fuel' catalog_id' g' gm' ri',
             file_is name (fs w1 !! name)
               (main unicode_lower' http_get' py_repr' json_dump creatable subprocess_run
                     fuel' catalog_id' g' gm' ri' w1)).
Proof.
  intros Hname Hkeeps. split.
  - intros. by apply main_keeps_scaffold.
  - intros unicode_lower http_get py_repr fuel catalog_id g ri w w1 Hrun.
    destruct (main_scaffold_present name Hkeeps _ _ _ _ _ _ _ _ _ Hname Hrun)
      as [c Hc].
    split; [eauto|]. intros. rewrite Hc. by apply main_keeps_scaffold.
Qed.

(** C8: in the import runner a non-zero exit status of [terraform init]
    ends the run with [CalledProcessError]; once the init step is over,
    whatever exit status the import script returns, the run finishes and
    prints its success line, the status appearing nowhere in the outcome. *)
Theorem import_runner_exit_status (w : world) :
  (forall rc dir,
     backend_detected w = true ->
     subprocess_run ["terraform"; "init"] (fs w) = (rc, dir) ->
     rc <> 0 ->
     import_runner subprocess_run w =
       Crashed (CalledProcessError rc)
         {| fs := dir;
            stdout := stdout w ++
              ["Detected Terraform backend config. Running terraform init..."] |})
  /\ (forall w1 rc dir,
        init_if_backend subprocess_run w = Finished w1 ->
        subprocess_run ["bash"; "terraform_import.sh"] (fs w1) = (rc, dir) ->
        import_runner subprocess_run w =
          Finished {| fs := dir;
                      stdout := stdout w1 ++ ["✅ terraform import executed"] |}).
Proof.
  split.
  - intros rc dir Hback Hinit Hrc. unfold import_runner, init_if_backend.
    rewrite Hback. unfold terraform_init. simpl. rewrite Hinit.
    destruct (rc =? 0) eqn:E; [|reflexivity].
    apply Z.eqb_eq in E. done.
  - intros w1 rc dir Hinit Hscript. unfold import_runner. rewrite Hinit. simpl.
    unfold run_import_script. rewrite Hscript. reflexivity.
Qed.

End Emitters.

(** ** Grouped output *)

Section GroupedFacts.
Implicit Types (p : string * json * string) (tr : list (string * json * string)).

Lemma store_assignment_last (key : string) tr :
  forall d, (forall e, (key, e) ∉ map fst tr) ->
    dget key (fold_left store_assignment tr d) = dget key d.
Proof.
  induction tr as [|[[k e] g] tr IH]; intros d Hno; simpl; [done|].
  rewrite IH.
  - unfold store_assignment. simpl. apply dget_dset_ne. intros ->.
    apply (Hno e). simpl. apply list_elem_of_here.
  - intros e' He'. apply (Hno e'). simpl. by apply list_elem_of_further.
Qed.

Lemma store_assignment_from tr :
  forall d key entry,
    dget key (fold_left store_assignment tr d) = Some entry ->
    dget key d = Some entry \/ exists g, (key, entry, g) ∈ tr.
Proof.
  induction tr as [|[[k e] g] tr IH]; intros d key entry H; simpl in H; [auto|].
  apply IH in H as [H | [g' H]].
  - unfold store_assignment in H. simpl in H.
    destruct (decide (k = key)) as [->|Hne].
    + rewrite dget_dset_eq in H. injection H as ->. right. exists g.
      apply list_elem_of_here.
    + rewrite dget_dset_ne in H by done. auto.
  - right. exists g'. by apply list_elem_of_further.
Qed.

Lemma group_add_lookup (group key : string) (entry : json)
    (grouped : dict (dict json)) (g : string) :
  dget g (group_add group key entry grouped) =
    if decide (group = g)
    then Some (dset key entry (default [] (dget group grouped)))
    else dget g grouped.
Proof.
  unfold group_add. destruct (decide (group = g)) as [->|Hne].
  - apply dget_dset_eq.
  - by apply dget_dset_ne.
Qed.

(** The dictionary of a group after the stores of a trace. *)
Lemma store_grouped_lookup (g : string) tr :
  forall grouped,
    default [] (dget g (fold_left store_grouped tr grouped)) =
      fold_left store_assignment (filter (fun p => snd p = g) tr)
                (default [] (dget g grouped)).
Proof.
  induction tr as [|[[k e] grp] tr IH]; intros grouped; simpl; [done|].
  rewrite IH. unfold store_grouped. simpl. rewrite group_add_lookup.
  rewrite filter_cons. simpl.
  destruct (decide (grp = g)) as [->|Hne]; simpl; done.
Qed.

Lemma store_grouped_keys tr :
  forall grouped g,
    g ∈ dkeys (fold_left store_grouped tr grouped)
    <-> g ∈ dkeys grouped \/ g ∈ map snd tr.
Proof.
  induction tr as [|[[k e] grp] tr IH]; intros grouped g; simpl.
  - split; [auto|]. intros [?|H]; [done|]. by apply elem_of_nil in H.
  - rewrite IH. unfold store_grouped at 1, group_add. simpl.
    rewrite elem_of_dkeys_dset, elem_of_cons. tauto.
Qed.

Lemma store_grouped_NoDup tr :
  forall grouped, NoDup (dkeys grouped) ->
    NoDup (dkeys (fold_left store_grouped tr grouped)).
Proof.
  induction tr as [|p tr IH]; intros grouped Hnd; simpl; [done|].
  apply IH. unfold store_grouped, group_add. by apply NoDup_dkeys_dset.
Qed.

Lemma group_dict_lookup (g : string) tr :
  g ∈ map snd tr ->
  dget g (fold_left store_grouped tr []) = Some (group_dict g tr).
Proof.
  intros Hin.
  assert (Hkey : g ∈ dkeys (fold_left store_grouped tr [])).
  { apply store_grouped_keys. by right. }
  apply elem_of_dkeys_dget in Hkey as [d Hd].
  pose proof (store_grouped_lookup g tr []) as Hl. rewrite Hd in Hl.
  simpl in Hl. rewrite Hd. f_equal. exact Hl.
Qed.

(** A group's dictionary holds only entries of assignments of that group. *)
Lemma group_dict_only_own (g key : string) (entry : json) tr :
  dget key (group_dict g tr) = Some entry -> (key, entry, g) ∈ tr.
Proof.
  unfold group_dict. intros H.
  apply store_assignment_from in H as [H | [g' H]]; [done|].
  apply list_elem_of_filter in H as [Hg H]. simpl in Hg. by subst g'.
Qed.

(** Under a key it holds the entry of the last assignment of the group with
    that key. *)
Lemma group_dict_last (g key : string) (entry : json) tr1 tr2 :
  (forall e, (key, e, g) ∉ tr2) ->
  dget key (group_dict g (tr1 ++ (key, entry, g) :: tr2)) = Some entry.
Proof.
  intros Hno. unfold group_dict.
  rewrite filter_app, filter_cons. simpl.
  destruct (decide (g = g)) as [_|]; [|done].
  rewrite fold_left_app. simpl. rewrite store_assignment_last.
  - unfold store_assignment at 1. simpl. apply dget_dset_eq.
  - intros e He. apply list_elem_of_fmap_1 in He as ([[k' e'] g'] & Heq & Hin).
    simpl in Heq. injection Heq as <- <-.
    apply list_elem_of_filter in Hin as [Hg Hin]. simpl in Hg. subst g'.
    by apply (Hno e).
Qed.

Lemma dkeys_length {V : Type} (d : dict V) : length (dkeys d) = length d.
Proof. apply length_map. Qed.

Lemma distinct_groups_count tr (grouped : dict (dict json)) :
  NoDup (dkeys grouped) ->
  (forall g, g ∈ dkeys grouped <-> g ∈ map snd tr) ->
  length grouped = length (remove_dups (map snd tr)).
Proof.
  intros Hnd Hsame. rewrite <- dkeys_length.
  apply Permutation_length, NoDup_Permutation; [done | apply NoDup_remove_dups |].
  intros g. rewrite elem_of_remove_dups. apply Hsame.
Qed.

End GroupedFacts.

Section GroupedOutput.
Variable unicode_lower : string -> string.
Variable http_get : string -> result json.
Variable py_repr : json -> string.
Variable json_dump : json -> string.
Variable creatable : string -> bool.

Lemma assignments_loop_trace (g : bool) (name : string) (assigns : list json) :
  forall st st',
    foldM (add_assignment unicode_lower http_get py_repr g name) assigns st = Ok st' ->
    exists tr,
      mapM (processed_assignment unicode_lower http_get py_repr name) assigns = Ok tr
      /\ grouped_assignments st' =
           if g then fold_left store_grouped tr (grouped_assignments st)
           else grouped_assignments st.
Proof.
  induction assigns as [|a assigns IH]; intros st st' Hrun; simpl in Hrun.
  - injection Hrun as <-. exists []. by destruct g.
  - apply bind_Ok in Hrun as (s1 & Hstep & Hrun).
    apply IH in Hrun as (tr & Htr & Hgr).
    apply add_assignment_Ok in Hstep
      as (ti & gr & ak & ai & Hti & Hg & Hak & Hai & _ & _ & _ & Hs1 & _).
    exists ((ak, assignment_entry name ti, gr) :: tr). split.
    + simpl. unfold processed_assignment at 1.
      rewrite Hti. cbn [bind]. rewrite Hg. cbn [bind]. rewrite Hak. cbn [bind].
      rewrite Hai. cbn [bind]. by rewrite Htr.
    + rewrite Hgr, Hs1. by destruct g.
Qed.

Lemma packages_loop_trace (fuel : nat) (pkgs : list json) :
  forall st st',
    foldM (add_package unicode_lower http_get py_repr fuel true) pkgs st = Ok st' ->
    exists trs,
      mapM (package_assignments unicode_lower http_get py_repr fuel) pkgs = Ok trs
      /\ grouped_assignments st' =
           fold_left store_grouped (concat trs) (grouped_assignments st).
Proof.
  induction pkgs as [|pkg pkgs IH]; intros st st' Hrun; simpl in Hrun.
  - injection Hrun as <-. by exists [].
  - apply bind_Ok in Hrun as (s1 & Hstep & Hrun).
    apply IH in Hrun as (trs & Htrs & Hgr).
    apply add_package_Ok in Hstep
      as (name & c & d & pid & pols & assigns & st1 & st2 & Hk & _ & _ & Hid & _
          & Hassigns & -> & Hp & Ha).
    apply policies_keep_packages in Hp as (_ & _ & Hp).
    apply assignments_loop_trace in Ha as (tr & Htr & Ha).
    exists (tr :: trs). split.
    + simpl. unfold package_assignments at 1.
      rewrite Hk. cbn [bind]. rewrite Hid. cbn [bind]. rewrite Hassigns.
      cbn [bind]. rewrite Htr. cbn [bind]. by rewrite Htrs.
    + simpl. rewrite fold_left_app, Hgr, Ha, Hp. reflexivity.
Qed.

Lemma collect_trace (fuel : nat) (catalog_id : string) (st : state) :
  collect unicode_lower http_get py_repr fuel catalog_id true = Ok st ->
  exists tr,
    catalog_assignments unicode_lower http_get py_repr fuel catalog_id = Ok tr
    /\ grouped_assignments st = fold_left store_grouped tr [].
Proof.
  unfold collect, catalog_assignments. intros H.
  apply bind_Ok in H as (pkgs & Hpkgs & H).
  apply packages_loop_trace in H as (trs & Htrs & Hgr).
  exists (concat trs). rewrite Hpkgs. cbn [bind]. rewrite Htrs. by split.
Qed.

(** Writing the group files of a dictionary whose file names can be
    created: every group's file gets the text of its dictionary, other
    files stay. *)
Lemma write_group_files_result (groups : dict (dict json)) :
  NoDup (dkeys groups) ->
  (forall g, g ∈ dkeys groups -> creatable (group_file_name g) = true) ->
  forall w, exists w',
    write_group_files json_dump creatable groups w = Finished w'
    /\ (forall g d, dget g groups = Some d ->
          fs w' !! group_file_name g = Some (group_file_text json_dump d))
    /\ (forall n, (forall g, g ∈ dkeys groups -> group_file_name g <> n) ->
          fs w' !! n = fs w !! n).
Proof.
  induction groups as [|[g0 d0] groups IH]; intros Hnd Hcr w; simpl.
  - exists w. split; [done|]. split; [done|]. done.
  - apply NoDup_cons in Hnd as [Hnin Hnd].
    unfold write_file at 1. rewrite Hcr by apply list_elem_of_here. simpl.
    destruct (IH Hnd (fun g Hg => Hcr g (list_elem_of_further _ _ _ Hg))
                {| fs := <[group_file_name g0 := group_file_text json_dump d0]> (fs w);
                   stdout := stdout w ++ ["✅ " +:+ g0 +:+ ".tfvars written"] |})
      as (w' & Hrun & Hfiles & Hframe).
    exists w'. split; [exact Hrun|]. split.
    + intros g d Hg. destruct (String.eqb g g0) eqn:E.
      * apply String.eqb_eq in E. subst g0. injection Hg as <-.
        rewrite Hframe.
        -- simpl. apply lookup_insert_eq.
        -- intros g' Hg' Heq. apply group_file_name_inj in Heq. by subst g'.
      * by apply Hfiles.
    + intros n Hn. rewrite Hframe.
      * simpl. apply lookup_insert_ne, Hn, list_elem_of_here.
      * intros g Hg. by apply Hn, list_elem_of_further.
Qed.

(** The emitters with every target name creatable finish, and the group
    files are as the group stage wrote them. *)
Lemma emit_files_groups (gm : bool) (st : state) (w : world) :
  creatable "terraform.tfvars" = true ->
  creatable "terraform_import.sh" = true ->
  creatable "main.tf" = true ->
  creatable "variables.tf" = true ->
  NoDup (dkeys (grouped_assignments st)) ->
  (forall g, g ∈ dkeys (grouped_assignments st) ->
     creatable (group_file_name g) = true) ->
  exists w',
    emit_files json_dump creatable true gm st w = Finished w'
    /\ forall g d, dget g (grouped_assignments st) = Some d ->
         fs w' !! group_file_name g = Some (group_file_text json_dump d).
Proof.
  intros Hc1 Hc2 Hc3 Hc4 Hnd Hcg. unfold emit_files.
  unfold write_file at 1. rewrite Hc1. cbn [and_then].
  match goal with
  | |- context [write_group_files _ _ _ ?w1] =>
      destruct (write_group_files_result _ Hnd Hcg w1) as (w2 & Hrun & Hfiles & _)
  end.
  rewrite Hrun. cbn [and_then].
  unfold write_file at 1. rewrite Hc2. cbn [and_then].
  match goal with
  | |- context [write_scaffold _ _ "main.tf" _ _ ?w3] => set (w3' := w3)
  end.
  assert (Hkeep : forall r : run,
            (exists w', r = Finished w' /\
               forall n, (n <> "main.tf" /\ n <> "variables.tf") ->
                         fs w' !! n = fs w3' !! n) ->
            exists w', r = Finished w' /\
              forall g d, dget g (grouped_assignments st) = Some d ->
                fs w' !! group_file_name g = Some (group_file_text json_dump d)).
  { intros r (w' & -> & Hsame). exists w'. split; [done|].
    intros g d Hg. rewrite Hsame.
    - subst w3'. simpl. rewrite lookup_insert_ne.
      + by apply Hfiles.
      + intros Heq. symmetry in Heq. by apply group_file_name_not_script in Heq.
    - split; [apply group_file_name_not_main | apply group_file_name_not_variables]. }
  apply Hkeep. clearbody w3'. clear Hkeep.
  assert (Hscaffold : forall name text message (w0 : world),
            creatable name = true ->
            exists w', write_scaffold creatable gm name text message w0 = Finished w'
                       /\ forall n, n <> name -> fs w' !! n = fs w0 !! n).
  { intros name text message w0 Hcr. unfold write_scaffold, write_file.
    destruct (gm && negb (path_exists name w0)); [|by exists w0].
    rewrite Hcr. eexists. split; [reflexivity|].
    intros n Hn. simpl. by apply lookup_insert_ne. }
  destruct (Hscaffold "main.tf" main_tf_template "✅ main.tf scaffold created"
              w3' Hc3) as (w4 & Hrun4 & Hsame4).
  rewrite Hrun4. cbn [and_then].
  destruct (Hscaffold "variables.tf" variables_tf_template
              "✅ variables.tf scaffold created" w4 Hc4) as (w5 & Hrun5 & Hsame5).
  exists w5. split; [exact Hrun5|].
  intros n [Hn1 Hn2]. rewrite Hsame5, Hsame4; done.
Qed.

Lemma write_group_files_frame (name : string) (v : option string)
    (groups : dict (dict json)) :
  (forall g, g ∈ dkeys groups -> group_file_name g <> name) ->
  forall w, fs w !! name = v ->
    file_is name v (write_group_files json_dump creatable groups w).
Proof.
  induction groups as [|[g d] groups IH]; intros Hne w Hw; simpl.
  - exact Hw.
  - apply file_is_and_then.
    + apply write_file_other; [|exact Hw]. apply Hne, list_elem_of_here.
    + apply IH. intros g' Hg'. by apply Hne, list_elem_of_further.
Qed.

(** The emitters touch no file but the four fixed outputs and the files of
    the groups of the index. *)
Lemma emit_files_frame (g gm : bool) (st : state) (w : world) (n : string) :
  n ∉ fixed_outputs ->
  (forall grp, grp ∈ dkeys (grouped_assignments st) -> group_file_name grp <> n) ->
  file_is n (fs w !! n) (emit_files json_dump creatable g gm st w).
Proof.
  intros Hfixed Hgroups.
  assert (Hne : forall m, m ∈ fixed_outputs -> m <> n).
  { intros m Hm ->. by apply Hfixed. }
  unfold emit_files. apply file_is_and_then.
  { apply write_file_other; [|done]. apply Hne. set_solver. }
  intros w1 Hw1. apply file_is_and_then.
  { destruct g; [|exact Hw1]. by apply write_group_files_frame. }
  intros w2 Hw2. apply file_is_and_then.
  { apply write_file_other; [|done]. apply Hne. set_solver. }
  intros w3 Hw3. apply file_is_and_then.
  { apply write_scaffold_other; [|done]. apply Hne. set_solver. }
  intros w4 Hw4. apply write_scaffold_other; [|done]. apply Hne. set_solver.
Qed.

Lemma group_file_name_plain (g : string) :
  no_path_separator g = true -> no_path_separator (group_file_name g) = true.
Proof.
  unfold no_path_separator, group_file_name.
  induction g as [|c g IH]; [reflexivity|].
  rewrite string_app_cons. cbn [contains String.prefix].
  destruct (ascii_dec "/" c) as [<-|Hc]; [|exact IH].
  by destruct g.
Qed.

(** C5 (as the code has it): with the grouped flag, once the accumulation
    has run, the resolved group names hold no [/] and the target names can
    be created, the emitters write one group file per distinct resolved
    group name: G files with G distinct names in the output directory for G
    names, and apart from them and the four fixed outputs no file of the
    directory is created or changed.  The file of a group holds the
    dictionary built from the assignments that resolved to that group and
    from no others, and under each assignment key the entry of the last such
    assignment processed, an earlier assignment of the group with the same
    key being replaced. *)
Theorem grouped_files_per_group (fuel : nat) (catalog_id : string) (gm : bool)
    (st : state) (w : world) :
  collect unicode_lower http_get py_repr fuel catalog_id true = Ok st ->
  creatable "terraform.tfvars" = true ->
  creatable "terraform_import.sh" = true ->
  creatable "main.tf" = true ->
  creatable "variables.tf" = true ->
  (forall g, g ∈ dkeys (grouped_assignments st) ->
     no_path_separator g = true) ->
  (forall g, g ∈ dkeys (grouped_assignments st) ->
     creatable (group_file_name g) = true) ->
  exists tr w',
    catalog_assignments unicode_lower http_get py_repr fuel catalog_id = Ok tr
    /\ emit_files json_dump creatable true gm st w = Finished w'
    /\ NoDup (dkeys (grouped_assignments st))
    /\ (forall g, g ∈ dkeys (grouped_assignments st) <-> g ∈ map snd tr)
    /\ length (grouped_assignments st) = length (remove_dups (map snd tr))
    /\ NoDup (map group_file_name (remove_dups (map snd tr)))
    /\ (forall g, g ∈ map snd tr ->
          no_path_separator (group_file_name g) = true)
    /\ (forall n, n ∉ map group_file_name (remove_dups (map snd tr)) ->
          n ∉ fixed_outputs ->
          fs w' !! n = fs w !! n)
    /\ (forall g, g ∈ map snd tr ->
          dget g (grouped_assignments st) = Some (group_dict g tr)
          /\ fs w' !! group_file_name g
             = Some (group_file_text json_dump (group_dict g tr)))
    /\ (forall g key entry,
          dget key (group_dict g tr) = Some entry -> (key, entry, g) ∈ tr)
    /\ (forall g key entry tr1 tr2,
          tr = tr1 ++ (key, entry, g) :: tr2 ->
          (forall e, (key, e, g) ∉ tr2) ->
          dget key (group_dict g tr) = Some entry).
Proof.
  intros Hcollect Hc1 Hc2 Hc3 Hc4 Hplain Hcg.
  destruct (collect_trace _ _ _ Hcollect) as (tr & Htr & Hgr).
  assert (Hnd : NoDup (dkeys (grouped_assignments st))).
  { rewrite Hgr. apply store_grouped_NoDup, NoDup_nil_2. }
  assert (Hkeys : forall g, g ∈ dkeys (grouped_assignments st) <-> g ∈ map snd tr).
  { intros g. rewrite Hgr, store_grouped_keys. split; [|auto].
    intros [H|H]; [|done]. by apply elem_of_nil in H. }
  destruct (emit_files_groups gm st w Hc1 Hc2 Hc3 Hc4 Hnd Hcg)
    as (w' & Hemit & Hfiles).
  exists tr, w'. split; [exact Htr|]. split; [exact Hemit|].
  split; [exact Hnd|]. split; [exact Hkeys|].
  split; [by apply distinct_groups_count|].
  split.
  { apply NoDup_fmap_2; [|apply NoDup_remove_dups].
    intros g g'. apply group_file_name_inj. }
  split.
  { intros g Hg. by apply group_file_name_plain, Hplain, Hkeys. }
  split.
  { intros n Hn Hfixed.
    pose proof (emit_files_frame true gm st w n Hfixed) as Hframe.
    rewrite Hemit in Hframe. apply Hframe.
    intros grp Hgrp <-. apply Hn.
    apply list_elem_of_fmap_2, elem_of_remove_dups. by apply Hkeys. }
  split.
  { intros g Hg.
    assert (Hd : dget g (grouped_assignments st) = Some (group_dict g tr)).
    { rewrite Hgr. by apply group_dict_lookup. }
    split; [exact Hd | by apply Hfiles]. }
  split; [intros g key entry; apply group_dict_only_own|].
  intros g key entry tr1 tr2 -> Hno. by apply group_dict_last.
Qed.

End GroupedOutput.

(** * The properties on the sample tenant *)

Import Fixtures.

Lemma get_all_concatenates_pages_witness :
  get_all two_pages 2 "https://graph.example/items"
  = Ok [JStr "a"; JStr "b"; JStr "c"].
Proof.
  apply (get_all_concatenates_pages two_pages "https://graph.example/items"
           [first_page; second_page] 2).
  - discriminate.
  - eapply sequence_next; [reflexivity | reflexivity | discriminate |].
    apply sequence_last; reflexivity.
  - repeat constructor; eexists _, _; split; reflexivity.
  - simpl. lia.
Defined.

Lemma get_all_swallows_error_response_witness :
  get_all page_then_error 2 "https://graph.example/items"
    = Ok [JStr "a"; JStr "b"]
  /\ get_all page_then_error 1 "https://graph.example/items?page=2" = Ok [].
Proof.
  split.
  - apply (get_all_swallows_error_response page_then_error
             "https://graph.example/items" [first_page] error_body 2).
    + discriminate.
    + eapply sequence_next; [reflexivity | reflexivity | discriminate |].
      apply sequence_last; reflexivity.
    + repeat constructor; eexists _, _; split; reflexivity.
    + eexists. repeat split; reflexivity.
    + simpl. lia.
  - apply (get_all_swallows_error_response page_then_error
             "https://graph.example/items?page=2" [] error_body 1).
    + discriminate.
    + apply sequence_last; reflexivity.
    + constructor.
    + eexists. repeat split; reflexivity.
    + simpl. lia.
    + reflexivity.
Defined.

Lemma same_key_package_overwrites_witness :
  exists st,
    collect no_unicode tenant repr 3 "twins" true = Ok st
    /\ dget "finance_access" (access_packages st)
       = Some (package_entry (JStr "twins") (JStr EmptyString))
    /\ (forall v, ("finance_access", v) ∈ access_packages st ->
          v = package_entry (JStr "twins") (JStr EmptyString)).
Proof.
  apply (same_key_package_overwrites no_unicode tenant repr 3 "twins" true [] [] []
           finance finance_twin "finance_access" (JStr "twins") (JStr EmptyString)).
  - vm_compute. reflexivity.
  - reflexivity.
  - reflexivity.
  - reflexivity.
  - reflexivity.
  - intros p Hp. by apply elem_of_nil in Hp.
  - intros p Hp. apply elem_of_cons in Hp as [-> | Hp].
    + exists (collected "single" true). vm_compute. reflexivity.
    + apply list_elem_of_singleton in Hp as ->.
      eexists. vm_compute. reflexivity.
Defined.

Lemma grouped_files_per_group_witness :
  exists w',
    emit_files dump any_name true true single_grouped empty_dir = Finished w'
    /\ length (grouped_assignments single_grouped)
       = length (remove_dups (map snd single_trace))
    /\ fs w' !! "team_alpha.tfvars"
       = Some (group_file_text dump (group_dict "team_alpha" single_trace))
    /\ fs w' !! "stray.tfvars" = None.
Proof.
  destruct (grouped_files_per_group no_unicode tenant repr dump any_name 3 "single" true
              single_grouped empty_dir)
    as (tr & w' & Htr & Hemit & _ & _ & Hlen & _ & _ & Hframe & Hfiles & _).
  - vm_compute. reflexivity.
  - reflexivity.
  - reflexivity.
  - reflexivity.
  - reflexivity.
  - intros g Hg. apply list_elem_of_singleton in Hg as ->. reflexivity.
  - reflexivity.
  - assert (Heq : tr = single_trace).
    { vm_compute in Htr. by injection Htr. }
    subst tr. exists w'. split; [exact Hemit|]. split; [exact Hlen|].
    split; [apply (Hfiles "team_alpha"); apply list_elem_of_here|].
    rewrite (Hframe "stray.tfvars"); [reflexivity | |].
    + vm_compute. intros H. apply list_elem_of_singleton in H. discriminate H.
    + unfold fixed_outputs. intros H.
      repeat (apply elem_of_cons in H as [H|H]; [discriminate H|]).
      by apply elem_of_nil in H.
Defined.

Lemma grouped_files_not_exact :
  exists st tr,
    collect no_unicode tenant repr 3 "single" true = Ok st
    /\ catalog_assignments no_unicode tenant repr 3 "single" = Ok tr
    /\ length tr = 2%nat
    /\ length (grouped_assignments st) = 1%nat
    /\ ~ group_files_exact tr (grouped_assignments st).
Proof.
  exists single_grouped, single_trace.
  split; [vm_compute; reflexivity|]. split; [vm_compute; reflexivity|].
  split; [reflexivity|]. split; [reflexivity|].
  intros Hexact.
  destruct (Hexact "finance_access_user_abcdef"
              (assignment_entry "finance_access" (JStr "abcdef-0001"))
              "team_alpha" (list_elem_of_here _ _)
              "team_alpha"
              [("finance_access_user_abcdef",
                assignment_entry "finance_access" (JStr "abcdef-0002"))]
              eq_refl) as [_ Hback].
  specialize (Hback eq_refl). vm_compute in Hback. discriminate Hback.
Qed.

Lemma scaffold_files_not_overwritten_witness :
  file_is "main.tf" (Some "# edited by hand")
    (main no_unicode tenant repr dump any_name failing_tools 3 "single" true true true
          edited_dir)
  /\ is_Some (fs after_first_run !! "main.tf")
  /\ file_is "main.tf" (fs after_first_run !! "main.tf")
       (main no_unicode tenant repr dump any_name failing_tools 3 "twins" true true true
             after_first_run).
Proof.
  destruct (scaffold_files_not_overwritten dump any_name failing_tools "main.tf")
    as [Hkeep Htwice].
  - left. reflexivity.
  - intros argv dir. unfold failing_tools.
    destruct argv as [|a argv]; [reflexivity|].
    destruct (String.eqb a "terraform") eqn:E.
    + apply String.eqb_eq in E. subst a. reflexivity.
    + destruct a as [|c a]; [reflexivity|].
      repeat (match goal with
              | |- context [match ?x with _ => _ end] => destruct x
              end; try reflexivity).
  - split.
    + apply Hkeep. reflexivity.
    + destruct (Htwice no_unicode tenant repr 3%nat "single" true false empty_dir after_first_run)
        as [Hsome Hsecond].
      * vm_compute. reflexivity.
      * split; [exact Hsome | apply Hsecond].
Defined.

Lemma finance_access_example_witness :
  exists st,
    collect no_unicode tenant repr 3 "single" true = Ok st
    /\ dkeys (access_packages st) = ["finance_access"]
    /\ dkeys (assignment_policies st) = ["finance_access_default_policy"]
    /\ head (import_cmds st)
       = Some "terraform import azuread_access_package.finance_access pkg-1".
Proof.
  destruct (finance_access_example no_unicode tenant repr 3 "single" true finance
              default_policy (JStr "single") (JStr "pkg-1")
              [first_grant; second_grant] policy_stored grants_stored)
    as (st & pol_name & pol_id & duration & approval & primary & secondary & more
        & Hrun & Hpname & _ & Hpk & Hpol & Hcmds).
  - vm_compute. reflexivity.
  - reflexivity.
  - reflexivity.
  - reflexivity.
  - vm_compute. reflexivity.
  - vm_compute. reflexivity.
  - vm_compute. reflexivity.
  - vm_compute. reflexivity.
  - exists st. split; [exact Hrun|]. split; [exact Hpk|].
    assert (pol_name = "Default Policy") as -> by (vm_compute in Hpname; congruence).
    rewrite Hpol, Hcmds. split; reflexivity.
Defined.

Lemma import_runner_exit_status_witness :
  import_runner failing_tools backend_dir =
    Crashed (CalledProcessError 1)
      {| fs := fs backend_dir;
         stdout := ["Detected Terraform backend config. Running terraform init..."] |}
  /\ import_runner failing_tools edited_dir =
       Finished {| fs := fs edited_dir;
                   stdout := ["✅ terraform import executed"] |}.
Proof.
  split.
  - destruct (import_runner_exit_status failing_tools backend_dir) as [Hinit _].
    apply (Hinit 1 (fs backend_dir)).
    + vm_compute. reflexivity.
    + reflexivity.
    + lia.
  - destruct (import_runner_exit_status failing_tools edited_dir) as [_ Hscript].
    apply (Hscript edited_dir 3 (fs edited_dir)).
    + vm_compute. reflexivity.
    + reflexivity.
Defined.

Lemma collect_referential_integrity_witness :
  referential_integrity twins_grouped.
Proof.
  apply (collect_referential_integrity no_unicode tenant repr 3 "twins" true).
  vm_compute. reflexivity.
Defined.

Lemma same_prefix_assignment_overwrites_witness :
  dget "finance_access_user_abcdef" (assignments grants_stored)
  = Some (assignment_entry "finance_access" (JStr "abcdef-0002")).
Proof.
  destruct (same_prefix_assignment_overwrites no_unicode tenant repr true "finance_access"
              [] [] [] first_grant second_grant "abcdef-0001" "abcdef-0002"
              empty_state grants_stored)
    as (_ & _ & Hlast & _).
  - reflexivity.
  - reflexivity.
  - reflexivity.
  - intros a t Ha. by apply elem_of_nil in Ha.
  - apply NoDup_nil_2.
  - vm_compute. reflexivity.
  - exact Hlast.
Defined.

(** * Further properties of the code *)

(** ** The paginated fetcher: ends, failures, loops *)

Section FetcherMore.
Variable http_get : string -> result json.

(** The loop walks a chain of linked pages in as many turns and goes on
    from the last link with their items. *)
Lemma get_all_loop_linked (url last : string) (pages : list json) :
  linked_pages http_get url pages last ->
  url <> EmptyString ->
  last <> EmptyString
  /\ forall fuel items,
       get_all_loop http_get (length pages + fuel) (JStr url) items
       = get_all_loop http_get fuel (JStr last) (items ++ all_items pages).
Proof.
  induction 1 as [url | url res next rest last Hget Hpage Hlink Hnext Hrest IH];
    intros Hne.
  - split; [done|]. intros fuel items. unfold all_items. simpl.
    by rewrite app_nil_r.
  - destruct (IH Hnext) as [Hlast Hwalk]. split; [done|].
    intros fuel items. destruct Hpage as (o & l & -> & Hv).
    simpl in Hlink. cbn [length Nat.add].
    rewrite (get_all_loop_step http_get _ _ _ _ Hne Hget).
    rewrite Hv, Hlink. cbn [default from_option id py_iter bind].
    rewrite Hwalk. unfold all_items. simpl. rewrite Hv. simpl.
    by rewrite app_assoc.
Qed.

(** X1: a continuation link that is present but false in a condition
    ([null], the empty string, [0], [false], an empty list or object) ends
    the pagination like an absent one: [get_all] returns what it has. *)
Theorem get_all_falsy_link_ends (url last : string) (pages : list json)
    (o : dict json) (items : list json) (link : json) (fuel : nat) :
  url <> EmptyString ->
  linked_pages http_get url pages last ->
  http_get last = Ok (JObj o) ->
  dget "value" o = Some (JArr items) ->
  dget "@odata.nextLink" o = Some link ->
  truthy link = false ->
  (length pages < fuel)%nat ->
  get_all http_get fuel url = Ok (all_items pages ++ items).
Proof.
  intros Hne Hchain Hget Hv Hlink Hfalse Hfuel.
  destruct (get_all_loop_linked _ _ _ Hchain Hne) as [Hlast Hwalk].
  replace fuel with (length pages + S (fuel - S (length pages)))%nat by lia.
  unfold get_all. rewrite Hwalk.
  rewrite (get_all_loop_step http_get _ _ _ _ Hlast Hget).
  rewrite Hv, Hlink. cbn [default from_option id py_iter bind app].
  destruct (fuel - S (length pages))%nat; simpl; by rewrite Hfalse.
Qed.

(** X2: when a request raises, [get_all] raises the same exception; the
    items of the pages fetched before are not returned. *)
Theorem get_all_request_failure (url last : string) (pages : list json)
    (e : exn) (fuel : nat) :
  url <> EmptyString ->
  linked_pages http_get url pages last ->
  http_get last = Raise e ->
  (length pages < fuel)%nat ->
  get_all http_get fuel url = Raise e.
Proof.
  intros Hne Hchain Hget Hfuel.
  destruct (get_all_loop_linked _ _ _ Hchain Hne) as [Hlast Hwalk].
  replace fuel with (length pages + S (fuel - S (length pages)))%nat by lia.
  unfold get_all. rewrite Hwalk. cbn [get_all_loop].
  rewrite (truthy_url _ Hlast). cbn [request]. by rewrite Hget.
Qed.

(** X3: a decoded body that is not an object makes [get_all] raise
    [AttributeError], and an object whose [value] is [null], a number or a
    boolean makes it raise [TypeError]; no default is put in their place. *)
Theorem get_all_malformed_body (url last : string) (pages : list json)
    (res : json) (fuel : nat) :
  url <> EmptyString ->
  linked_pages http_get url pages last ->
  http_get last = Ok res ->
  (length pages < fuel)%nat ->
  ((forall o, res <> JObj o) -> get_all http_get fuel url = Raise AttributeError)
  /\ (forall o v, res = JObj o -> dget "value" o = Some v ->
        py_iter v = Raise TypeError ->
        get_all http_get fuel url = Raise TypeError).
Proof.
  intros Hne Hchain Hget Hfuel.
  destruct (get_all_loop_linked _ _ _ Hchain Hne) as [Hlast Hwalk].
  replace fuel with (length pages + S (fuel - S (length pages)))%nat by lia.
  unfold get_all. rewrite Hwalk. split.
  - intros Hshape. cbn [get_all_loop]. rewrite (truthy_url _ Hlast).
    cbn [request]. rewrite Hget. cbn [bind].
    destruct res; try reflexivity. by destruct (Hshape o).
  - intros o v -> Hv Hiter.
    rewrite (get_all_loop_step http_get _ _ _ _ Hlast Hget).
    rewrite Hv. cbn [default from_option id]. by rewrite Hiter.
Qed.

(** X4: a page whose continuation link is its own URL keeps the loop going
    for ever: no amount of fuel lets [get_all] return. *)
Theorem get_all_self_link_diverges (url : string) (o : dict json)
    (items : list json) (fuel : nat) :
  url <> EmptyString ->
  http_get url = Ok (JObj o) ->
  dget "value" o = Some (JArr items) ->
  dget "@odata.nextLink" o = Some (JStr url) ->
  get_all http_get fuel url = OutOfFuel.
Proof.
  intros Hne Hget Hv Hlink. unfold get_all. generalize (@nil json).
  induction fuel as [|fuel IH]; intros acc.
  - simpl. destruct (String.eqb url EmptyString) eqn:E; [|done].
    apply String.eqb_eq in E. done.
  - rewrite (get_all_loop_step http_get _ _ _ _ Hne Hget).
    rewrite Hv, Hlink. cbn [default from_option id py_iter bind]. apply IH.
Qed.

End FetcherMore.

Lemma get_all_falsy_link_ends_witness :
  get_all MoreFixtures.null_link 2 "https://graph.example/items"
  = Ok [JStr "a"; JStr "b"; JStr "c"].
Proof.
  apply (get_all_falsy_link_ends MoreFixtures.null_link
           "https://graph.example/items" "https://graph.example/items?page=2"
           [Fixtures.first_page]
           [("value", JArr [JStr "c"]); ("@odata.nextLink", JNull)]
           [JStr "c"] JNull 2).
  - discriminate.
  - eapply linked_page; [reflexivity | | reflexivity | discriminate | apply linked_none].
    eexists _, _. split; reflexivity.
  - reflexivity.
  - reflexivity.
  - reflexivity.
  - reflexivity.
  - simpl. lia.
Defined.

Lemma get_all_request_failure_witness :
  get_all MoreFixtures.second_request_fails 5 "https://graph.example/items"
  = Raise RequestException.
Proof.
  apply (get_all_request_failure MoreFixtures.second_request_fails
           "https://graph.example/items" "https://graph.example/items?page=2"
           [Fixtures.first_page] RequestException 5).
  - discriminate.
  - eapply linked_page; [reflexivity | | reflexivity | discriminate | apply linked_none].
    eexists _, _. split; reflexivity.
  - reflexivity.
  - simpl. lia.
Defined.

Lemma get_all_malformed_body_witness :
  get_all MoreFixtures.array_body 5 "https://graph.example/items"
    = Raise AttributeError
  /\ get_all MoreFixtures.null_value 5 "https://graph.example/items"
     = Raise TypeError.
Proof.
  split.
  - destruct (get_all_malformed_body MoreFixtures.array_body
                "https://graph.example/items" "https://graph.example/items?page=2"
                [Fixtures.first_page] (JArr []) 5) as [Hshape _].
    + discriminate.
    + eapply linked_page;
        [reflexivity | | reflexivity | discriminate | apply linked_none].
      eexists _, _. split; reflexivity.
    + reflexivity.
    + simpl. lia.
    + apply Hshape. discriminate.
  - destruct (get_all_malformed_body MoreFixtures.null_value
                "https://graph.example/items" "https://graph.example/items?page=2"
                [Fixtures.first_page] (JObj [("value", JNull)]) 5) as [_ Hvalue].
    + discriminate.
    + eapply linked_page;
        [reflexivity | | reflexivity | discriminate | apply linked_none].
      eexists _, _. split; reflexivity.
    + reflexivity.
    + simpl. lia.
    + apply (Hvalue [("value", JNull)] JNull); reflexivity.
Defined.

Lemma get_all_self_link_diverges_witness :
  get_all MoreFixtures.self_link 1000 "https://graph.example/loop" = OutOfFuel.
Proof.
  apply (get_all_self_link_diverges MoreFixtures.self_link
           "https://graph.example/loop"
           [("value", JArr [JStr "a"]);
            ("@odata.nextLink", JStr "https://graph.example/loop")]
           [JStr "a"] 1000).
  - discriminate.
  - reflexivity.
  - reflexivity.
  - reflexivity.
Defined.

(** ** Sanitised keys *)

Lemma safe_char_key (c : ascii) : key_char (safe_char c) = true.
Proof. destruct c as [[] [] [] [] [] [] [] []]; vm_compute; reflexivity. Qed.

Lemma safe_char_fixed (c : ascii) : key_char c = true -> safe_char c = c.
Proof.
  destruct c as [[] [] [] [] [] [] [] []]; vm_compute; intros H;
    first [reflexivity | discriminate H].
Qed.

Lemma string_map_app (f : ascii -> ascii) (a b : string) :
  string_map f (a +:+ b) = string_map f a +:+ string_map f b.
Proof.
  induction a as [|c a IH]; [reflexivity|].
  rewrite string_app_cons. simpl. rewrite IH. reflexivity.
Qed.

Lemma string_map_map (f g : ascii -> ascii) (s : string) :
  string_map f (string_map g s) = string_map (fun c => f (g c)) s.
Proof. induction s as [|c s IH]; simpl; [done | by rewrite IH]. Qed.

Lemma string_map_ext (f g : ascii -> ascii) (s : string) :
  (forall c, f c = g c) -> string_map f s = string_map g s.
Proof. intros H. induction s as [|c s IH]; simpl; [done | by rewrite H, IH]. Qed.

Lemma is_ascii_app (a b : string) :
  is_ascii (a +:+ b) = is_ascii a && is_ascii b.
Proof.
  unfold is_ascii. induction a as [|c a IH]; [reflexivity|].
  rewrite string_app_cons. simpl. by rewrite IH, andb_assoc.
Qed.

(** X5: the key of an ASCII display name has as many characters as the
    name and holds no space, no hyphen and no upper-case ASCII letter. *)
Theorem safe_length_and_characters (unicode_lower : string -> string)
    (name : string) :
  is_ascii name = true ->
  String.length (safe unicode_lower name) = String.length name
  /\ string_forall key_char (safe unicode_lower name) = true.
Proof.
  intros Hname. rewrite (safe_string_map unicode_lower name Hname). clear Hname.
  induction name as [|c name [IHl IHc]]; simpl; [done|].
  rewrite IHl, IHc, safe_char_key. done.
Qed.

(** X6: an ASCII display name that has no space, no hyphen and no
    upper-case letter is its own key; every other ASCII character (dots,
    slashes, quotes, digits) is kept as it is. *)
Theorem safe_fixed_point (unicode_lower : string -> string) (name : string) :
  is_ascii name = true ->
  string_forall key_char name = true ->
  safe unicode_lower name = name.
Proof.
  intros Hname. rewrite (safe_string_map unicode_lower name Hname). clear Hname.
  induction name as [|c name IH]; simpl; [done|].
  intros H. apply andb_prop in H as [Hc Hrest].
  by rewrite (safe_char_fixed c Hc), IH.
Qed.

(** X7: on ASCII names sanitising distributes over concatenation, so the
    policy key [safe(package) + "_" + safe(policy)] is the sanitised text
    [package + "_" + policy]: two pairs of ASCII package and policy names
    that give the same joined text give the same policy key. *)
Theorem safe_concatenation (unicode_lower : string -> string) (a b : string) :
  is_ascii a = true ->
  is_ascii b = true ->
  safe unicode_lower (a +:+ b) = safe unicode_lower a +:+ safe unicode_lower b
  /\ forall p q, is_ascii p = true -> is_ascii q = true ->
       a +:+ "_" +:+ b = p +:+ "_" +:+ q ->
       safe unicode_lower a +:+ "_" +:+ safe unicode_lower b
       = safe unicode_lower p +:+ "_" +:+ safe unicode_lower q.
Proof.
  assert (Happ : forall x y, is_ascii x = true -> is_ascii y = true ->
            safe unicode_lower (x +:+ y)
            = safe unicode_lower x +:+ safe unicode_lower y).
  { intros x y Hx Hy. rewrite !safe_string_map; try done.
    - apply string_map_app.
    - by rewrite is_ascii_app, Hx, Hy. }
  intros Ha Hb. split; [by apply Happ|].
  intros p q Hp Hq Heq.
  change ("_" +:+ safe unicode_lower b)
    with (safe unicode_lower "_" +:+ safe unicode_lower b).
  change ("_" +:+ safe unicode_lower q)
    with (safe unicode_lower "_" +:+ safe unicode_lower q).
  rewrite <- !Happ;
    first [ by rewrite Heq | done | by rewrite is_ascii_app, ?Hq, ?Hb ].
Qed.

(** X8: display names that differ only in using a space, a hyphen or an
    underscore as separator get the same key, whatever the text; so do
    ASCII names that differ only in letter case. *)
Theorem safe_ignores_case_and_separators (unicode_lower : string -> string)
    (name : string) :
  safe unicode_lower (replace " " "-" name) = safe unicode_lower name
  /\ safe unicode_lower (replace " " "_" name) = safe unicode_lower name
  /\ safe unicode_lower (replace "-" "_" name) = safe unicode_lower name
  /\ safe unicode_lower (replace "-" " " name) = safe unicode_lower name
  /\ (is_ascii name = true ->
      safe unicode_lower (lower unicode_lower name) = safe unicode_lower name).
Proof.
  repeat apply conj;
    try (unfold safe; f_equal; unfold replace; rewrite !string_map_map;
         apply string_map_ext; intros c;
         destruct c as [[] [] [] [] [] [] [] []]; vm_compute; reflexivity).
  intros Hname.
  assert (Hl : lower unicode_lower name = string_map lower_char name)
    by (unfold lower; by rewrite Hname).
  rewrite Hl.
  rewrite !safe_string_map; [|done|by apply lower_ascii_is_ascii].
  rewrite string_map_map. apply string_map_ext. intros c.
  destruct c as [[] [] [] [] [] [] [] []]; vm_compute; reflexivity.
Qed.

Lemma safe_length_and_characters_witness :
  String.length (safe Fixtures.no_unicode "Finance Access") = 14%nat
  /\ string_forall key_char (safe Fixtures.no_unicode "Finance Access") = true.
Proof.
  apply (safe_length_and_characters Fixtures.no_unicode "Finance Access").
  reflexivity.
Defined.

Lemma safe_fixed_point_witness :
  safe Fixtures.no_unicode "finance_access.v2" = "finance_access.v2".
Proof.
  apply (safe_fixed_point Fixtures.no_unicode "finance_access.v2"); reflexivity.
Defined.

Lemma safe_concatenation_witness :
  safe Fixtures.no_unicode "A" +:+ "_" +:+ safe Fixtures.no_unicode "B_C"
  = safe Fixtures.no_unicode "A_B" +:+ "_" +:+ safe Fixtures.no_unicode "C".
Proof.
  destruct (safe_concatenation Fixtures.no_unicode "A" "B_C") as [_ Hkeys];
    [reflexivity | reflexivity |].
  apply (Hkeys "A_B" "C"); reflexivity.
Defined.

Lemma safe_ignores_case_and_separators_witness :
  safe Fixtures.no_unicode (lower Fixtures.no_unicode "Finance Access")
  = safe Fixtures.no_unicode "Finance Access".
Proof.
  destruct (safe_ignores_case_and_separators Fixtures.no_unicode "Finance Access")
    as (_ & _ & _ & _ & Hcase).
  apply Hcase. reflexivity.
Defined.

(** ** Token, directory lookups, policies *)

Section EntryFacts.
Variable unicode_lower : string -> string.
Variable acquire_token_for_client :
  string -> string -> string -> list string -> result json.
Variable http_get_with : json -> string -> result json.
Variable http_get : string -> result json.
Variable py_repr : json -> string.
Variable json_dump : json -> string.
Variable creatable : string -> bool.
Variable subprocess_run : list string -> gmap string string -> Z * gmap string string.

(** X9: when the authority's answer has no [access_token] (MSAL returns an
    error dictionary), [get_token] raises [KeyError] for that key and the run
    ends there: nothing has been printed, fetched or written. *)
Theorem rejected_credentials_end_run (client_id client_secret tenant_id : string)
    (o : dict json) (fuel : nat) (catalog_id : string) (g gm ri : bool)
    (w : world) :
  acquire_token_for_client client_id client_secret
    ("https://login.microsoftonline.com/" +:+ tenant_id)
    ["https://graph.microsoft.com/.default"] = Ok (JObj o) ->
  dget "access_token" o = None ->
  get_token acquire_token_for_client client_id client_secret tenant_id
    = Raise (KeyError "access_token")
  /\ cli_main unicode_lower acquire_token_for_client http_get_with py_repr json_dump creatable
       subprocess_run client_id client_secret tenant_id fuel catalog_id g gm ri w
     = Crashed (KeyError "access_token") w.
Proof.
  intros Hacq Hkey.
  assert (Htok : get_token acquire_token_for_client client_id client_secret
                   tenant_id = Raise (KeyError "access_token")).
  { unfold get_token. rewrite Hacq. cbn [bind subscript]. by rewrite Hkey. }
  split; [exact Htok|]. unfold cli_main. by rewrite Htok.
Qed.

(** X10: the group of a target is read from the lookup's answer: without a
    [displayName] (an error body, say) it is [unknowngroup], with a string
    it is the sanitised name, and with any other value, [null] included, the
    lookup's caller raises [AttributeError]. *)
Theorem resolve_group_cases (target_id : json) (o : dict json) :
  http_get (GRAPH_API +:+ "/directoryObjects/" +:+ fmt py_repr target_id)
    = Ok (JObj o) ->
  resolve_group unicode_lower http_get py_repr target_id =
    match dget "displayName" o with
    | None => Ok "unknowngroup"
    | Some (JStr display) => Ok (safe unicode_lower display)
    | Some _ => Raise AttributeError
    end.
Proof.
  intros Hget. unfold resolve_group, get_display_name. rewrite Hget.
  cbn [bind get_default]. destruct (dget "displayName" o) as [[]|]; reflexivity.
Qed.

(** X11: a policy that has neither [durationInDays] nor
    [requestApprovalSettings] is stored with 30 days, no approval and no
    approvers. *)
Theorem add_policy_defaults (name : string) (st : state) (o : dict json)
    (pol_name : string) (pol_id : json) :
  dget "displayName" o = Some (JStr pol_name) ->
  dget "id" o = Some pol_id ->
  dget "durationInDays" o = None ->
  dget "requestApprovalSettings" o = None ->
  exists st',
    add_policy unicode_lower py_repr name st (JObj o) = Ok st'
    /\ dget (name +:+ "_" +:+ safe unicode_lower pol_name) (assignment_policies st')
       = Some (policy_entry name (JNum 30) (JBool false) [] []).
Proof.
  intros Hname Hid Hdur Hset.
  unfold add_policy, approver_ids. cbn [subscript get_default].
  rewrite Hname, Hid, Hdur, Hset. cbn.
  eexists. split; [reflexivity|]. cbn. apply dget_dset_eq.
Qed.

(** X12: the default of [requestApprovalSettings] only covers an absent key:
    when the key is there with a value that is not an object ([null] for
    one), storing the policy raises [AttributeError]. *)
Theorem add_policy_settings_not_object (name : string) (st : state)
    (o : dict json) (pol_name : string) (settings : json) :
  dget "displayName" o = Some (JStr pol_name) ->
  dget "requestApprovalSettings" o = Some settings ->
  (forall s, settings <> JObj s) ->
  add_policy unicode_lower py_repr name st (JObj o) = Raise AttributeError.
Proof.
  intros Hname Hset Hshape.
  unfold add_policy. cbn [subscript get_default].
  rewrite Hname, Hset. cbn [bind safe_value].
  destruct settings; try reflexivity. by destruct (Hshape o0).
Qed.

Lemma approver_ids_of_list (l : list json) :
  Forall (fun a => exists ao, a = JObj ao) l ->
  mapM (get_default "id" JNull) l = Ok (map approver_id l).
Proof.
  induction 1 as [|a l [ao ->] _ IH]; simpl; [done|].
  rewrite IH. simpl. by destruct (dget "id" ao).
Qed.

(** X13: the approver lists are flattened over the approval stages, in
    stage order and then approver order; an approver without [id]
    contributes [None] instead of being left out. *)
Theorem approver_ids_flatten (field : string) (pol : json) (settings : dict json)
    (stages : list json) :
  get_default "requestApprovalSettings" (JObj []) pol = Ok (JObj settings) ->
  dget "approvalStages" settings = Some (JArr stages) ->
  Forall (stage_ok field) stages ->
  approver_ids field pol =
    Ok (concat (map (fun stage => map approver_id (stage_approvers field stage))
                    stages)).
Proof.
  intros Hset Hstages Hok. unfold approver_ids. rewrite Hset.
  cbn [bind get_default]. rewrite Hstages. cbn [bind py_iter].
  assert (Hmap :
    mapM (fun stage =>
            approvers <- get_default field (JArr []) stage ;;
            approver_list <- py_iter approvers ;;
            mapM (get_default "id" JNull) approver_list) stages
    = Ok (map (fun stage => map approver_id (stage_approvers field stage)) stages)).
  { clear Hset Hstages.
    induction Hok as [|stage stages (so & -> & Hfield) _ IH]; simpl; [done|].
    destruct (dget field so) as [[]|]; try done.
    - cbn [bind py_iter]. rewrite (approver_ids_of_list _ Hfield).
      cbn [bind]. by rewrite IH.
    - cbn [bind py_iter mapM]. by rewrite IH. }
  by rewrite Hmap.
Qed.

End EntryFacts.

Lemma rejected_credentials_end_run_witness :
  cli_main Fixtures.no_unicode EntryFixtures.rejected EntryFixtures.graph_with Fixtures.repr
    Fixtures.dump Fixtures.any_name Fixtures.failing_tools
    "app" "secret" "contoso" 3 "single" true true true Fixtures.empty_dir
  = Crashed (KeyError "access_token") Fixtures.empty_dir.
Proof.
  apply (rejected_credentials_end_run Fixtures.no_unicode EntryFixtures.rejected
           EntryFixtures.graph_with Fixtures.repr Fixtures.dump Fixtures.any_name
           Fixtures.failing_tools "app" "secret" "contoso"
           [("error", JStr "invalid_client");
            ("error_description", JStr "AADSTS7000215")]).
  - reflexivity.
  - reflexivity.
Defined.

Lemma resolve_group_cases_witness :
  resolve_group Fixtures.no_unicode EntryFixtures.not_found Fixtures.repr (JStr "abcdef-0001")
    = Ok "unknowngroup"
  /\ resolve_group Fixtures.no_unicode EntryFixtures.unnamed Fixtures.repr (JStr "abcdef-0001")
     = Raise AttributeError.
Proof.
  split.
  - apply (resolve_group_cases Fixtures.no_unicode EntryFixtures.not_found Fixtures.repr
             (JStr "abcdef-0001")
             [("error", JObj [("code", JStr "Request_ResourceNotFound")])]).
    reflexivity.
  - apply (resolve_group_cases Fixtures.no_unicode EntryFixtures.unnamed Fixtures.repr
             (JStr "abcdef-0001") [("displayName", JNull)]).
    reflexivity.
Defined.

Lemma add_policy_defaults_witness :
  exists st',
    add_policy Fixtures.no_unicode Fixtures.repr "finance_access" empty_state
               (JObj EntryFixtures.bare_policy) = Ok st'
    /\ dget "finance_access_self_service" (assignment_policies st')
       = Some (policy_entry "finance_access" (JNum 30) (JBool false) [] []).
Proof.
  apply (add_policy_defaults Fixtures.no_unicode Fixtures.repr "finance_access" empty_state
           EntryFixtures.bare_policy "Self Service" (JStr "pol-9"));
    reflexivity.
Defined.

Lemma add_policy_settings_not_object_witness :
  add_policy Fixtures.no_unicode Fixtures.repr "finance_access" empty_state
             (JObj EntryFixtures.null_settings_policy) = Raise AttributeError.
Proof.
  apply (add_policy_settings_not_object Fixtures.no_unicode Fixtures.repr "finance_access" empty_state
           EntryFixtures.null_settings_policy "Imported" JNull).
  - reflexivity.
  - reflexivity.
  - discriminate.
Defined.

Lemma approver_ids_flatten_witness :
  approver_ids "primaryApprovers" EntryFixtures.staged_policy
  = Ok [JStr "u1"; JNull; JStr "u2"].
Proof.
  apply (approver_ids_flatten "primaryApprovers" EntryFixtures.staged_policy
           [("isApprovalRequired", JBool true);
            ("approvalStages", JArr EntryFixtures.two_stages)]
           EntryFixtures.two_stages).
  - reflexivity.
  - reflexivity.
  - repeat constructor; eexists; (split; [reflexivity|]); simpl;
      repeat constructor; eexists; reflexivity.
Defined.

(** ** Invariants of the accumulation *)

Lemma dset_length_le {V : Type} (k : string) (v : V) (d : dict V) :
  (length (dset k v d) <= S (length d))%nat.
Proof.
  induction d as [|[k0 v0] d IH]; simpl; [lia|].
  destruct (String.eqb k k0); simpl; lia.
Qed.

Lemma foldM_simulation {A S : Type} (f f' : S -> A -> result S) (h : S -> S)
    (l : list A) :
  (forall s x, f' (h s) x = bind (f s x) (fun s' => Ok (h s'))) ->
  forall s, foldM f' l (h s) = bind (foldM f l s) (fun s' => Ok (h s')).
Proof.
  intros Hstep. induction l as [|x l IH]; intros s; simpl; [done|].
  rewrite Hstep. destruct (f s x); simpl; auto.
Qed.

Section AccumulationMore.
Variable unicode_lower : string -> string.
Variable http_get : string -> result json.
Variable py_repr : json -> string.

Lemma policies_extend_cmds (name : string) (pols : list json) (st st' : state) :
  foldM (add_policy unicode_lower py_repr name) pols st = Ok st' ->
  exists more, import_cmds st' = import_cmds st ++ more.
Proof.
  apply (foldM_invariant (fun s => exists more, import_cmds s = import_cmds st ++ more)).
  - intros s x s' _ [more Hs] Hstep.
    apply add_policy_Ok in Hstep
      as (pn & du & ap & pr & se & pi & _ & _ & _ & _ & _ & _ & ->).
    rewrite Hs, <- app_assoc. eauto.
  - exists []. by rewrite app_nil_r.
Qed.

Lemma add_package_cmds (fuel : nat) (g : bool) (st st' : state) (pkg : json) :
  add_package unicode_lower http_get py_repr fuel g st pkg = Ok st' ->
  exists name pkg_id more,
    package_key unicode_lower pkg = Ok name /\ subscript "id" pkg = Ok pkg_id
    /\ import_cmds st' =
         import_cmds st ++ package_import_cmd py_repr name pkg_id :: more.
Proof.
  intros H.
  apply add_package_Ok in H
    as (name & c & d & pid & pols & assigns & st1 & st2 & Hk & _ & _ & Hid & _ & _
        & -> & Hp & Ha).
  apply policies_extend_cmds in Hp as [m1 Hp].
  apply assignments_extend_cmds in Ha as [m2 Ha].
  exists name, pid, (m1 ++ m2). split; [done|]. split; [done|].
  rewrite Ha, Hp. simpl. rewrite <- !app_assoc. reflexivity.
Qed.

Lemma add_package_entries (fuel : nat) (g : bool) (st st' : state) (pkg : json) :
  (entries st <= length (import_cmds st))%nat ->
  add_package unicode_lower http_get py_repr fuel g st pkg = Ok st' ->
  (entries st' <= length (import_cmds st'))%nat.
Proof.
  intros Hst H.
  apply add_package_Ok in H
    as (name & c & d & pid & pols & assigns & st1 & st2 & _ & _ & _ & _ & _ & _
        & -> & Hp & Ha).
  assert (H2 : (entries st2 <= length (import_cmds st2))%nat).
  { revert Hp.
    apply (foldM_invariant (fun s => (entries s <= length (import_cmds s))%nat)).
    - intros s x s' _ Hs Hstep.
      apply add_policy_Ok in Hstep
        as (pn & du & ap & pr & se & pi & _ & _ & Ha1 & Ha2 & Ha3 & _ & Ha5).
      unfold entries in *. rewrite Ha1, Ha2, Ha3, Ha5, length_app. simpl.
      pose proof (dset_length_le (name +:+ "_" +:+ safe unicode_lower pn)
                    (policy_entry name du ap pr se) (assignment_policies s)).
      lia.
    - unfold entries in *. simpl. rewrite length_app. simpl.
      pose proof (dset_length_le name (package_entry c d) (access_packages st)).
      lia. }
  revert Ha.
  apply (foldM_invariant (fun s => (entries s <= length (import_cmds s))%nat));
    [|done].
  intros s x s' _ Hs Hstep.
  apply add_assignment_Ok in Hstep
    as (ti & gr & ak & ai & _ & _ & _ & _ & Ha1 & Ha2 & Ha3 & _ & Ha5).
  unfold entries in *. rewrite Ha1, Ha2, Ha3, Ha5, length_app. simpl.
  pose proof (dset_length_le ak (assignment_entry name ti) (assignments s)).
  lia.
Qed.

(** X14: the import script never has fewer commands than the three
    mappings have entries: every store is followed by an appended command,
    and the command of an entry that is later overwritten stays. *)
Theorem import_cmds_cover_entries (fuel : nat) (catalog_id : string) (g : bool)
    (st : state) :
  collect unicode_lower http_get py_repr fuel catalog_id g = Ok st ->
  (length (access_packages st) + length (assignment_policies st)
   + length (assignments st) <= length (import_cmds st))%nat.
Proof.
  unfold collect. intros H. bind_inv H. revert H.
  apply (foldM_invariant (fun s => (entries s <= length (import_cmds s))%nat)).
  - intros s x s' _. apply add_package_entries.
  - unfold entries. simpl. lia.
Qed.

(** X15: every fetched package has its import command in the script, also
    a package whose entry in [access_packages] was replaced by a later
    package with the same key. *)
Theorem every_package_has_import_cmd (fuel : nat) (catalog_id : string) (g : bool)
    (packages : list json) (st : state) (pkg : json) (name : string)
    (pkg_id : json) :
  get_all http_get fuel (packages_url catalog_id) = Ok packages ->
  collect unicode_lower http_get py_repr fuel catalog_id g = Ok st ->
  pkg ∈ packages ->
  package_key unicode_lower pkg = Ok name ->
  subscript "id" pkg = Ok pkg_id ->
  package_import_cmd py_repr name pkg_id ∈ import_cmds st.
Proof.
  intros Hget Hrun Hin Hk Hid. unfold collect in Hrun. rewrite Hget in Hrun.
  cbn [bind] in Hrun.
  apply list_elem_of_split in Hin as (l1 & l2 & ->).
  rewrite foldM_app in Hrun. apply bind_Ok in Hrun as (s1 & _ & Hrun).
  simpl in Hrun. apply bind_Ok in Hrun as (s2 & Hstep & Hrun).
  apply add_package_cmds in Hstep as (n & i & more & Hn & Hi & Hcmds).
  assert (n = name) as -> by congruence.
  assert (i = pkg_id) as -> by congruence.
  revert Hrun.
  apply (foldM_invariant
           (fun s => package_import_cmd py_repr name pkg_id ∈ import_cmds s)).
  - intros s x s' _ Hs Hstep.
    apply add_package_cmds in Hstep as (n & i & more' & _ & _ & ->).
    apply elem_of_app. by left.
  - rewrite Hcmds. apply elem_of_app. right. apply list_elem_of_here.
Qed.

Lemma add_assignment_groups (name : string) (st st' : state) (a : json) :
  groups_cover st /\ groups_within st ->
  add_assignment unicode_lower http_get py_repr true name st a = Ok st' ->
  groups_cover st' /\ groups_within st'.
Proof.
  intros [Hcov Hin] Hstep.
  apply add_assignment_Ok in Hstep
    as (ti & gr & ak & ai & _ & _ & _ & _ & _ & _ & Hasg & Hgrp & _).
  split.
  - intros key entry Hkey. rewrite Hasg in Hkey.
    destruct (decide (ak = key)) as [->|Hne].
    + rewrite dget_dset_eq in Hkey. injection Hkey as <-.
      exists gr, (dset key (assignment_entry name ti)
                       (default [] (dget gr (grouped_assignments st)))).
      rewrite Hgrp, group_add_lookup.
      destruct (decide (gr = gr)); [|done]. split; [done|]. apply dget_dset_eq.
    + rewrite dget_dset_ne in Hkey by done.
      destruct (Hcov key entry Hkey) as (g0 & d0 & Hg0 & Hd0).
      rewrite Hgrp. destruct (decide (gr = g0)) as [->|Hg].
      * exists g0, (dset ak (assignment_entry name ti) d0).
        rewrite group_add_lookup. destruct (decide (g0 = g0)); [|done].
        rewrite Hg0. simpl. split; [done|]. by rewrite dget_dset_ne.
      * exists g0, d0. rewrite group_add_lookup.
        destruct (decide (gr = g0)); [done|]. done.
  - intros g0 d0 key Hg0 Hkey. rewrite Hgrp, group_add_lookup in Hg0.
    rewrite Hasg. apply elem_of_dkeys_dset.
    destruct (decide (gr = g0)) as [->|Hg].
    + injection Hg0 as <-. apply elem_of_dkeys_dset in Hkey as [->|Hkey]; [by left|].
      right. destruct (dget g0 (grouped_assignments st)) as [d1|] eqn:Hd1.
      * by apply (Hin g0 d1).
      * simpl in Hkey. by apply elem_of_nil in Hkey.
    + right. by apply (Hin g0 d0).
Qed.

Lemma add_package_groups (fuel : nat) (st st' : state) (pkg : json) :
  groups_cover st /\ groups_within st ->
  add_package unicode_lower http_get py_repr fuel true st pkg = Ok st' ->
  groups_cover st' /\ groups_within st'.
Proof.
  intros Hst H.
  apply add_package_Ok in H
    as (name & c & d & pid & pols & assigns & st1 & st2 & _ & _ & _ & _ & _ & _
        & -> & Hp & Ha).
  apply policies_keep_packages in Hp as (_ & Hp1 & Hp2). simpl in Hp1, Hp2.
  revert Ha.
  apply (foldM_invariant (fun s => groups_cover s /\ groups_within s)).
  - intros s x s' _. apply add_assignment_groups.
  - unfold groups_cover, groups_within. rewrite Hp1, Hp2. exact Hst.
Qed.

(** X16: with the grouped flag the group dictionaries and [assignments]
    agree on keys and cover each other's entries one way: every entry of
    [assignments] is, with the same key and value, in the dictionary of some
    group, and every key of a group dictionary is a key of [assignments]. *)
Theorem groups_cover_assignments (fuel : nat) (catalog_id : string) (st : state) :
  collect unicode_lower http_get py_repr fuel catalog_id true = Ok st ->
  (forall key entry, dget key (assignments st) = Some entry ->
     exists group d, dget group (grouped_assignments st) = Some d
                     /\ dget key d = Some entry)
  /\ (forall group d key, dget group (grouped_assignments st) = Some d ->
        key ∈ dkeys d -> key ∈ dkeys (assignments st)).
Proof.
  unfold collect. intros H. bind_inv H. revert H.
  apply (foldM_invariant (fun s => groups_cover s /\ groups_within s)).
  - intros s x s' _. apply add_package_groups.
  - split; [intros k e Hk; done | intros g0 d0 k Hg; done].
Qed.

Lemma add_policy_without_groups (name : string) (st : state) (pol : json) :
  add_policy unicode_lower py_repr name (without_groups st) pol
  = bind (add_policy unicode_lower py_repr name st pol) (fun s => Ok (without_groups s)).
Proof.
  unfold add_policy.
  repeat match goal with
         | |- context [bind ?m _] =>
             lazymatch m with
             | bind _ _ => fail
             | _ => destruct m; cbn [bind]; try reflexivity
             end
         end.
Qed.

Lemma add_assignment_without_groups (name : string) (st : state) (a : json) :
  add_assignment unicode_lower http_get py_repr false name (without_groups st) a
  = bind (add_assignment unicode_lower http_get py_repr true name st a)
         (fun s => Ok (without_groups s)).
Proof.
  unfold add_assignment.
  repeat match goal with
         | |- context [bind ?m _] =>
             lazymatch m with
             | bind _ _ => fail
             | _ => destruct m; cbn [bind]; try reflexivity
             end
         end.
Qed.

Lemma add_package_without_groups (fuel : nat) (st : state) (pkg : json) :
  add_package unicode_lower http_get py_repr fuel false (without_groups st) pkg
  = bind (add_package unicode_lower http_get py_repr fuel true st pkg)
         (fun s => Ok (without_groups s)).
Proof.
  unfold add_package.
  destruct (package_key unicode_lower pkg) as [name| |]; cbn [bind]; try reflexivity.
  destruct (subscript "catalogId" pkg) as [c| |]; cbn [bind]; try reflexivity.
  destruct (get_default "description" (JStr EmptyString) pkg) as [d| |];
    cbn [bind]; try reflexivity.
  destruct (subscript "id" pkg) as [pid| |]; cbn [bind]; try reflexivity.
  destruct (get_all http_get fuel (policies_url py_repr pid)) as [pols| |];
    cbn [bind]; try reflexivity.
  match goal with
  | |- bind (foldM _ _ ?a) _ = bind (bind (foldM _ _ ?b) _) _ =>
      change a with (without_groups b)
  end.
  rewrite (foldM_simulation (add_policy unicode_lower py_repr name) (add_policy unicode_lower py_repr name)
             without_groups pols (add_policy_without_groups name)).
  destruct (foldM (add_policy unicode_lower py_repr name) pols _) as [s2| |]; cbn [bind];
    try reflexivity.
  destruct (get_all http_get fuel (assignments_url py_repr pid)) as [assigns| |];
    cbn [bind]; try reflexivity.
  apply (foldM_simulation (add_assignment unicode_lower http_get py_repr true name)
           (add_assignment unicode_lower http_get py_repr false name) without_groups assigns
           (add_assignment_without_groups name)).
Qed.

(** X17: without the grouped flag the accumulation does what it does with
    the flag, directory lookups included, and fails, loops or succeeds
    alike; a result differs only in [grouped_assignments] being empty. *)
Theorem collect_without_grouped_flag (fuel : nat) (catalog_id : string) :
  collect unicode_lower http_get py_repr fuel catalog_id false
  = bind (collect unicode_lower http_get py_repr fuel catalog_id true)
         (fun st => Ok (without_groups st)).
Proof.
  unfold collect.
  destruct (get_all http_get fuel (packages_url catalog_id)) as [pkgs| |];
    cbn [bind]; try reflexivity.
  apply (foldM_simulation (add_package unicode_lower http_get py_repr fuel true)
           (add_package unicode_lower http_get py_repr fuel false) without_groups pkgs
           (add_package_without_groups fuel) empty_state).
Qed.

End AccumulationMore.

Lemma import_cmds_cover_entries_witness :
  (length (access_packages Fixtures.twins_grouped)
   + length (assignment_policies Fixtures.twins_grouped)
   + length (assignments Fixtures.twins_grouped)
   <= length (import_cmds Fixtures.twins_grouped))%nat.
Proof.
  apply (import_cmds_cover_entries Fixtures.no_unicode Fixtures.tenant Fixtures.repr 3 "twins" true).
  vm_compute. reflexivity.
Defined.

Lemma every_package_has_import_cmd_witness :
  "terraform import azuread_access_package.finance_access pkg-1"
    ∈ import_cmds Fixtures.twins_grouped.
Proof.
  apply (every_package_has_import_cmd Fixtures.no_unicode Fixtures.tenant Fixtures.repr 3 "twins" true
           [Fixtures.finance; Fixtures.finance_twin] Fixtures.twins_grouped
           Fixtures.finance "finance_access" (JStr "pkg-1")).
  - vm_compute. reflexivity.
  - vm_compute. reflexivity.
  - apply list_elem_of_here.
  - reflexivity.
  - reflexivity.
Defined.

Lemma groups_cover_assignments_witness :
  exists group d,
    dget group (grouped_assignments Fixtures.single_grouped) = Some d
    /\ dget "finance_access_user_abcdef" d
       = Some (assignment_entry "finance_access" (JStr "abcdef-0002")).
Proof.
  destruct (groups_cover_assignments Fixtures.no_unicode Fixtures.tenant Fixtures.repr 3 "single"
              Fixtures.single_grouped) as [Hcover _].
  - vm_compute. reflexivity.
  - apply Hcover. reflexivity.
Defined.

(** ** What the emitters leave in the directory *)

Section EmittersMore.
Variable json_dump : json -> string.
Variable creatable : string -> bool.

Lemma and_then_Finished (r : run) (k : world -> run) (w' : world) :
  and_then r k = Finished w' -> exists w1, r = Finished w1 /\ k w1 = Finished w'.
Proof. destruct r; simpl; intros H; [eauto | done | done]. Qed.

Lemma write_file_Finished (n text message : string) (w w' : world) :
  write_file creatable n text message w = Finished w' ->
  creatable n = true /\ fs w' = <[n := text]> (fs w).
Proof.
  unfold write_file. destruct (creatable n); [|done]. intros [= <-]. done.
Qed.

Lemma write_scaffold_Finished (gm : bool) (n text message : string) (w w' : world) :
  write_scaffold creatable gm n text message w = Finished w' ->
  fs w' !! n = scaffolded gm text (fs w !! n)
  /\ forall n', n' <> n -> fs w' !! n' = fs w !! n'.
Proof.
  unfold write_scaffold, path_exists, scaffolded.
  destruct gm; simpl.
  - destruct (fs w !! n) as [old|] eqn:Hold; simpl.
    + intros [= <-]. by rewrite Hold.
    + intros H. apply write_file_Finished in H as [_ ->].
      split; [apply lookup_insert_eq|]. intros n' Hn'. by apply lookup_insert_ne.
  - intros [= <-]. done.
Qed.

Lemma write_group_files_Finished (groups : dict (dict json)) :
  forall w w',
    write_group_files json_dump creatable groups w = Finished w' ->
    forall n, fs w' !! n =
      match group_of_file n groups with
      | Some d => Some (group_file_text json_dump d)
      | None => fs w !! n
      end.
Proof.
  induction groups as [|[g d] groups IH]; intros w w' Hrun n; simpl in *.
  - by injection Hrun as <-.
  - apply and_then_Finished in Hrun as (w1 & H1 & Hrun).
    apply write_file_Finished in H1 as [_ H1].
    rewrite (IH _ _ Hrun n). destruct (group_of_file n groups); [done|].
    rewrite H1. destruct (String.eqb (group_file_name g) n) eqn:E.
    + apply String.eqb_eq in E. subst n. apply lookup_insert_eq.
    + apply String.eqb_neq in E. by apply lookup_insert_ne.
Qed.

Lemma group_of_file_other (n : string) (groups : dict (dict json)) :
  (forall g, group_file_name g <> n) -> group_of_file n groups = None.
Proof.
  intros Hn. induction groups as [|[g d] groups IH]; simpl; [done|].
  rewrite IH. destruct (String.eqb (group_file_name g) n) eqn:E; [|done].
  apply String.eqb_eq in E. by destruct (Hn g).
Qed.

Lemma group_of_file_dget (g : string) (groups : dict (dict json)) :
  NoDup (dkeys groups) ->
  group_of_file (group_file_name g) groups = dget g groups.
Proof.
  induction groups as [|[g0 d0] groups IH]; simpl; intros Hnd; [done|].
  apply NoDup_cons in Hnd as [Hnin Hnd]. rewrite (IH Hnd).
  destruct (dget g groups) as [d'|] eqn:Hd.
  - destruct (String.eqb g g0) eqn:E; [|done].
    apply String.eqb_eq in E. subst g0. exfalso. apply Hnin.
    apply elem_of_dkeys_dget. eauto.
  - destruct (String.eqb g g0) eqn:E.
    + apply String.eqb_eq in E. subst g0. by rewrite String.eqb_refl.
    + destruct (String.eqb (group_file_name g0) (group_file_name g)) eqn:E';
        [|done].
      apply String.eqb_eq, group_file_name_inj in E'. subst g0.
      by rewrite String.eqb_refl in E.
Qed.

Lemma emit_files_Finished (g gm : bool) (st : state) (w w' : world) :
  emit_files json_dump creatable g gm st w = Finished w' ->
  exists w1 w2 w3 w4,
    write_file creatable "terraform.tfvars" (tfvars_text json_dump st)
      "✅ terraform.tfvars written" w = Finished w1
    /\ (if g then write_group_files json_dump creatable (grouped_assignments st) w1
        else Finished w1) = Finished w2
    /\ write_file creatable "terraform_import.sh"
         (import_script_text (import_cmds st))
         "✅ terraform_import.sh written" w2 = Finished w3
    /\ write_scaffold creatable gm "main.tf" main_tf_template
         "✅ main.tf scaffold created" w3 = Finished w4
    /\ write_scaffold creatable gm "variables.tf" variables_tf_template
         "✅ variables.tf scaffold created" w4 = Finished w'.
Proof.
  unfold emit_files. intros H.
  apply and_then_Finished in H as (w1 & H1 & H).
  apply and_then_Finished in H as (w2 & H2 & H).
  apply and_then_Finished in H as (w3 & H3 & H).
  apply and_then_Finished in H as (w4 & H4 & H).
  by exists w1, w2, w3, w4.
Qed.

(** Every file of the directory after a finished emitter stage. *)
Lemma emit_files_lookup (g gm : bool) (st : state) (w w' : world) (n : string) :
  emit_files json_dump creatable g gm st w = Finished w' ->
  fs w' !! n = emitted_file json_dump g gm st (fs w) n.
Proof.
  intros H. apply emit_files_Finished in H as (w1 & w2 & w3 & w4 & H1 & H2 & H3 & H4 & H5).
  apply write_file_Finished in H1 as [_ H1].
  apply write_file_Finished in H3 as [_ H3].
  apply write_scaffold_Finished in H4 as [H4 H4'].
  apply write_scaffold_Finished in H5 as [H5 H5'].
  assert (Hgroups : fs w2 !! n =
            match (if g then group_of_file n (grouped_assignments st) else None) with
            | Some d => Some (group_file_text json_dump d)
            | None => fs w1 !! n
            end).
  { destruct g; [|by injection H2 as <-].
    by apply write_group_files_Finished. }
  unfold emitted_file.
  destruct (String.eqb n "variables.tf") eqn:Ev.
  { apply String.eqb_eq in Ev. subst n. rewrite H5, H4' by done.
    rewrite H3, lookup_insert_ne by done.
    rewrite Hgroups, group_of_file_other
      by (intros g0; apply group_file_name_not_variables).
    destruct g; by rewrite H1, lookup_insert_ne. }
  apply String.eqb_neq in Ev. rewrite H5' by done.
  destruct (String.eqb n "main.tf") eqn:Em.
  { apply String.eqb_eq in Em. subst n. rewrite H4.
    rewrite H3, lookup_insert_ne by done.
    rewrite Hgroups, group_of_file_other
      by (intros g0; apply group_file_name_not_main).
    destruct g; by rewrite H1, lookup_insert_ne. }
  apply String.eqb_neq in Em. rewrite H4' by done. rewrite H3.
  destruct (String.eqb n "terraform_import.sh") eqn:Es.
  { apply String.eqb_eq in Es. subst n. apply lookup_insert_eq. }
  apply String.eqb_neq in Es. rewrite lookup_insert_ne by done.
  rewrite Hgroups.
  destruct (if g then group_of_file n (grouped_assignments st) else None); [done|].
  rewrite H1. destruct (String.eqb n "terraform.tfvars") eqn:Et.
  - apply String.eqb_eq in Et. subst n. apply lookup_insert_eq.
  - apply String.eqb_neq in Et. by apply lookup_insert_ne.
Qed.

End EmittersMore.

Lemma has_suffix_app (a suffix : string) : has_suffix suffix (a +:+ suffix) = true.
Proof.
  induction a as [|c a IH].
  - change (EmptyString +:+ suffix) with suffix.
    destruct suffix; simpl; [done|]. by rewrite Ascii.eqb_refl, String.eqb_refl.
  - rewrite string_app_cons. simpl. rewrite IH. apply orb_true_r.
Qed.

Lemma not_tfvars_name (n : string) :
  has_suffix ".tfvars" n = false -> forall group, group_file_name group <> n.
Proof.
  intros Hn group <-. unfold group_file_name in Hn.
  by rewrite has_suffix_app in Hn.
Qed.

Section OutputFiles.
Variable unicode_lower : string -> string.
Variable http_get : string -> result json.
Variable py_repr : json -> string.
Variable json_dump : json -> string.
Variable creatable : string -> bool.
Variable subprocess_run : list string -> gmap string string -> Z * gmap string string.

Lemma collect_groups_NoDup (fuel : nat) (catalog_id : string) (g : bool)
    (st : state) :
  collect unicode_lower http_get py_repr fuel catalog_id g = Ok st ->
  NoDup (dkeys (grouped_assignments st))
  /\ (g = false -> grouped_assignments st = []).
Proof.
  unfold collect. intros H. bind_inv H. revert H.
  apply (foldM_invariant
           (fun s => NoDup (dkeys (grouped_assignments s))
                     /\ (g = false -> grouped_assignments s = []))).
  - intros s pkg s' _ Hs Hstep.
    apply add_package_Ok in Hstep
      as (name & c & d & pid & pols & assigns & st1 & st2 & _ & _ & _ & _ & _ & _
          & -> & Hp & Ha).
    apply policies_keep_packages in Hp as (_ & _ & Hp). simpl in Hp.
    revert Ha.
    apply (foldM_invariant
             (fun s0 => NoDup (dkeys (grouped_assignments s0))
                        /\ (g = false -> grouped_assignments s0 = []))).
    + intros s0 x s0' _ [Hnd Hoff] Hx.
      apply add_assignment_Ok in Hx
        as (ti & gr & ak & ai & _ & _ & _ & _ & _ & _ & _ & Hgrp & _).
      rewrite Hgrp. destruct g.
      * split; [|done]. unfold group_add. by apply NoDup_dkeys_dset.
      * split; [done|]. auto.
    + by rewrite Hp.
  - split; [apply NoDup_nil_2 | done].
Qed.

(** X18: a run only ever writes [terraform_import.sh], [main.tf],
    [variables.tf] and files whose name ends in [.tfvars]: any other file of
    the directory is, when the run has ended or crashed, as it was, the
    subprocesses of the import runner being taken not to touch it. *)
Theorem main_writes_only_its_files (n : string) (fuel : nat) (catalog_id : string)
    (g gm ri : bool) (w : world) :
  has_suffix ".tfvars" n = false ->
  n <> "terraform_import.sh" ->
  n <> "main.tf" ->
  n <> "variables.tf" ->
  (forall argv dir, (subprocess_run argv dir).2 !! n = dir !! n) ->
  file_is n (fs w !! n)
    (main unicode_lower http_get py_repr json_dump creatable subprocess_run
          fuel catalog_id g gm ri w).
Proof.
  intros Hsuffix Hscript Hmain Hvars Hkeeps.
  pose proof (not_tfvars_name n Hsuffix) as Hgroup. unfold main.
  destruct (collect unicode_lower http_get py_repr fuel catalog_id g) as [st|e|];
    [|reflexivity|exact I].
  apply file_is_and_then.
  - unfold emit_files. apply file_is_and_then.
    { apply write_file_other; [|done].
      intros <-. by apply (Hgroup "terraform"). }
    intros w1 Hw1. apply file_is_and_then.
    { destruct g; [|exact Hw1]. by apply write_group_files_other. }
    intros w2 Hw2. apply file_is_and_then.
    { apply write_file_other; [|done]. by intros <-. }
    intros w3 Hw3. apply file_is_and_then.
    { apply write_scaffold_other; [|done]. by intros <-. }
    intros w4 Hw4. apply write_scaffold_other; [|done]. by intros <-.
  - intros w1 Hw1. destruct ri; [|exact Hw1].
    by apply import_runner_keeps.
Qed.

(** X19: when no resolved group name holds a [/], after a finished emitter
    stage [terraform.tfvars] holds the three mappings, unless a target
    resolved to the group name [terraform]: then the group file of that
    group has the same name and, written later, has replaced them. *)
Theorem terraform_tfvars_content (fuel : nat) (catalog_id : string) (g gm : bool)
    (st : state) (w w' : world) :
  collect unicode_lower http_get py_repr fuel catalog_id g = Ok st ->
  (forall grp, grp ∈ dkeys (grouped_assignments st) ->
     no_path_separator grp = true) ->
  emit_files json_dump creatable g gm st w = Finished w' ->
  fs w' !! "terraform.tfvars" =
    Some (match dget "terraform" (grouped_assignments st) with
          | Some d => group_file_text json_dump d
          | None => tfvars_text json_dump st
          end).
Proof.
  intros Hcollect _ Hemit.
  destruct (collect_groups_NoDup _ _ _ _ Hcollect) as [Hnd Hoff].
  rewrite (emit_files_lookup _ _ _ _ _ _ _ "terraform.tfvars" Hemit).
  unfold emitted_file. cbn [String.eqb Ascii.eqb Bool.eqb].
  destruct g.
  - change "terraform.tfvars" with (group_file_name "terraform").
    rewrite (group_of_file_dget _ _ Hnd).
    by destruct (dget "terraform" (grouped_assignments st)).
  - by rewrite (Hoff eq_refl).
Qed.

(** X20: after a finished emitter stage [terraform_import.sh] holds the
    shebang line, an empty line and the import commands, one per line, in
    the order they were appended; no later step of the stage touches it. *)
Theorem import_script_content (g gm : bool) (st : state) (w w' : world) :
  emit_files json_dump creatable g gm st w = Finished w' ->
  fs w' !! "terraform_import.sh" =
    Some ("#!/bin/bash" +:+ nl +:+ nl +:+ unlines (import_cmds st)).
Proof.
  intros Hemit.
  by rewrite (emit_files_lookup _ _ _ _ _ _ _ "terraform_import.sh" Hemit).
Qed.

(** X21: after a finished emitter stage with scaffold generation both
    scaffold files exist, each with the content it had before or, when it
    was absent, with the template text; without the flag neither file is
    created or changed. *)
Theorem scaffold_files_after_emit (name : string) (g gm : bool) (st : state)
    (w w' : world) :
  is_scaffold name ->
  emit_files json_dump creatable g gm st w = Finished w' ->
  fs w' !! name =
    if gm
    then Some (default (if String.eqb name "main.tf" then main_tf_template
                        else variables_tf_template) (fs w !! name))
    else fs w !! name.
Proof.
  intros Hname Hemit. rewrite (emit_files_lookup _ _ _ _ _ _ _ name Hemit).
  destruct Hname as [-> | ->]; reflexivity.
Qed.

Lemma write_group_files_any_world (groups : dict (dict json)) :
  forall w w', write_group_files json_dump creatable groups w = Finished w' ->
  forall v, exists v', write_group_files json_dump creatable groups v = Finished v'.
Proof.
  induction groups as [|[g d] groups IH]; intros w w' Hrun v; simpl in *.
  - eauto.
  - apply and_then_Finished in Hrun as (w1 & H1 & Hrun).
    apply write_file_Finished in H1 as [Hc _].
    unfold write_file at 1. rewrite Hc. simpl. by eapply IH.
Qed.

Lemma emit_files_again (g gm : bool) (st : state) (w w' v : world) :
  emit_files json_dump creatable g gm st w = Finished w' ->
  (gm = true -> is_Some (fs v !! "main.tf") /\ is_Some (fs v !! "variables.tf")) ->
  exists v', emit_files json_dump creatable g gm st v = Finished v'.
Proof.
  intros H Hpresent.
  apply emit_files_Finished in H as (w1 & w2 & w3 & w4 & H1 & H2 & H3 & H4 & H5).
  apply write_file_Finished in H1 as [Hc1 _].
  apply write_file_Finished in H3 as [Hc3 _].
  unfold emit_files. unfold write_file at 1. rewrite Hc1. cbn [and_then].
  match goal with
  | |- context [if g then write_group_files _ _ _ ?v1 else _] => set (v1' := v1)
  end.
  assert (Hgroups : exists v2,
            (if g then write_group_files json_dump creatable
                         (grouped_assignments st) v1'
             else Finished v1') = Finished v2
            /\ fs v2 !! "main.tf" = fs v !! "main.tf"
            /\ fs v2 !! "variables.tf" = fs v !! "variables.tf").
  { destruct g.
    - destruct (write_group_files_any_world _ _ _ H2 v1') as [v2 Hv2].
      exists v2. split; [done|].
      rewrite !(write_group_files_Finished _ _ _ _ _ Hv2).
      rewrite !group_of_file_other
        by (intros g0; apply group_file_name_not_variables
                       || apply group_file_name_not_main).
      subst v1'. simpl. by rewrite !lookup_insert_ne.
    - exists v1'. split; [done|]. subst v1'. simpl. by rewrite !lookup_insert_ne. }
  destruct Hgroups as (v2 & -> & Hm & Hv). cbn [and_then].
  unfold write_file at 1. rewrite Hc3. cbn [and_then].
  destruct gm.
  - destruct (Hpresent eq_refl) as [[cm Hcm] [cv Hcv]].
    rewrite (write_scaffold_existing creatable true "main.tf" _ _ cm).
    + cbn [and_then].
      rewrite (write_scaffold_existing creatable true "variables.tf" _ _ cv);
        [eauto|].
      simpl. rewrite lookup_insert_ne by done. by rewrite Hv.
    + simpl. rewrite lookup_insert_ne by done. by rewrite Hm.
  - unfold write_scaffold. simpl. eauto.
Qed.

Lemma emitted_file_again (g gm : bool) (st : state) (old old' : gmap string string)
    (n : string) :
  old' !! n = emitted_file json_dump g gm st old n ->
  emitted_file json_dump g gm st old' n = old' !! n.
Proof.
  unfold emitted_file, scaffolded. intros H.
  repeat match goal with
         | |- context [String.eqb n ?x] => destruct (String.eqb n x)
         end;
    try (destruct (if g then _ else None)); rewrite H;
    try reflexivity; destruct gm; try reflexivity; by destruct (old !! n).
Qed.

(** X22: a finished run without [--run-imports] can be repeated: on the
    directory it left, the same run against the same tenant data finishes
    again and the directory holds afterwards what it held. *)
Theorem rerun_leaves_directory (fuel : nat) (catalog_id : string) (g gm : bool)
    (w w1 : world) :
  main unicode_lower http_get py_repr json_dump creatable subprocess_run
       fuel catalog_id g gm false w = Finished w1 ->
  exists w2,
    main unicode_lower http_get py_repr json_dump creatable subprocess_run
         fuel catalog_id g gm false w1 = Finished w2
    /\ fs w2 = fs w1.
Proof.
  unfold main.
  destruct (collect unicode_lower http_get py_repr fuel catalog_id g) as [st|e|]; try done.
  intros H. apply and_then_Finished in H as (w1' & Hemit & [= ->]).
  destruct (emit_files_again g gm st _ _ (print "Fetching access packages..." w1)
              Hemit) as [w2 Hagain].
  { intros ->. simpl.
    split.
    - apply (emit_files_scaffold_present json_dump creatable "main.tf" g st _ _
               (or_introl eq_refl) Hemit).
    - apply (emit_files_scaffold_present json_dump creatable "variables.tf" g st _ _
               (or_intror eq_refl) Hemit). }
  exists w2. rewrite Hagain. split; [done|].
  apply map_eq. intros n.
  rewrite (emit_files_lookup _ _ _ _ _ _ _ n Hagain). simpl.
  eapply emitted_file_again.
  rewrite (emit_files_lookup _ _ _ _ _ _ _ n Hemit). reflexivity.
Qed.

Lemma write_group_files_blocked (groups : dict (dict json)) :
  (exists g, g ∈ dkeys groups /\ creatable (group_file_name g) = false) ->
  forall w, exists g w',
    write_group_files json_dump creatable groups w
      = Crashed (OSError (group_file_name g)) w'
    /\ g ∈ dkeys groups
    /\ forall n, (forall g0, group_file_name g0 <> n) -> fs w' !! n = fs w !! n.
Proof.
  induction groups as [|[g0 d0] groups IH]; intros (g & Hg & Hc) w.
  - by apply elem_of_nil in Hg.
  - simpl. unfold write_file at 1.
    destruct (creatable (group_file_name g0)) eqn:Hc0; simpl.
    + assert (Hrest : exists g', g' ∈ dkeys groups
                                 /\ creatable (group_file_name g') = false).
      { simpl in Hg. apply elem_of_cons in Hg as [->|Hg]; [congruence|eauto]. }
      destruct (IH Hrest
                  {| fs := <[group_file_name g0 := group_file_text json_dump d0]> (fs w);
                     stdout := stdout w ++ ["✅ " +:+ g0 +:+ ".tfvars written"] |})
        as (g1 & w' & Hrun & Hg1 & Hframe).
      exists g1, w'. split; [done|]. split; [by apply list_elem_of_further|].
      intros n Hn. rewrite (Hframe n Hn). simpl. by apply lookup_insert_ne.
    + exists g0, w. split; [done|]. split; [apply list_elem_of_here | done].
Qed.

(** X23: when a group file cannot be created (its name comes from a
    directory display name), the emitter stage ends with [OSError] for a
    group file after [terraform.tfvars] has been written and before
    [terraform_import.sh] and the scaffold files are: those three are as they
    were. *)
Theorem blocked_group_file_stops_emitters (gm : bool) (st : state) (w : world)
    (group : string) :
  creatable "terraform.tfvars" = true ->
  group ∈ dkeys (grouped_assignments st) ->
  creatable (group_file_name group) = false ->
  exists g w',
    emit_files json_dump creatable true gm st w
      = Crashed (OSError (group_file_name g)) w'
    /\ g ∈ dkeys (grouped_assignments st)
    /\ is_Some (fs w' !! "terraform.tfvars")
    /\ fs w' !! "terraform_import.sh" = fs w !! "terraform_import.sh"
    /\ fs w' !! "main.tf" = fs w !! "main.tf"
    /\ fs w' !! "variables.tf" = fs w !! "variables.tf".
Proof.
  intros Hc Hgroup Hblocked. unfold emit_files.
  unfold write_file at 1. rewrite Hc. cbn [and_then].
  match goal with
  | |- context [write_group_files _ _ _ ?w1] => set (w1' := w1)
  end.
  destruct (write_group_files_blocked (grouped_assignments st)
              (ex_intro _ group (conj Hgroup Hblocked)) w1')
    as (g & w' & Hrun & Hg & Hframe).
  exists g, w'. rewrite Hrun. cbn [and_then]. split; [done|]. split; [done|].
  split.
  { assert (Hsome : forall groups v,
              is_Some (fs v !! "terraform.tfvars") ->
              match final_world (write_group_files json_dump creatable groups v) with
              | Some v' => is_Some (fs v' !! "terraform.tfvars")
              | None => True
              end).
    { induction groups as [|[g0 d0] groups IH]; intros v Hv; simpl; [done|].
      unfold write_file at 1. destruct (creatable (group_file_name g0)); simpl;
        [|done].
      apply IH. simpl.
      destruct (decide (group_file_name g0 = "terraform.tfvars")) as [->|Hne].
      - rewrite lookup_insert_eq. eauto.
      - by rewrite lookup_insert_ne. }
    specialize (Hsome (grouped_assignments st) w1'). rewrite Hrun in Hsome.
    apply Hsome. subst w1'. simpl. rewrite lookup_insert_eq. eauto. }
  subst w1'.
  repeat split; rewrite Hframe; simpl;
    try (by rewrite lookup_insert_ne);
    intros g0; first [apply group_file_name_not_script
                     | apply group_file_name_not_main
                     | apply group_file_name_not_variables].
Qed.

End OutputFiles.

(** ** Backend detection *)

Lemma prefix_spec (needle hay : string) :
  String.prefix needle hay = true <-> exists rest, hay = needle +:+ rest.
Proof.
  revert hay. induction needle as [|c needle IH]; intros hay.
  - split; [intros _; by exists hay | by destruct hay].
  - destruct hay as [|c' hay]; simpl.
    + split; [done | intros [rest H]; done].
    + destruct (ascii_dec c c') as [->|Hne].
      * rewrite IH. split; intros [rest H]; exists rest.
        -- by rewrite string_app_cons, H.
        -- rewrite string_app_cons in H. by injection H.
      * split; [done|]. intros [rest H]. rewrite string_app_cons in H.
        injection H as H _. done.
Qed.

Lemma contains_spec (needle hay : string) :
  contains needle hay = true <-> exists a b, hay = a +:+ needle +:+ b.
Proof.
  induction hay as [|c hay IH]; cbn [contains].
  - rewrite orb_false_r, prefix_spec. split.
    + intros [rest H]. by exists EmptyString, rest.
    + intros (a & b & H). destruct a as [|ca a]; [by exists b|].
      by rewrite string_app_cons in H.
  - rewrite orb_true_iff, IH, prefix_spec. split.
    + intros [[rest H] | (a & b & H)].
      * by exists EmptyString, rest.
      * exists (String c a), b. by rewrite string_app_cons, H.
    + intros (a & b & H). destruct a as [|ca a].
      * left. by exists b.
      * right. rewrite string_app_cons in H. injection H as _ H. by exists a, b.
Qed.

(** X24: [terraform init] is run exactly when the directory has a file
    [backend.tf], whatever it holds, or a file [main.tf] whose text has the
    letters [backend] somewhere, be it in a comment or inside a longer
    word. *)
Theorem backend_detected_iff (w : world) :
  backend_detected w = true <->
  is_Some (fs w !! "backend.tf")
  \/ exists before after,
       fs w !! "main.tf" = Some (before +:+ "backend" +:+ after).
Proof.
  unfold backend_detected, path_exists, read_text.
  rewrite orb_true_iff, andb_true_iff, contains_spec. split.
  - intros [H | [Hm (a & b & H)]].
    + left. destruct (fs w !! "backend.tf"); [eauto | done].
    + right. exists a, b. destruct (fs w !! "main.tf"); [|done].
      simpl in H. by rewrite H.
  - intros [[c H] | (a & b & H)].
    + left. by rewrite H.
    + right. rewrite H. split; [done|]. by exists a, b.
Qed.

Lemma group_file_name_not_backend (g : string) : group_file_name g <> "backend.tf".
Proof.
  unfold group_file_name. intros H.
  assert (Hlen := f_equal String.length H).
  rewrite string_length_app in Hlen. simpl in Hlen.
  do 4 (destruct g as [|? g]; [try discriminate H; simpl in Hlen; lia|]).
  simpl in Hlen. lia.
Qed.

Section FreshDirectory.
Variable unicode_lower : string -> string.
Variable http_get : string -> result json.
Variable py_repr : json -> string.
Variable json_dump : json -> string.
Variable creatable : string -> bool.
Variable subprocess_run : list string -> gmap string string -> Z * gmap string string.

Lemma emitted_scaffold_no_backend (g gm : bool) (st : state) (w w' : world) :
  fs w !! "backend.tf" = None ->
  fs w !! "main.tf" = None ->
  emit_files json_dump creatable g gm st w = Finished w' ->
  backend_detected w' = false.
Proof.
  intros Hb Hm Hemit. unfold backend_detected, path_exists, read_text.
  rewrite (emit_files_lookup _ _ _ _ _ _ _ "backend.tf" Hemit).
  rewrite (emit_files_lookup _ _ _ _ _ _ _ "main.tf" Hemit).
  unfold emitted_file. cbn [String.eqb Ascii.eqb Bool.eqb].
  rewrite Hb, Hm.
  replace (if g then group_of_file "backend.tf" (grouped_assignments st) else None)
    with (@None (dict json)).
  - destruct gm; [vm_compute; reflexivity | reflexivity].
  - destruct g; [|done]. symmetry. apply group_of_file_other.
    apply group_file_name_not_backend.
Qed.

(** X25: in a directory that had neither [backend.tf] nor [main.tf] the
    import runner goes straight to the import script: the scaffold the run
    may have generated does not mention a backend, so [terraform init] is not
    run and cannot fail the run. *)
Theorem fresh_directory_skips_init (fuel : nat) (catalog_id : string) (g gm : bool)
    (st : state) (w w1 : world) :
  fs w !! "backend.tf" = None ->
  fs w !! "main.tf" = None ->
  collect unicode_lower http_get py_repr fuel catalog_id g = Ok st ->
  emit_files json_dump creatable g gm st (print "Fetching access packages..." w)
    = Finished w1 ->
  main unicode_lower http_get py_repr json_dump creatable subprocess_run
       fuel catalog_id g gm true w
  = Finished
      {| fs := (subprocess_run ["bash"; "terraform_import.sh"] (fs w1)).2;
         stdout := stdout w1 ++ ["✅ terraform import executed"] |}.
Proof.
  intros Hb Hm Hcollect Hemit. unfold main. rewrite Hcollect, Hemit.
  cbn [and_then]. unfold import_runner, init_if_backend.
  rewrite (emitted_scaffold_no_backend g gm st
             (print "Fetching access packages..." w) w1 Hb Hm Hemit).
  cbn [and_then]. unfold run_import_script.
  by destruct (subprocess_run ["bash"; "terraform_import.sh"] (fs w1)).
Qed.

End FreshDirectory.

(** ** The further properties on the samples *)

Lemma failing_tools_keep (argv : list string) (dir : gmap string string) :
  (Fixtures.failing_tools argv dir).2 = dir.
Proof.
  unfold Fixtures.failing_tools.
  destruct argv as [|a argv]; [reflexivity|].
  destruct (String.eqb a "terraform") eqn:E.
  - apply String.eqb_eq in E. subst a. reflexivity.
  - destruct a as [|c a]; [reflexivity|].
    repeat (match goal with
            | |- context [match ?x with _ => _ end] => destruct x
            end; try reflexivity).
Qed.

Lemma main_writes_only_its_files_witness :
  file_is "notes.md" (Some "keep me")
    (main Fixtures.no_unicode Fixtures.tenant Fixtures.repr Fixtures.dump Fixtures.any_name
          Fixtures.failing_tools 3 "single" true true true
          OutputFixtures.with_notes).
Proof.
  apply (main_writes_only_its_files Fixtures.no_unicode Fixtures.tenant Fixtures.repr Fixtures.dump
           Fixtures.any_name Fixtures.failing_tools "notes.md" 3 "single"
           true true true OutputFixtures.with_notes).
  - reflexivity.
  - discriminate.
  - discriminate.
  - discriminate.
  - intros argv dir. by rewrite failing_tools_keep.
Defined.

Lemma terraform_tfvars_content_witness :
  fs OutputFixtures.terraform_emitted !! "terraform.tfvars"
  = Some (group_file_text Fixtures.dump
            [("finance_access_user_abcdef",
              assignment_entry "finance_access" (JStr "abcdef-0002"))]).
Proof.
  apply (terraform_tfvars_content Fixtures.no_unicode (OutputFixtures.tenant_named "Terraform")
           Fixtures.repr Fixtures.dump Fixtures.any_name 3 "single" true true
           OutputFixtures.terraform_group Fixtures.empty_dir
           OutputFixtures.terraform_emitted).
  - vm_compute. reflexivity.
  - intros grp Hgrp. apply list_elem_of_singleton in Hgrp as ->. reflexivity.
  - vm_compute. reflexivity.
Defined.

Lemma import_script_content_witness :
  fs OutputFixtures.single_emitted !! "terraform_import.sh"
  = Some ("#!/bin/bash" +:+ nl +:+ nl
          +:+ unlines (import_cmds Fixtures.single_grouped)).
Proof.
  apply (import_script_content Fixtures.dump Fixtures.any_name true true
           Fixtures.single_grouped Fixtures.empty_dir
           OutputFixtures.single_emitted).
  vm_compute. reflexivity.
Defined.

Lemma scaffold_files_after_emit_witness :
  fs OutputFixtures.single_emitted !! "main.tf" = Some main_tf_template.
Proof.
  apply (scaffold_files_after_emit Fixtures.dump Fixtures.any_name "main.tf"
           true true Fixtures.single_grouped Fixtures.empty_dir
           OutputFixtures.single_emitted).
  - left. reflexivity.
  - vm_compute. reflexivity.
Defined.

Lemma rerun_leaves_directory_witness :
  exists w2,
    main Fixtures.no_unicode Fixtures.tenant Fixtures.repr Fixtures.dump Fixtures.any_name
         Fixtures.failing_tools 3 "single" true true false
         Fixtures.after_first_run = Finished w2
    /\ fs w2 = fs Fixtures.after_first_run.
Proof.
  apply (rerun_leaves_directory Fixtures.no_unicode Fixtures.tenant Fixtures.repr Fixtures.dump
           Fixtures.any_name Fixtures.failing_tools 3 "single" true true
           Fixtures.empty_dir Fixtures.after_first_run).
  vm_compute. reflexivity.
Defined.

Lemma blocked_group_file_stops_emitters_witness :
  exists g w',
    emit_files Fixtures.dump OutputFixtures.plain_name true true
               OutputFixtures.slash_group Fixtures.empty_dir
      = Crashed (OSError (group_file_name g)) w'
    /\ is_Some (fs w' !! "terraform.tfvars")
    /\ fs w' !! "terraform_import.sh" = None.
Proof.
  destruct (blocked_group_file_stops_emitters Fixtures.dump
              OutputFixtures.plain_name true OutputFixtures.slash_group
              Fixtures.empty_dir "sales/marketing")
    as (g & w' & Hrun & _ & Hvars & Hscript & _).
  - reflexivity.
  - apply list_elem_of_here.
  - reflexivity.
  - exists g, w'. split; [exact Hrun|]. split; [exact Hvars|].
    rewrite Hscript. reflexivity.
Defined.

Lemma fresh_directory_skips_init_witness :
  main Fixtures.no_unicode Fixtures.tenant Fixtures.repr Fixtures.dump Fixtures.any_name
       Fixtures.failing_tools 3 "single" true true true Fixtures.empty_dir
  = Finished
      {| fs := (Fixtures.failing_tools ["bash"; "terraform_import.sh"]
                  (fs Fixtures.after_first_run)).2;
         stdout := stdout Fixtures.after_first_run
                   ++ ["✅ terraform import executed"] |}.
Proof.
  apply (fresh_directory_skips_init Fixtures.no_unicode Fixtures.tenant Fixtures.repr Fixtures.dump
           Fixtures.any_name Fixtures.failing_tools 3 "single" true true
           Fixtures.single_grouped Fixtures.empty_dir Fixtures.after_first_run).
  - reflexivity.
  - reflexivity.
  - vm_compute. reflexivity.
  - vm_compute. reflexivity.
Defined.

(** ** Keys of policies and assignments, failing lookups, empty exports *)

Section KeysMore.
Variable unicode_lower : string -> string.
Variable http_get : string -> result json.
Variable py_repr : json -> string.

(** [add_policy] with what it read from the policy. *)
Lemma add_policy_Ok_full (name : string) (st st' : state) (pol : json) :
  add_policy unicode_lower py_repr name st pol = Ok st' ->
  exists pol_name duration settings approval primary secondary,
    subscript "displayName" pol = Ok (JStr pol_name)
    /\ get_default "durationInDays" (JNum 30) pol = Ok duration
    /\ get_default "requestApprovalSettings" (JObj []) pol = Ok settings
    /\ get_default "isApprovalRequired" (JBool false) settings = Ok approval
    /\ approver_ids "primaryApprovers" pol = Ok primary
    /\ approver_ids "escalationApprovers" pol = Ok secondary
    /\ assignment_policies st' =
         dset (policy_key unicode_lower name pol_name)
              (policy_entry name duration approval primary secondary)
              (assignment_policies st).
Proof.
  unfold add_policy. intros H. bind_inv H.
  apply safe_value_Ok in E0 as (pol_name & -> & ->).
  injection H as <-. simpl. eauto 15.
Qed.

Lemma policy_key_inj (name n1 n2 : string) :
  policy_key unicode_lower name n1 = policy_key unicode_lower name n2 -> safe unicode_lower n1 = safe unicode_lower n2.
Proof.
  unfold policy_key. intros H.
  apply (inj (String.app name)) in H. by apply (inj (String.app "_")) in H.
Qed.

Lemma assignment_key_inj (name t1 t2 : string) :
  assignment_key name t1 = assignment_key name t2 ->
  string_take 6 t1 = string_take 6 t2.
Proof.
  unfold assignment_key. intros H.
  apply (inj (String.app name)) in H. by apply (inj (String.app "_user_")) in H.
Qed.

(** X26: of two policies of one package whose names sanitise alike, the
    later one (the last with that name) is the one [assignment_policies]
    holds under the shared key, with its own duration, approval flag and
    approvers. *)
Theorem same_name_policy_overwrites (name : string) (pre mid post : list json)
    (p1 p2 : json) (n1 n2 : string) (st st' : state) :
  subscript "displayName" p1 = Ok (JStr n1) ->
  subscript "displayName" p2 = Ok (JStr n2) ->
  safe unicode_lower n1 = safe unicode_lower n2 ->
  (forall p n, p ∈ post -> subscript "displayName" p = Ok (JStr n) ->
     safe unicode_lower n <> safe unicode_lower n2) ->
  foldM (add_policy unicode_lower py_repr name) (pre ++ p1 :: mid ++ p2 :: post) st = Ok st' ->
  exists duration settings approval primary secondary,
    get_default "durationInDays" (JNum 30) p2 = Ok duration
    /\ get_default "requestApprovalSettings" (JObj []) p2 = Ok settings
    /\ get_default "isApprovalRequired" (JBool false) settings = Ok approval
    /\ approver_ids "primaryApprovers" p2 = Ok primary
    /\ approver_ids "escalationApprovers" p2 = Ok secondary
    /\ dget (policy_key unicode_lower name n1) (assignment_policies st')
       = Some (policy_entry name duration approval primary secondary).
Proof.
  intros Hn1 Hn2 Hsame Hpost Hrun.
  replace (pre ++ p1 :: mid ++ p2 :: post)
    with ((pre ++ p1 :: mid) ++ p2 :: post) in Hrun
    by (by rewrite <- app_assoc).
  rewrite foldM_app in Hrun. apply bind_Ok in Hrun as (s1 & _ & Hrun).
  simpl in Hrun. apply bind_Ok in Hrun as (s2 & Hstep & Hrun).
  apply add_policy_Ok_full in Hstep
    as (pn & du & se & ap & pr & sc & Hpn & Hdu & Hse & Hap & Hpr & Hsc & Hs2).
  assert (pn = n2) as -> by congruence.
  exists du, se, ap, pr, sc. repeat (split; [done|]).
  assert (Hkey : policy_key unicode_lower name n1 = policy_key unicode_lower name n2).
  { unfold policy_key. by rewrite Hsame. }
  rewrite Hkey. revert Hrun.
  apply (foldM_invariant
           (fun s => dget (policy_key unicode_lower name n2) (assignment_policies s)
                     = Some (policy_entry name du ap pr sc))).
  - intros s x s' Hx Hs Hstep.
    apply add_policy_Ok_full in Hstep
      as (pn' & du' & se' & ap' & pr' & sc' & Hpn' & _ & _ & _ & _ & _ & ->).
    rewrite dget_dset_ne; [done|]. intros Heq.
    apply policy_key_inj in Heq. by apply (Hpost x pn').
  - rewrite Hs2. apply dget_dset_eq.
Qed.

Lemma assignments_keys_grow (g : bool) (name : string) (assigns : list json)
    (st st' : state) (key : string) :
  key ∈ dkeys (assignments st) ->
  foldM (add_assignment unicode_lower http_get py_repr g name) assigns st = Ok st' ->
  key ∈ dkeys (assignments st').
Proof.
  apply (foldM_invariant (fun s => key ∈ dkeys (assignments s))).
  intros s x s' _ Hs Hstep.
  apply add_assignment_Ok in Hstep
    as (ti & gr & ak & ai & _ & _ & _ & _ & _ & _ & -> & _).
  apply elem_of_dkeys_dset. by right.
Qed.

Lemma assignment_key_present (g : bool) (name : string) (assigns : list json)
    (st st' : state) (a : json) (t : string) :
  foldM (add_assignment unicode_lower http_get py_repr g name) assigns st = Ok st' ->
  a ∈ assigns ->
  subscript "targetId" a = Ok (JStr t) ->
  assignment_key name t ∈ dkeys (assignments st').
Proof.
  intros Hrun Hin Ht. apply list_elem_of_split in Hin as (l1 & l2 & ->).
  rewrite foldM_app in Hrun. apply bind_Ok in Hrun as (s1 & _ & Hrun).
  simpl in Hrun. apply bind_Ok in Hrun as (s2 & Hstep & Hrun).
  apply (assignments_keys_grow g name l2 s2 st'); [|done].
  apply add_assignment_Ok in Hstep
    as (ti & gr & ak & ai & Hti & _ & Hak & _ & _ & _ & -> & _).
  assert (ti = JStr t) as -> by congruence.
  rewrite assign_key_of_str in Hak. injection Hak as <-.
  apply elem_of_dkeys_dset. by left.
Qed.

(** X27: after the assignment loop of a package every processed assignment
    has its key in [assignments], and two assignments have the same key
    exactly when their target ids agree on the first six characters: targets
    that differ there are both kept. *)
Theorem assignment_keys_by_prefix (g : bool) (name : string) (assigns : list json)
    (st st' : state) (a1 a2 : json) (t1 t2 : string) :
  foldM (add_assignment unicode_lower http_get py_repr g name) assigns st = Ok st' ->
  a1 ∈ assigns ->
  a2 ∈ assigns ->
  subscript "targetId" a1 = Ok (JStr t1) ->
  subscript "targetId" a2 = Ok (JStr t2) ->
  assignment_key name t1 ∈ dkeys (assignments st')
  /\ assignment_key name t2 ∈ dkeys (assignments st')
  /\ (assignment_key name t1 = assignment_key name t2
      <-> string_take 6 t1 = string_take 6 t2).
Proof.
  intros Hrun H1 H2 Ht1 Ht2.
  split; [by apply (assignment_key_present g name assigns st st' a1)|].
  split; [by apply (assignment_key_present g name assigns st st' a2)|].
  split; [apply assignment_key_inj|]. unfold assignment_key. by intros ->.
Qed.

(** X28: one directory lookup that raises ends the assignment loop with
    that exception, with or without the grouped flag: the lookup is made for
    every assignment although its result is only used for grouping. *)
Theorem failing_lookup_aborts (g : bool) (name : string) (pre post : list json)
    (a target_id : json) (e : exn) (st s1 : state) :
  foldM (add_assignment unicode_lower http_get py_repr g name) pre st = Ok s1 ->
  subscript "targetId" a = Ok target_id ->
  resolve_group unicode_lower http_get py_repr target_id = Raise e ->
  foldM (add_assignment unicode_lower http_get py_repr g name) (pre ++ a :: post) st = Raise e.
Proof.
  intros Hpre Ht Hlookup. rewrite foldM_app, Hpre. cbn [bind foldM].
  unfold add_assignment. rewrite Ht. cbn [bind]. by rewrite Hlookup.
Qed.

Lemma packages_url_nonempty (catalog_id : string) :
  packages_url catalog_id <> EmptyString.
Proof.
  unfold packages_url. intros H. apply (f_equal String.length) in H.
  rewrite string_length_app in H. simpl in H. lia.
Qed.

(** X29: when the request for the catalog's packages is answered by an
    error body (an object with neither [value] nor [@odata.nextLink]), the
    accumulation succeeds with empty mappings and no import command: the
    export that follows is an empty one, not a failure. *)
Theorem error_body_gives_empty_export (fuel : nat) (catalog_id : string)
    (g : bool) (err : json) :
  http_get (packages_url catalog_id) = Ok err ->
  is_error_response err ->
  collect unicode_lower http_get py_repr (S fuel) catalog_id g = Ok empty_state.
Proof.
  intros Hget (o & -> & Hv & Hlink). unfold collect, get_all.
  rewrite (get_all_loop_step http_get _ _ _ _ (packages_url_nonempty catalog_id)
             Hget).
  rewrite Hv, Hlink. cbn [default from_option id py_iter bind].
  rewrite get_all_loop_done. reflexivity.
Qed.

End KeysMore.

Lemma same_name_policy_overwrites_witness :
  exists duration settings approval primary secondary,
    get_default "durationInDays" (JNum 30) KeyFixtures.short_policy = Ok duration
    /\ get_default "requestApprovalSettings" (JObj []) KeyFixtures.short_policy
       = Ok settings
    /\ get_default "isApprovalRequired" (JBool false) settings = Ok approval
    /\ approver_ids "primaryApprovers" KeyFixtures.short_policy = Ok primary
    /\ approver_ids "escalationApprovers" KeyFixtures.short_policy = Ok secondary
    /\ dget (policy_key Fixtures.no_unicode "finance_access" "Default Policy")
            (assignment_policies KeyFixtures.policies_stored)
       = Some (policy_entry "finance_access" duration approval primary secondary).
Proof.
  apply (same_name_policy_overwrites Fixtures.no_unicode Fixtures.repr "finance_access" [] [] []
           Fixtures.default_policy KeyFixtures.short_policy
           "Default Policy" "default-policy" empty_state
           KeyFixtures.policies_stored).
  - reflexivity.
  - reflexivity.
  - reflexivity.
  - intros p n Hp. by apply elem_of_nil in Hp.
  - vm_compute. reflexivity.
Defined.

Lemma assignment_keys_by_prefix_witness :
  assignment_key "finance_access" "abcdef-0001"
    ∈ dkeys (assignments KeyFixtures.three_stored)
  /\ assignment_key "finance_access" "abcdef-0002"
       ∈ dkeys (assignments KeyFixtures.three_stored)
  /\ (assignment_key "finance_access" "abcdef-0001"
      = assignment_key "finance_access" "abcdef-0002"
      <-> string_take 6 "abcdef-0001" = string_take 6 "abcdef-0002").
Proof.
  apply (assignment_keys_by_prefix Fixtures.no_unicode (OutputFixtures.tenant_named "Team Alpha")
           Fixtures.repr false "finance_access"
           [Fixtures.first_grant; Fixtures.second_grant] empty_state
           KeyFixtures.three_stored Fixtures.first_grant Fixtures.second_grant).
  - vm_compute. reflexivity.
  - apply list_elem_of_here.
  - apply list_elem_of_further, list_elem_of_here.
  - reflexivity.
  - reflexivity.
Defined.

Lemma failing_lookup_aborts_witness :
  foldM (add_assignment Fixtures.no_unicode KeyFixtures.lookup_fails Fixtures.repr false "finance_access")
        [Fixtures.first_grant; Fixtures.second_grant] empty_state
  = Raise RequestException.
Proof.
  apply (failing_lookup_aborts Fixtures.no_unicode KeyFixtures.lookup_fails Fixtures.repr false
           "finance_access" [Fixtures.first_grant] [] Fixtures.second_grant
           (JStr "abcdef-0002") RequestException empty_state
           KeyFixtures.first_stored).
  - vm_compute. reflexivity.
  - reflexivity.
  - vm_compute. reflexivity.
Defined.

Lemma error_body_gives_empty_export_witness :
  collect Fixtures.no_unicode KeyFixtures.throttled Fixtures.repr 1 "single" true = Ok empty_state.
Proof.
  apply (error_body_gives_empty_export Fixtures.no_unicode KeyFixtures.throttled Fixtures.repr 0
           "single" true Fixtures.error_body).
  - reflexivity.
  - eexists. repeat split; reflexivity.
Defined.
